(** * Swachh Bharat record keeping (app.py): persistence, credentials,
      entry repository and report export.

    The development embeds the data-access layer of [app.py]: the JSON
    backing file ([init_data], [load_data], [save_data]), the credential
    functions ([hash_password], [register_user], [login_user]), the entry
    functions ([create_entry], [get_entries], [get_entry], [update_entry],
    [delete_entry]) and the report ([export_to_pdf]).  The Streamlit pages
    are not part of it.

    Python values are modelled as follows.
    - [str] is a list of Unicode scalar values ([char]); [bytes] is a list
      of [Byte.byte].
    - [int] is [Z]; the digit limit of the conversion between [int] and
      [str] in recent interpreters is not modelled.
    - the dicts of the document are used with a fixed set of keys and are
      records ([User], [Entry], [Document]); [None] in the [image] field is
      [option].
    - the backing file is its text, or nothing when it does not exist;
      [json.load] and [json.dump] are modelled on that text for JSON
      without floating point (objects, lists, strings, integers, [true],
      [false], [null]).
    - [hashlib.sha256], [str.encode], [base64.b64encode] are modelled on
      bytes; of the [FPDF] object the model keeps the operations drawn on
      the pages.
    - an exception is a [Raise] in the [result] type.
    - the clock read by [datetime.now()] is an argument of [create_entry]. *)

From Stdlib Require Import String Ascii ZArith NArith Lia Bool Eqdep_dec List.
From Stdlib Require DecimalFacts DecimalZ Finite.
From Stdlib.Strings Require Import Byte.
Import ListNotations.

(* ================================================================== *)
(** * Python values *)

Module Py.

(** Unicode scalar values: code points up to U+10FFFF outside the surrogate
    range U+D800..U+DFFF.  These are the characters a decoded text file and
    a text widget deliver. *)
Definition is_scalar (n : N) : bool :=
  ((n <? 0xD800) || ((0xE000 <=? n) && (n <=? 0x10FFFF)))%N.

Record char : Type := Char { code : N; code_scalar : is_scalar code = true }.

Definition str : Type := list char.
Definition bytes : Type := list byte.

Definition ascii_is_scalar (a : ascii) : is_scalar (N_of_ascii a) = true.
Proof.
  destruct a as [[] [] [] [] [] [] [] []]; reflexivity.
Defined.

(** A character of a literal in the source. *)
Definition chr_ascii (a : ascii) : char := Char (N_of_ascii a) (ascii_is_scalar a).

(** A string literal of the source. *)
Definition lit (s : string) : str := map chr_ascii (list_ascii_of_string s).

(** [chr(n)], defined on scalar values. *)
Definition chr (n : N) : option char :=
  match is_scalar n as b return is_scalar n = b -> option char with
  | true => fun H => Some (Char n H)
  | false => fun _ => None
  end eq_refl.

Definition char_eqb (a b : char) : bool := (code a =? code b)%N.

(** [==] on [str]. *)
Fixpoint str_eqb (a b : str) : bool :=
  match a, b with
  | [], [] => true
  | x :: a', y :: b' => char_eqb x y && str_eqb a' b'
  | _, _ => false
  end.

(** Exceptions the modelled code can raise. *)
Inductive exn : Type :=
| FileNotFoundError      (* open() of a missing file *)
| JSONDecodeError        (* json.load on text that is not JSON *)
| KeyError               (* the loaded JSON lacks a key or a type of the document *)
| UnicodeEncodeError.    (* str.encode on a character the codec lacks *)

Inductive result (A : Type) : Type :=
| Ok (a : A)
| Raise (e : exn).
Arguments Ok {A} a.
Arguments Raise {A} e.

Definition bind {A B} (m : result A) (k : A -> result B) : result B :=
  match m with
  | Ok a => k a
  | Raise e => Raise e
  end.

Definition byte_of_N (n : N) : byte :=
  match Byte.of_N (n mod 256) with
  | Some b => b
  | None => x00
  end.

(** [s.encode()]: UTF-8.  A scalar value always encodes. *)
Definition utf8_char (c : char) : bytes :=
  let n := code c in
  if (n <? 0x80)%N then [byte_of_N n]
  else if (n <? 0x800)%N then
    [byte_of_N (N.lor 0xC0 (N.shiftr n 6));
     byte_of_N (N.lor 0x80 (N.land n 0x3F))]
  else if (n <? 0x10000)%N then
    [byte_of_N (N.lor 0xE0 (N.shiftr n 12));
     byte_of_N (N.lor 0x80 (N.land (N.shiftr n 6) 0x3F));
     byte_of_N (N.lor 0x80 (N.land n 0x3F))]
  else
    [byte_of_N (N.lor 0xF0 (N.shiftr n 18));
     byte_of_N (N.lor 0x80 (N.land (N.shiftr n 12) 0x3F));
     byte_of_N (N.lor 0x80 (N.land (N.shiftr n 6) 0x3F));
     byte_of_N (N.lor 0x80 (N.land n 0x3F))].

Definition encode_utf8 (s : str) : bytes := flat_map utf8_char s.

(** [s.encode('latin1')]: raises on a character above U+00FF. *)
Fixpoint encode_latin1 (s : str) : result bytes :=
  match s with
  | [] => Ok []
  | c :: s' =>
      if (code c <? 256)%N
      then bind (encode_latin1 s') (fun bs => Ok (byte_of_N (code c) :: bs))
      else Raise UnicodeEncodeError
  end.

(** [bytes.decode()] of ASCII bytes, as [b64encode(...).decode()] uses it. *)
Definition decode_ascii (bs : list ascii) : str := map chr_ascii bs.

(** Lower-case hexadecimal digit of a value below 16. *)
Definition hex_digit (n : N) : ascii :=
  if (n <? 10)%N then ascii_of_N (48 + n) else ascii_of_N (87 + n).

(** Decimal digits of a positive number, most significant first:
    [str(n)] for an [int]. *)
Fixpoint digits_of_uint (d : Decimal.uint) : list ascii :=
  match d with
  | Decimal.Nil => []
  | Decimal.D0 d' => "0"%char :: digits_of_uint d'
  | Decimal.D1 d' => "1"%char :: digits_of_uint d'
  | Decimal.D2 d' => "2"%char :: digits_of_uint d'
  | Decimal.D3 d' => "3"%char :: digits_of_uint d'
  | Decimal.D4 d' => "4"%char :: digits_of_uint d'
  | Decimal.D5 d' => "5"%char :: digits_of_uint d'
  | Decimal.D6 d' => "6"%char :: digits_of_uint d'
  | Decimal.D7 d' => "7"%char :: digits_of_uint d'
  | Decimal.D8 d' => "8"%char :: digits_of_uint d'
  | Decimal.D9 d' => "9"%char :: digits_of_uint d'
  end.

Definition int_repr (z : Z) : list ascii :=
  match Z.to_int z with
  | Decimal.Pos d => digits_of_uint d
  | Decimal.Neg d => "-"%char :: digits_of_uint d
  end.

(** [str(z)] and the [{z}] of an f-string, for an [int]. *)
Definition str_of_int (z : Z) : str := map chr_ascii (int_repr z).

End Py.

(* ================================================================== *)
(** * hashlib.sha256 (FIPS 180-4) *)

Module Hashlib.
Import Py.
Local Open Scope N_scope.

Definition w32 (x : N) : N := x mod 0x100000000.
Definition add32 (x y : N) : N := w32 (x + y).
Definition rotr (n x : N) : N := N.lor (N.shiftr x n) (w32 (N.shiftl x (32 - n))).
Definition not32 (x : N) : N := N.lxor x 0xFFFFFFFF.

Definition Ch (x y z : N) : N := N.lxor (N.land x y) (N.land (not32 x) z).
Definition Maj (x y z : N) : N :=
  N.lxor (N.lxor (N.land x y) (N.land x z)) (N.land y z).
Definition Sigma0 (x : N) : N := N.lxor (N.lxor (rotr 2 x) (rotr 13 x)) (rotr 22 x).
Definition Sigma1 (x : N) : N := N.lxor (N.lxor (rotr 6 x) (rotr 11 x)) (rotr 25 x).
Definition sigma0 (x : N) : N := N.lxor (N.lxor (rotr 7 x) (rotr 18 x)) (N.shiftr x 3).
Definition sigma1 (x : N) : N := N.lxor (N.lxor (rotr 17 x) (rotr 19 x)) (N.shiftr x 10).

(** The round constants K0..K63 of FIPS 180-4, section 4.2.2, in decimal. *)
Definition K256 : list N :=
  [
    1116352408; 1899447441; 3049323471; 3921009573;
     961987163; 1508970993; 2453635748; 2870763221;
    3624381080;  310598401;  607225278; 1426881987;
    1925078388; 2162078206; 2614888103; 3248222580;
    3835390401; 4022224774;  264347078;  604807628;
     770255983; 1249150122; 1555081692; 1996064986;
    2554220882; 2821834349; 2952996808; 3210313671;
    3336571891; 3584528711;  113926993;  338241895;
     666307205;  773529912; 1294757372; 1396182291;
    1695183700; 1986661051; 2177026350; 2456956037;
    2730485921; 2820302411; 3259730800; 3345764771;
    3516065817; 3600352804; 4094571909;  275423344;
     430227734;  506948616;  659060556;  883997877;
     958139571; 1322822218; 1537002063; 1747873779;
    1955562222; 2024104815; 2227730452; 2361852424;
    2428436474; 2756734187; 3204031479; 3329325298 ].

(** Big-endian bytes of a value: [k] bytes, most significant first. *)
Fixpoint be_bytes (k : nat) (x : N) : list N :=
  match k with
  | O => []
  | S k' => (N.shiftr x (8 * N.of_nat k')) mod 256 :: be_bytes k' x
  end.

(** Padding: the bit 1, zeros up to 56 modulo 64 bytes, then the message
    length in bits on 64 bits. *)
Definition pad (msg : list N) : list N :=
  let len := N.of_nat (length msg) in
  let zeros := N.to_nat ((64 - ((len + 9) mod 64)) mod 64) in
  msg ++ [0x80] ++ repeat 0 zeros ++ be_bytes 8 (8 * len).

(** The words of a byte sequence, four bytes a word, big-endian. *)
Fixpoint words (bs : list N) : list N :=
  match bs with
  | a :: b :: c :: d :: bs' =>
      (N.shiftl a 24 + N.shiftl b 16 + N.shiftl c 8 + d) :: words bs'
  | _ => []
  end.

(** Blocks of sixteen words. *)
Fixpoint blocks (fuel : nat) (ws : list N) : list (list N) :=
  match fuel, ws with
  | S fuel', _ :: _ => firstn 16 ws :: blocks fuel' (skipn 16 ws)
  | _, _ => []
  end.

(** The message schedule: [k] further words after the first sixteen. *)
Fixpoint schedule (k : nat) (W : list N) : list N :=
  match k with
  | O => W
  | S k' =>
      let t := length W in
      let wt := add32 (add32 (add32 (sigma1 (nth (t - 2) W 0)) (nth (t - 7) W 0))
                             (sigma0 (nth (t - 15) W 0))) (nth (t - 16) W 0) in
      schedule k' (W ++ [wt])
  end.

Record regs : Type :=
  Regs { ra : N; rb : N; rc : N; rd : N; re : N; rf : N; rg : N; rh : N }.

Definition round (r : regs) (kw : N * N) : regs :=
  let '(k, w) := kw in
  let T1 := add32 (add32 (add32 (add32 (rh r) (Sigma1 (re r))) (Ch (re r) (rf r) (rg r))) k) w in
  let T2 := add32 (Sigma0 (ra r)) (Maj (ra r) (rb r) (rc r)) in
  Regs (add32 T1 T2) (ra r) (rb r) (rc r) (add32 (rd r) T1) (re r) (rf r) (rg r).

Definition compress (h : regs) (block : list N) : regs :=
  let r := fold_left round (combine K256 (schedule 48 block)) h in
  Regs (add32 (ra h) (ra r)) (add32 (rb h) (rb r)) (add32 (rc h) (rc r))
       (add32 (rd h) (rd r)) (add32 (re h) (re r)) (add32 (rf h) (rf r))
       (add32 (rg h) (rg r)) (add32 (rh h) (rh r)).

Definition initial : regs :=
  Regs 0x6a09e667 0xbb67ae85 0x3c6ef372 0xa54ff53a
       0x510e527f 0x9b05688c 0x1f83d9ab 0x5be0cd19.

(** [hashlib.sha256(msg).digest()], as eight words. *)
Definition sha256 (msg : bytes) : list N :=
  let ws := words (pad (map Byte.to_N msg)) in
  let r := fold_left compress (blocks (length ws) ws) initial in
  [ra r; rb r; rc r; rd r; re r; rf r; rg r; rh r].

(** Eight lower-case hexadecimal digits of a word. *)
Definition hex_word (x : N) : list ascii :=
  map (fun i => hex_digit ((N.shiftr x (4 * N.of_nat i)) mod 16))
      [7; 6; 5; 4; 3; 2; 1; 0]%nat.

(** [hashlib.sha256(msg).hexdigest()]: 64 hexadecimal digits. *)
Definition hexdigest (msg : bytes) : str :=
  decode_ascii (flat_map hex_word (sha256 msg)).

End Hashlib.

(* ================================================================== *)
(** * base64.b64encode *)

Module Base64.
Import Py.
Local Open Scope N_scope.

Definition alphabet : list ascii :=
  list_ascii_of_string
    "ABCDEFGHIJKLMNOPQRSTUVWXYZabcdefghijklmnopqrstuvwxyz0123456789+/".

Definition sextet (n : N) : ascii := nth (N.to_nat (n mod 64)) alphabet "="%char.

(** Three bytes give four digits; a last group of one or two bytes is
    padded with [=]. *)
Fixpoint b64 (bs : list N) : list ascii :=
  match bs with
  | [] => []
  | [a] =>
      [sextet (N.shiftr a 2); sextet (N.shiftl (N.land a 3) 4); "="%char; "="%char]
  | [a; b] =>
      [sextet (N.shiftr a 2);
       sextet (N.lor (N.shiftl (N.land a 3) 4) (N.shiftr b 4));
       sextet (N.shiftl (N.land b 15) 2); "="%char]
  | a :: b :: c :: bs' =>
      sextet (N.shiftr a 2)
      :: sextet (N.lor (N.shiftl (N.land a 3) 4) (N.shiftr b 4))
      :: sextet (N.lor (N.shiftl (N.land b 15) 2) (N.shiftr c 6))
      :: sextet (N.land c 63)
      :: b64 bs'
  end.

(** [base64.b64encode(bs)], an ASCII byte string. *)
Definition b64encode (bs : bytes) : list ascii := b64 (map Byte.to_N bs).

End Base64.

(* ================================================================== *)
(** * json.dump and json.load

    The values are those of the JSON fragment without floating point.
    A dict keeps its keys in insertion order.  [loads] follows the scanner
    of the json module: [scan_once], [scanstring], [JSONArray],
    [JSONObject]; it answers [None] where the module raises
    [JSONDecodeError], and also on a number with a fraction or an exponent
    and on an escaped lone surrogate, which this fragment has no value
    for. *)

Module Json.
Import Py.
Local Open Scope N_scope.

#[warnings="-register-all"] Inductive json : Type :=
| JNull
| JBool (b : bool)
| JInt (z : Z)
| JStr (s : str)
| JList (l : list json)
| JDict (kvs : list (str * json)).

(** ** Encoding, [ensure_ascii=True] *)

Definition hex4 (n : N) : str :=
  map (fun i => chr_ascii (hex_digit ((N.shiftr n (4 * N.of_nat i)) mod 16)))
      [3; 2; 1; 0]%nat.

(** [ESCAPE_ASCII] and [ESCAPE_DCT] of json.encoder: the quote, the
    backslash and everything outside [' '..'~'] is escaped. *)
Definition escape_char (c : char) : str :=
  let n := code c in
  if n =? 34 then lit "\" ++ [c]
  else if n =? 92 then lit "\\"
  else if n =? 10 then lit "\n"
  else if n =? 13 then lit "\r"
  else if n =? 9 then lit "\t"
  else if n =? 8 then lit "\b"
  else if n =? 12 then lit "\f"
  else if (32 <=? n) && (n <=? 126) then [c]
  else if n <? 0x10000 then lit "\u" ++ hex4 n
  else
    let v := n - 0x10000 in
    lit "\u" ++ hex4 (N.lor 0xD800 (N.land (N.shiftr v 10) 0x3FF))
    ++ lit "\u" ++ hex4 (N.lor 0xDC00 (N.land v 0x3FF)).

Definition quote : char := chr_ascii (ascii_of_N 34).
Definition newline : char := chr_ascii (ascii_of_N 10).

(** [py_encode_basestring_ascii]. *)
Definition encode_basestring_ascii (s : str) : str :=
  quote :: flat_map escape_char s ++ [quote].

(** ['\n' + ' ' * (4 * level)]. *)
Definition newline_indent (level : nat) : str :=
  newline :: repeat (chr_ascii " ") (4 * level).

(** The chunks of a container, separated by [',' + newline_indent]. *)
Fixpoint join_items (sep : str) (chunks : list str) : str :=
  match chunks with
  | [] => []
  | [c] => c
  | c :: cs => c ++ lit "," ++ sep ++ join_items sep cs
  end.

(** [_iterencode] with [indent=4], at nesting [level]. *)
Fixpoint dump (level : nat) (v : json) : str :=
  match v with
  | JNull => lit "null"
  | JBool true => lit "true"
  | JBool false => lit "false"
  | JInt z => str_of_int z
  | JStr s => encode_basestring_ascii s
  | JList [] => lit "[]"
  | JList l =>
      lit "[" ++ newline_indent (S level)
      ++ join_items (newline_indent (S level)) (map (dump (S level)) l)
      ++ newline_indent level ++ lit "]"
  | JDict [] => lit "{}"
  | JDict kvs =>
      lit "{" ++ newline_indent (S level)
      ++ join_items (newline_indent (S level))
           (map (fun kv => match kv with
                           | (k, x) => encode_basestring_ascii k ++ lit ": " ++ dump (S level) x
                           end) kvs)
      ++ newline_indent level ++ lit "}"
  end.

(** [json.dumps(v, indent=4)]. *)
Definition dumps (v : json) : str := dump 0 v.

(** ** Decoding *)

Definition is_ws (c : char) : bool :=
  let n := code c in (n =? 32) || (n =? 9) || (n =? 10) || (n =? 13).

Fixpoint skip_ws (s : str) : str :=
  match s with
  | c :: s' => if is_ws c then skip_ws s' else s
  | [] => []
  end.

Definition hex_val (c : char) : option N :=
  let n := code c in
  if (48 <=? n) && (n <=? 57) then Some (n - 48)
  else if (97 <=? n) && (n <=? 102) then Some (n - 87)
  else if (65 <=? n) && (n <=? 70) then Some (n - 55)
  else None.

(** [_decode_uXXXX]: four hexadecimal digits. *)
Definition decode_uXXXX (s : str) : option (N * str) :=
  match s with
  | a :: b :: c :: d :: rest =>
      match hex_val a, hex_val b, hex_val c, hex_val d with
      | Some x, Some y, Some z, Some w => Some (x * 4096 + y * 256 + z * 16 + w, rest)
      | _, _, _, _ => None
      end
  | _ => None
  end.

(** The code unit after a backslash-u, joined with a following low
    surrogate escape when it is a high surrogate. *)
Definition unicode_escape (s : str) : option (N * str) :=
  match decode_uXXXX s with
  | None => None
  | Some (uni, s1) =>
      if (0xD800 <=? uni) && (uni <=? 0xDBFF) then
        match s1 with
        | b :: u :: s2 =>
            if (code b =? 92) && (code u =? 117) then
              match decode_uXXXX s2 with
              | None => None
              | Some (uni2, s3) =>
                  if (0xDC00 <=? uni2) && (uni2 <=? 0xDFFF)
                  then Some (0x10000 + N.lor (N.shiftl (uni - 0xD800) 10) (uni2 - 0xDC00), s3)
                  else Some (uni, s1)
              end
            else Some (uni, s1)
        | _ => Some (uni, s1)
        end
      else Some (uni, s1)
  end.

(** The [BACKSLASH] table of json.decoder. *)
Definition backslash (c : char) : option char :=
  let n := code c in
  if n =? 34 then Some c
  else if n =? 92 then Some c
  else if n =? 47 then Some c
  else if n =? 98 then chr 8
  else if n =? 102 then chr 12
  else if n =? 110 then chr 10
  else if n =? 114 then chr 13
  else if n =? 116 then chr 9
  else None.

(** [scanstring], strict, from the character after the opening quote:
    the string and the text after its closing quote. *)
Fixpoint scanstring (fuel : nat) (s : str) : option (str * str) :=
  match fuel with
  | O => None
  | S fuel' =>
      match s with
      | [] => None
      | c :: s1 =>
          let n := code c in
          if n =? 34 then Some ([], s1)
          else if n =? 92 then
            match s1 with
            | [] => None
            | e :: s2 =>
                if code e =? 117 then
                  match unicode_escape s2 with
                  | None => None
                  | Some (uni, s3) =>
                      match chr uni with
                      | None => None
                      | Some ch =>
                          match scanstring fuel' s3 with
                          | None => None
                          | Some (cs, rest) => Some (ch :: cs, rest)
                          end
                      end
                  end
                else
                  match backslash e with
                  | None => None
                  | Some ch =>
                      match scanstring fuel' s2 with
                      | None => None
                      | Some (cs, rest) => Some (ch :: cs, rest)
                      end
                  end
            end
          else if n <? 32 then None
          else
            match scanstring fuel' s1 with
            | None => None
            | Some (cs, rest) => Some (c :: cs, rest)
            end
      end
  end.

Definition digit_val (c : char) : option N :=
  let n := code c in
  if (48 <=? n) && (n <=? 57) then Some (n - 48) else None.

Definition uint_cons (d : N) (u : Decimal.uint) : Decimal.uint :=
  match d with
  | 0 => Decimal.D0 u | 1 => Decimal.D1 u | 2 => Decimal.D2 u
  | 3 => Decimal.D3 u | 4 => Decimal.D4 u | 5 => Decimal.D5 u
  | 6 => Decimal.D6 u | 7 => Decimal.D7 u | 8 => Decimal.D8 u
  | _ => Decimal.D9 u
  end.

(** The longest run of decimal digits at the head of the text. *)
Fixpoint scan_digits (s : str) : Decimal.uint * str :=
  match s with
  | c :: s' =>
      match digit_val c with
      | Some d => let '(u, rest) := scan_digits s' in (uint_cons d u, rest)
      | None => (Decimal.Nil, s)
      end
  | [] => (Decimal.Nil, [])
  end.

(** The integer part of [NUMBER_RE]: a zero, or a digit from 1 to 9 and
    the digits after it. *)
Definition scan_uint (s : str) : option (Decimal.uint * str) :=
  match s with
  | c :: s' =>
      match digit_val c with
      | Some 0 => Some (Decimal.D0 Decimal.Nil, s')
      | Some _ => Some (scan_digits s)
      | None => None
      end
  | [] => None
  end.

(** An [int] literal, with its sign. *)
Definition scan_int (s : str) : option (Z * str) :=
  match s with
  | c :: s' =>
      if code c =? 45 then
        match scan_uint s' with
        | Some (u, rest) => Some (Z.of_int (Decimal.Neg u), rest)
        | None => None
        end
      else
        match scan_uint s with
        | Some (u, rest) => Some (Z.of_int (Decimal.Pos u), rest)
        | None => None
        end
  | [] => None
  end.

(** [s] after the literal [w], when [s] starts with it. *)
Fixpoint strip_prefix (w s : str) : option str :=
  match w, s with
  | [], _ => Some s
  | a :: w', b :: s' => if char_eqb a b then strip_prefix w' s' else None
  | _ :: _, [] => None
  end.

(** [d[k] = v] on a dict: an existing key keeps its place. *)
Fixpoint dict_set (d : list (str * json)) (k : str) (v : json) : list (str * json) :=
  match d with
  | [] => [(k, v)]
  | (k', v') :: d' =>
      if str_eqb k' k then (k', v) :: d' else (k', v') :: dict_set d' k v
  end.

(** [dict(pairs)]. *)
Definition dict_of_pairs (pairs : list (str * json)) : list (str * json) :=
  fold_left (fun d kv => dict_set d (fst kv) (snd kv)) pairs [].

(** [scan_once] with [JSONArray] and [JSONObject].  One unit of fuel is
    used for each value and each container item; [loads] gives the length
    of the text, which is enough as every one of them takes a character. *)
Fixpoint scan_once (fuel : nat) (s : str) : option (json * str) :=
  match fuel with
  | O => None
  | S fuel' =>
      match s with
      | [] => None
      | c :: s1 =>
          let n := code c in
          if n =? 34 then
            match scanstring (List.length s1) s1 with
            | Some (x, rest) => Some (JStr x, rest)
            | None => None
            end
          else if n =? 123 then
            match skip_ws s1 with
            | c2 :: s2 =>
                if code c2 =? 125 then Some (JDict [], s2)
                else if code c2 =? 34 then
                  match JSONObject fuel' s2 with
                  | Some (pairs, rest) => Some (JDict (dict_of_pairs pairs), rest)
                  | None => None
                  end
                else None
            | [] => None
            end
          else if n =? 91 then
            match skip_ws s1 with
            | c2 :: s2 =>
                if code c2 =? 93 then Some (JList [], s2)
                else
                  match JSONArray fuel' (c2 :: s2) with
                  | Some (values, rest) => Some (JList values, rest)
                  | None => None
                  end
            | [] => None
            end
          else if n =? 110 then
            match strip_prefix (lit "null") s with
            | Some rest => Some (JNull, rest)
            | None => None
            end
          else if n =? 116 then
            match strip_prefix (lit "true") s with
            | Some rest => Some (JBool true, rest)
            | None => None
            end
          else if n =? 102 then
            match strip_prefix (lit "false") s with
            | Some rest => Some (JBool false, rest)
            | None => None
            end
          else
            match scan_int s with
            | Some (z, rest) => Some (JInt z, rest)
            | None => None
            end
      end
  end

(** The loop of [JSONArray], from the first character of a value. *)
with JSONArray (fuel : nat) (s : str) : option (list json * str) :=
  match fuel with
  | O => None
  | S fuel' =>
      match scan_once fuel' s with
      | None => None
      | Some (value, s1) =>
          match skip_ws s1 with
          | c :: s2 =>
              if code c =? 93 then Some ([value], s2)
              else if code c =? 44 then
                match JSONArray fuel' (skip_ws s2) with
                | Some (values, rest) => Some (value :: values, rest)
                | None => None
                end
              else None
          | [] => None
          end
      end
  end

(** The loop of [JSONObject], from the character after the opening quote
    of a key. *)
with JSONObject (fuel : nat) (s : str) : option (list (str * json) * str) :=
  match fuel with
  | O => None
  | S fuel' =>
      match scanstring (List.length s) s with
      | None => None
      | Some (key, s1) =>
          match skip_ws s1 with
          | c :: s2 =>
              if code c =? 58 then
                match scan_once fuel' (skip_ws s2) with
                | None => None
                | Some (value, s3) =>
                    match skip_ws s3 with
                    | c3 :: s4 =>
                        if code c3 =? 125 then Some ([(key, value)], s4)
                        else if code c3 =? 44 then
                          match skip_ws s4 with
                          | c5 :: s5 =>
                              if code c5 =? 34 then
                                match JSONObject fuel' s5 with
                                | Some (pairs, rest) => Some ((key, value) :: pairs, rest)
                                | None => None
                                end
                              else None
                          | [] => None
                          end
                        else None
                    | [] => None
                    end
                end
              else None
          | [] => None
          end
      end
  end.

(** [json.loads(s)]: one value between optional whitespace. *)
Definition loads (s : str) : option json :=
  match scan_once (List.length s) (skip_ws s) with
  | Some (v, rest) =>
      match skip_ws rest with
      | [] => Some v
      | _ :: _ => None
      end
  | None => None
  end.

End Json.

(* ================================================================== *)
(** * The document *)

Import Py.

(** A user, as [register_user] builds it. *)
Record User : Type := mkUser {
  u_id : Z;
  u_username : str;
  u_password : str;
  u_full_name : str
}.

(** An entry, as [create_entry] builds it. *)
Record Entry : Type := mkEntry {
  e_id : Z;
  e_user_id : Z;
  e_household_name : str;
  e_father_name : str;
  e_mobile_no : str;
  e_address : str;
  e_dustbin_number : Z;
  e_image : option str;
  e_created_at : str
}.

(** The root object of [data.json]. *)
Record Document : Type := mkDocument {
  users : list User;
  entries : list Entry
}.

(** ** The document as JSON *)

Module Shape.
Import Json.

Definition user_to_json (u : User) : json :=
  JDict [ (lit "id", JInt (u_id u));
          (lit "username", JStr (u_username u));
          (lit "password", JStr (u_password u));
          (lit "full_name", JStr (u_full_name u)) ].

Definition image_to_json (i : option str) : json :=
  match i with
  | Some s => JStr s
  | None => JNull
  end.

Definition entry_to_json (e : Entry) : json :=
  JDict [ (lit "id", JInt (e_id e));
          (lit "user_id", JInt (e_user_id e));
          (lit "household_name", JStr (e_household_name e));
          (lit "father_name", JStr (e_father_name e));
          (lit "mobile_no", JStr (e_mobile_no e));
          (lit "address", JStr (e_address e));
          (lit "dustbin_number", JInt (e_dustbin_number e));
          (lit "image", image_to_json (e_image e));
          (lit "created_at", JStr (e_created_at e)) ].

Definition document_to_json (d : Document) : json :=
  JDict [ (lit "users", JList (map user_to_json (users d)));
          (lit "entries", JList (map entry_to_json (entries d))) ].

(** [d[k]] on a dict. *)
Fixpoint dict_get (d : list (str * json)) (k : str) : option json :=
  match d with
  | [] => None
  | (k', v) :: d' => if str_eqb k' k then Some v else dict_get d' k
  end.

Definition get_int (d : list (str * json)) (k : string) : option Z :=
  match dict_get d (lit k) with
  | Some (JInt z) => Some z
  | _ => None
  end.

Definition get_str (d : list (str * json)) (k : string) : option str :=
  match dict_get d (lit k) with
  | Some (JStr s) => Some s
  | _ => None
  end.

Definition get_image (d : list (str * json)) (k : string) : option (option str) :=
  match dict_get d (lit k) with
  | Some (JStr s) => Some (Some s)
  | Some JNull => Some None
  | _ => None
  end.

Definition get_list (d : list (str * json)) (k : string) : option (list json) :=
  match dict_get d (lit k) with
  | Some (JList l) => Some l
  | _ => None
  end.

(** The user a dict with exactly the four keys stands for, whatever the
    order of its keys. *)
Definition user_of_json (v : json) : option User :=
  match v with
  | JDict d =>
      match get_int d "id", get_str d "username",
            get_str d "password", get_str d "full_name" with
      | Some i, Some n, Some p, Some f =>
          if Nat.eqb (List.length d) 4 then Some (mkUser i n p f) else None
      | _, _, _, _ => None
      end
  | _ => None
  end.

Definition entry_of_json (v : json) : option Entry :=
  match v with
  | JDict d =>
      match get_int d "id", get_int d "user_id", get_str d "household_name",
            get_str d "father_name", get_str d "mobile_no", get_str d "address",
            get_int d "dustbin_number", get_image d "image",
            get_str d "created_at" with
      | Some i, Some u, Some h, Some f, Some m, Some a, Some n, Some g, Some c =>
          if Nat.eqb (List.length d) 9 then Some (mkEntry i u h f m a n g c) else None
      | _, _, _, _, _, _, _, _, _ => None
      end
  | _ => None
  end.

(** All the elements, or nothing if one of them is ill-shaped. *)
Fixpoint traverse {A B : Type} (f : A -> option B) (l : list A) : option (list B) :=
  match l with
  | [] => Some []
  | x :: l' =>
      match f x, traverse f l' with
      | Some y, Some ys => Some (y :: ys)
      | _, _ => None
      end
  end.

Definition document_of_json (v : json) : option Document :=
  match v with
  | JDict d =>
      match get_list d "users", get_list d "entries" with
      | Some us, Some es =>
          match traverse user_of_json us, traverse entry_of_json es with
          | Some us', Some es' =>
              if Nat.eqb (List.length d) 2 then Some (mkDocument us' es') else None
          | _, _ => None
          end
      | _, _ => None
      end
  | _ => None
  end.

End Shape.

(* ================================================================== *)
(** * Persistent store *)

(** The backing file [data.json]: its text, or [None] when it does not
    exist. *)
Definition file : Type := option str.

(** A function of the program reads and writes the backing file and may
    raise. *)
Definition M (A : Type) : Type := file -> result (A * file).

Definition ret {A} (a : A) : M A := fun f => Ok (a, f).

Definition mbind {A B} (m : M A) (k : A -> M B) : M B :=
  fun f =>
    match m f with
    | Ok (a, f') => k a f'
    | Raise e => Raise e
    end.

Notation "x <- m ;; k" := (mbind m (fun x => k))
  (at level 61, m at next level, right associativity).
Notation "m ;;; k" := (mbind m (fun _ => k))
  (at level 61, right associativity).

(** The text [json.dump({"users": [], "entries": []}, f)] writes. *)
Definition empty_document_text : str :=
  lit "{" ++ [Json.quote] ++ lit "users" ++ [Json.quote] ++ lit ": [], "
  ++ [Json.quote] ++ lit "entries" ++ [Json.quote] ++ lit ": []}".

Definition init_data : M unit :=
  fun f =>
    match f with
    | None => Ok (tt, Some empty_document_text)
    | Some _ => Ok (tt, f)
    end.

(** [json.load] of the file, read as a document.  JSON of another shape
    than the document's is outside the model and raises here. *)
Definition load_data : M Document :=
  fun f =>
    match f with
    | None => Raise FileNotFoundError
    | Some text =>
        match Json.loads text with
        | None => Raise JSONDecodeError
        | Some v =>
            match Shape.document_of_json v with
            | None => Raise KeyError
            | Some d => Ok (d, f)
            end
        end
    end.

Definition save_data (data : Document) : M unit :=
  fun _ => Ok (tt, Some (Json.dumps (Shape.document_to_json data))).

Definition hash_password (password : str) : str :=
  Hashlib.hexdigest (encode_utf8 password).

(* ================================================================== *)
(** * Auth functions *)

Definition register_user (username password full_name : str) : M bool :=
  data <- load_data ;;
  if existsb (fun u => str_eqb (u_username u) username) (users data)
  then ret false
  else
    let new_user :=
      mkUser (Z.of_nat (List.length (users data)) + 1)
             username (hash_password password) full_name in
    save_data (mkDocument (users data ++ [new_user]) (entries data)) ;;;
    ret true.

(** The user, or [None]. *)
Definition login_user (username password : str) : M (option User) :=
  data <- load_data ;;
  let hashed := hash_password password in
  ret (find (fun user => str_eqb (u_username user) username
                         && str_eqb (u_password user) hashed)
            (users data)).

(* ================================================================== *)
(** * CRUD functions *)

(** The [image] field: [image_bytes] is [None], empty or a photo. *)
Definition encode_image (image_bytes : option bytes) : option str :=
  match image_bytes with
  | Some (b :: bs) => Some (decode_ascii (Base64.b64encode (b :: bs)))
  | Some [] => None
  | None => None
  end.

(** [now] is the text of [datetime.now().isoformat()] at the call. *)
Definition create_entry (user_id : Z)
    (household_name father_name mobile_no address : str) (dustbin_number : Z)
    (image_bytes : option bytes) (now : str) : M unit :=
  data <- load_data ;;
  let new_entry :=
    mkEntry (Z.of_nat (List.length (entries data)) + 1) user_id
            household_name father_name mobile_no address dustbin_number
            (encode_image image_bytes) now in
  save_data (mkDocument (users data) (entries data ++ [new_entry])).

Definition get_entries (user_id : Z) : M (list Entry) :=
  data <- load_data ;;
  ret (filter (fun e => Z.eqb (e_user_id e) user_id) (entries data)).

(** The entry, or [None]. *)
Definition get_entry (entry_id : Z) : M (option Entry) :=
  data <- load_data ;;
  ret (find (fun e => Z.eqb (e_id e) entry_id) (entries data)).

(** The assignments of the loop body of [update_entry]. *)
Definition set_fields (household_name father_name mobile_no address : str)
    (dustbin_number : Z) (e : Entry) : Entry :=
  mkEntry (e_id e) (e_user_id e) household_name father_name mobile_no address
          dustbin_number (e_image e) (e_created_at e).

Definition update_entry (entry_id : Z)
    (household_name father_name mobile_no address : str) (dustbin_number : Z)
    : M unit :=
  data <- load_data ;;
  save_data
    (mkDocument (users data)
       (map (fun e => if Z.eqb (e_id e) entry_id
                      then set_fields household_name father_name mobile_no
                                      address dustbin_number e
                      else e)
            (entries data))).

Definition delete_entry (entry_id : Z) : M unit :=
  data <- load_data ;;
  save_data
    (mkDocument (users data)
       (filter (fun e => negb (Z.eqb (e_id e) entry_id)) (entries data))).

(* ================================================================== *)
(** * PDF export

    Of the FPDF object the model keeps what [export_to_pdf] uses: the
    font, the pages and, for each page, the cells and line breaks drawn on
    it in order.  Two things the library computes are parameters: whether
    a cell still fits on the current page (floating-point layout), and the
    bytes of the document after its header (objects with compressed page
    streams, cross-reference table, trailer). *)

Module Fpdf.

Inductive op : Type :=
| Cell (w h : Z) (txt : str) (ln : bool) (align : str)
| Ln (h : Z).

Record FPDF : Type := mkFPDF {
  font_family : str;
  font_size_pt : Z;
  pages : list (list op)
}.

(** [FPDF()]. *)
Definition new : FPDF := mkFPDF (lit "") 12 [].

Definition set_font (family : str) (size : Z) (pdf : FPDF) : FPDF :=
  mkFPDF family size (pages pdf).

Definition add_page (pdf : FPDF) : FPDF :=
  mkFPDF (font_family pdf) (font_size_pt pdf) (pages pdf ++ [[]]).

(** The operation goes to the current page, the last one.  Before the
    first [add_page] there is no page to draw on. *)
Fixpoint draw (o : op) (ps : list (list op)) : list (list op) :=
  match ps with
  | [] => []
  | [p] => [p ++ [o]]
  | p :: ps' => p :: draw o ps'
  end.

Definition current_page (pdf : FPDF) : list op := last (pages pdf) [].

Definition op_text (o : op) : str :=
  match o with
  | Cell _ _ txt _ _ => txt
  | Ln _ => []
  end.

(** The text drawn on the pages, in drawing order. *)
Definition page_text (pdf : FPDF) : str := flat_map op_text (concat (pages pdf)).

Definition decode_latin1 (bs : bytes) : str :=
  map (fun b => chr_ascii (ascii_of_byte b)) bs.

Section Library.

(** [page_break ops h]: a cell of height [h] does not fit under [ops]. *)
Variable page_break : list op -> Z -> bool.

(** The bytes that follow the header in the document. *)
Variable document_body : FPDF -> bytes.

(** [pdf.cell(w, h, txt, ln=..., align=...)]: a page is added first when
    the cell does not fit. *)
Definition cell (w h : Z) (txt : str) (ln : bool) (align : str) (pdf : FPDF) : FPDF :=
  let pdf1 := if page_break (current_page pdf) h then add_page pdf else pdf in
  mkFPDF (font_family pdf1) (font_size_pt pdf1)
         (draw (Cell w h txt ln align) (pages pdf1)).

(** [pdf.ln(h)]. *)
Definition ln (h : Z) (pdf : FPDF) : FPDF :=
  mkFPDF (font_family pdf) (font_size_pt pdf) (draw (Ln h) (pages pdf)).

(** [close()]: a document without a page gets one. *)
Definition close (pdf : FPDF) : FPDF :=
  match pages pdf with
  | [] => add_page pdf
  | _ :: _ => pdf
  end.

(** [pdf.output(dest='S')]: the document as a string of characters up to
    U+00FF.  The page content is encoded as Latin-1 on the way, which
    raises on any other character. *)
Definition output (pdf : FPDF) : result str :=
  let pdf1 := close pdf in
  bind (encode_latin1 (page_text pdf1)) (fun _ =>
  Ok (lit "%PDF-1.3" ++ Json.newline :: decode_latin1 (document_body pdf1))).

End Library.
End Fpdf.

(** [enumerate(l, start)]. *)
Fixpoint enumerate {A : Type} (start : Z) (l : list A) : list (Z * A) :=
  match l with
  | [] => []
  | x :: l' => (start, x) :: enumerate (start + 1) l'
  end.

(** The two f-strings of the report. *)
Definition entry_line1 (idx : Z) (entry : Entry) : str :=
  str_of_int idx ++ lit ". " ++ e_household_name entry ++ lit " ("
  ++ e_father_name entry ++ lit "), Mobile: " ++ e_mobile_no entry.

Definition entry_line2 (entry : Entry) : str :=
  lit "Address: " ++ e_address entry ++ lit ", Dustbin No: "
  ++ str_of_int (e_dustbin_number entry).

Section Report.

Variable page_break : list Fpdf.op -> Z -> bool.
Variable document_body : Fpdf.FPDF -> bytes.

(** The body of the [for] loop. *)
Definition export_entry (pdf : Fpdf.FPDF) (ie : Z * Entry) : Fpdf.FPDF :=
  let '(idx, entry) := ie in
  let pdf := Fpdf.cell page_break 0 10 (entry_line1 idx entry) true (lit "") pdf in
  let pdf := Fpdf.cell page_break 0 10 (entry_line2 entry) true (lit "") pdf in
  Fpdf.ln 5 pdf.

(** The document before it is written out. *)
Definition export_document (entries : list Entry) : Fpdf.FPDF :=
  let pdf := Fpdf.new in
  let pdf := Fpdf.set_font (lit "Arial") 10 pdf in
  let pdf := Fpdf.add_page pdf in
  let pdf := Fpdf.cell page_break 200 10 (lit "Entries Report") true (lit "C") pdf in
  let pdf := Fpdf.ln 10 pdf in
  fold_left export_entry (enumerate 1 entries) pdf.

Definition export_to_pdf (entries : list Entry) : result bytes :=
  bind (Fpdf.output document_body (export_document entries)) encode_latin1.

End Report.

(* ================================================================== *)
(** * Notions used in the statements *)

(** The backing file [f] exists and is read as the document [data]. *)
Definition holds (f : file) (data : Document) : Prop :=
  load_data f = Ok (data, f).

(** The text [save_data] writes for a document. *)
Definition saved (data : Document) : file :=
  Some (Json.dumps (Shape.document_to_json data)).

(** The stored user carries this username and the SHA-256 hex digest of
    this password. *)
Definition credentials_match (username password : str) (u : User) : Prop :=
  u_username u = username
  /\ u_password u = Hashlib.hexdigest (encode_utf8 password).

(** The arguments of one call of [create_entry], with the clock reading
    at the call. *)
Record CreateCall : Type := mkCreateCall {
  c_user_id : Z;
  c_household_name : str;
  c_father_name : str;
  c_mobile_no : str;
  c_address : str;
  c_dustbin_number : Z;
  c_image_bytes : option bytes;
  c_now : str
}.

Definition call_create (c : CreateCall) : M unit :=
  create_entry (c_user_id c) (c_household_name c) (c_father_name c)
               (c_mobile_no c) (c_address c) (c_dustbin_number c)
               (c_image_bytes c) (c_now c).

(** The calls one after the other. *)
Fixpoint call_creates (cs : list CreateCall) : M unit :=
  match cs with
  | [] => ret tt
  | c :: cs' => call_create c ;;; call_creates cs'
  end.

(** The entry a call makes when [n] entries are stored. *)
Definition created_entry (n : nat) (c : CreateCall) : Entry :=
  mkEntry (Z.of_nat n + 1) (c_user_id c) (c_household_name c) (c_father_name c)
          (c_mobile_no c) (c_address c) (c_dustbin_number c)
          (encode_image (c_image_bytes c)) (c_now c).

(** The entries a sequence of calls makes, the first one when [n] entries
    are stored. *)
Fixpoint created_entries (n : nat) (cs : list CreateCall) : list Entry :=
  match cs with
  | [] => []
  | c :: cs' => created_entry n c :: created_entries (S n) cs'
  end.

(** The entry belongs to the user. *)
Definition owned_by (user_id : Z) (e : Entry) : bool := Z.eqb (e_user_id e) user_id.

(** Every character of the string is at most U+00FF. *)
Definition latin1 (s : str) : bool := forallb (fun c => (code c <? 256)%N) s.

(** The four text fields the report prints are Latin-1. *)
Definition entry_latin1 (e : Entry) : bool :=
  latin1 (e_household_name e) && latin1 (e_father_name e)
  && latin1 (e_mobile_no e) && latin1 (e_address e).

(** The three operations the report draws for the entry numbered [idx]. *)
Definition entry_ops (idx : Z) (e : Entry) : list Fpdf.op :=
  [ Fpdf.Cell 0 10
      (str_of_int idx ++ lit ". " ++ e_household_name e ++ lit " ("
       ++ e_father_name e ++ lit "), Mobile: " ++ e_mobile_no e)
      true (lit "");
    Fpdf.Cell 0 10
      (lit "Address: " ++ e_address e ++ lit ", Dustbin No: "
       ++ str_of_int (e_dustbin_number e))
      true (lit "");
    Fpdf.Ln 5 ].

(** The bytes of the header line of a PDF document. *)
Definition pdf_header : bytes :=
  map byte_of_ascii (list_ascii_of_string "%PDF-1.3") ++ [byte_of_N 10].

(** An entry whose household name is the Devanagari letter U+0939. *)
Definition devanagari_entry : Entry :=
  mkEntry 1 1 [Char 0x939 eq_refl] (lit "R Shah") (lit "9999999999")
          (lit "12 MG Road") 3 None (lit "2024-01-01T10:00:00").

(* ================================================================== *)
(** * Notions used in the proofs about json *)

Module JsonNotions.
Import Py Json.
Local Open Scope N_scope.

(** A character put in front of what the rest of a string scans to. *)
Definition scan_cons (c : char) (r : option (str * str)) : option (str * str) :=
  match r with
  | Some (cs, rest) => Some (c :: cs, rest)
  | None => None
  end.

(** The text after an integer does not go on with a digit. *)
Definition head_not_digit (s : str) : Prop :=
  match s with
  | [] => True
  | c :: _ => digit_val c = None
  end.

(** Fuel that reads a value back. *)
Fixpoint size (v : json) : nat :=
  match v with
  | JList l => S (fold_right (fun x n => S (size x + n)%nat) O l)
  | JDict kvs => S (fold_right (fun kv n => S (size (snd kv) + n)%nat) O kvs)
  | _ => 1%nat
  end.

(** No dict of the value has a key twice. *)
Fixpoint wf (v : json) : Prop :=
  match v with
  | JList l => fold_right (fun x P => wf x /\ P) True l
  | JDict kvs =>
      NoDup (map fst kvs) /\ fold_right (fun kv P => wf (snd kv) /\ P) True kvs
  | _ => True
  end.

(** The items of a non-empty list after the opening bracket and the
    indentation, up to the text [close] that ends the list. *)
Fixpoint items_text (level : nat) (l : list json) (close : str) : str :=
  match l with
  | [] => close
  | x :: l' =>
      dump (S level) x
      ++ match l' with
         | [] => close
         | _ :: _ => lit "," ++ newline_indent (S level) ++ items_text level l' close
         end
  end.

(** The members of a non-empty dict after the opening quote of the first
    key. *)
Fixpoint members_text (level : nat) (kvs : list (str * json)) (close : str) : str :=
  match kvs with
  | [] => close
  | (k, x) :: kvs' =>
      flat_map escape_char k ++ quote :: lit ": " ++ dump (S level) x
      ++ match kvs' with
         | [] => close
         | _ :: _ =>
             lit "," ++ newline_indent (S level) ++ quote :: members_text level kvs' close
         end
  end.

(** The first character of a value: no whitespace and no closing
    bracket. *)
Definition starts_value (s : str) : Prop :=
  exists c tl, s = c :: tl /\ is_ws c = false /\ code c <> 93.

(** [scan_once] reads the value back from its text, whatever follows. *)
Definition reads_back (v : json) : Prop :=
  forall (level : nat) (tl : str) (fuel : nat),
    wf v -> head_not_digit tl -> (size v <= fuel)%nat ->
    scan_once fuel (dump level v ++ tl) = Some (v, tl).

(** The strings of the list are pairwise different. *)
Fixpoint distinct (l : list str) : bool :=
  match l with
  | [] => true
  | x :: l' => negb (existsb (str_eqb x) l') && distinct l'
  end.

End JsonNotions.

(* ================================================================== *)
(** * Sample data *)

Definition sample_call : CreateCall :=
  mkCreateCall 1 (lit "Shah House") (lit "R Shah") (lit "9999999999")
               (lit "12 MG Road") 3 None (lit "2024-01-01T10:00:00").

Definition sample_user : User :=
  mkUser 1 (lit "alice") (hash_password (lit "pw123")) (lit "Alice A").

Definition sample_document : Document :=
  mkDocument [sample_user] [created_entry 0 sample_call].

Definition sample_file : file := saved sample_document.


(* ================================================================== *)
(** * Streamlit pages

    One run of the script is a function of what the widgets return in
    that run (the [Run] record) and of the session state and the backing
    file before it; it gives the session state and the file after it and
    the elements displayed, in order.  An exception ends the run and keeps
    what was displayed and written before it. *)

Module St.

(** A row of the table [page_entries] shows: the seven selected columns. *)
Record Row : Type := mkRow {
  r_household_name : str;
  r_father_name : str;
  r_mobile_no : str;
  r_address : str;
  r_dustbin_number : Z;
  r_created_at : str;
  r_Image : str
}.

(** The display calls of the script. *)
Inductive element : Type :=
| PageConfig (page_title page_icon layout : str)
| Markdown (body : str)
| Title (body : str)
| Success (body : str)
| Error (body : str)
| Info (body : str)
| Dataframe (rows : list Row)
| DownloadButton (label : str) (data : bytes) (file_name mime : str).

(** Exceptions of a run: those of the store and the report, and the two of
    reading the user of the session. *)
Inductive failure : Type :=
| Raised (e : exn)
| AttributeError     (* st.session_state.user when the key is not set *)
| TypeError.         (* None['id'] *)

(** The state a run works on.  [session] is [None] when
    [st.session_state] has no key [user], [Some None] when the key holds
    [None], [Some (Some u)] when it holds a user. *)
Record World : Type := mkWorld {
  session : option (option User);
  disk : file;
  screen : list element
}.

Definition UI (A : Type) : Type := World -> (A + failure) * World.

Definition pure {A} (a : A) : UI A := fun w => (inl a, w).

Definition raise {A} (e : failure) : UI A := fun w => (inr e, w).

Definition ubind {A B} (m : UI A) (k : A -> UI B) : UI B :=
  fun w =>
    match m w with
    | (inl a, w') => k a w'
    | (inr e, w') => (inr e, w')
    end.

(** A function of the store, run on the file of the world. *)
Definition store {A} (m : M A) : UI A :=
  fun w =>
    match m (disk w) with
    | Ok (a, f') => (inl a, mkWorld (session w) f' (screen w))
    | Py.Raise e => (inr (Raised e), w)
    end.

(** A function that returns or raises without touching the file. *)
Definition compute {A} (r : result A) : UI A :=
  fun w =>
    match r with
    | Ok a => (inl a, w)
    | Py.Raise e => (inr (Raised e), w)
    end.

(** A display call. *)
Definition show (e : element) : UI unit :=
  fun w => (inl tt, mkWorld (session w) (disk w) (screen w ++ [e])).

(** [st.session_state.user]. *)
Definition get_user : UI (option User) :=
  fun w =>
    match session w with
    | Some u => (inl u, w)
    | None => (inr AttributeError, w)
    end.

(** [st.session_state.user = u]. *)
Definition set_user (u : option User) : UI unit :=
  fun w => (inl tt, mkWorld (Some u) (disk w) (screen w)).

(** [st.session_state.user['id']]. *)
Definition get_user_id : UI Z :=
  ubind get_user (fun u =>
    match u with
    | Some user => pure (u_id user)
    | None => raise TypeError
    end).

(** What the widgets of the register page return. *)
Record RegisterForm : Type := mkRegisterForm {
  reg_username : str;
  reg_full_name : str;
  reg_password : str;
  reg_clicked : bool
}.

(** What the widgets of the login page return. *)
Record LoginForm : Type := mkLoginForm {
  log_username : str;
  log_password : str;
  log_clicked : bool
}.

(** What the widgets of the new-entry page return.  The number input has
    [min_value=0] and [step=1]; the camera input gives the bytes of a
    picture or nothing. *)
Record EntryForm : Type := mkEntryForm {
  ent_household_name : str;
  ent_father_name : str;
  ent_mobile_no : str;
  ent_address : str;
  ent_dustbin_number : N;
  ent_picture : option bytes;
  ent_clicked : bool
}.

(** What the widgets return in one run, and the clock of the run.
    [nav] is the position picked in the navigation box. *)
Record Run : Type := mkRun {
  nav : nat;
  register_form : RegisterForm;
  login_form : LoginForm;
  entry_form : EntryForm;
  download_clicked : bool;
  now : str
}.

(** [st.selectbox(label, options)]: the option picked, the first one when
    nothing else is picked. *)
Definition selectbox (options : list str) (pick : nat) : str :=
  nth pick options (nth 0 options []).

End St.

Import St.

Definition page_register (form : RegisterForm) : UI unit :=
  ubind (show (Title (Char 0x1F4C5 eq_refl :: lit " Register"))) (fun _ =>
  if reg_clicked form then
    ubind (store (register_user (reg_username form) (reg_password form)
                                (reg_full_name form))) (fun ok =>
    if ok : bool
    then show (Success (lit "Registration successful. Please login."))
    else show (Error (lit "Username already exists.")))
  else pure tt).

Definition page_login (form : LoginForm) : UI unit :=
  ubind (show (Title (Char 0x1F511 eq_refl :: lit " Login"))) (fun _ =>
  if log_clicked form then
    ubind (store (login_user (log_username form) (log_password form))) (fun user =>
    match user with
    | Some u =>
        ubind (set_user (Some u)) (fun _ =>
        show (Success (lit "Welcome " ++ u_full_name u ++ lit "!")))
    | None => show (Error (lit "Invalid username or password."))
    end)
  else pure tt).

Definition page_home : UI unit :=
  ubind (show (Title (Char 0x1F3E0 eq_refl :: lit " Home"))) (fun _ =>
  ubind get_user (fun user =>
  match user with
  | Some u => show (Success (lit "Logged in as " ++ u_full_name u))
  | None => show (Info (lit "Please login or register."))
  end)).

Definition page_new_entry (form : EntryForm) (now : str) : UI unit :=
  ubind (show (Title (Char 0x1F4CC eq_refl :: lit " New Entry"))) (fun _ =>
  if ent_clicked form then
    let img_bytes :=
      match ent_picture form with
      | Some picture => Some picture
      | None => None
      end in
    ubind get_user_id (fun user_id =>
    ubind (store (create_entry user_id (ent_household_name form)
                    (ent_father_name form) (ent_mobile_no form) (ent_address form)
                    (Z.of_N (ent_dustbin_number form)) img_bytes now)) (fun _ =>
    show (Success (lit "Entry saved successfully!"))))
  else pure tt).

(** The row of an entry: the selected columns, with the [Image] column. *)
Definition entry_row (e : Entry) : Row :=
  mkRow (e_household_name e) (e_father_name e) (e_mobile_no e) (e_address e)
        (e_dustbin_number e) (e_created_at e)
        (match e_image e with
         | Some (_ :: _) => [Char 0x1F4F7 eq_refl]
         | Some [] => lit "No"
         | None => lit "No"
         end).

Section Pages.

Variable page_break : list Fpdf.op -> Z -> bool.
Variable document_body : Fpdf.FPDF -> bytes.

Definition page_entries (download : bool) : UI unit :=
  ubind (show (Title (Char 0x1F4CA eq_refl :: lit " My Entries"))) (fun _ =>
  ubind get_user_id (fun user_id =>
  ubind (store (get_entries user_id)) (fun entries =>
  match entries with
  | _ :: _ =>
      ubind (show (Dataframe (map entry_row entries))) (fun _ =>
      if download then
        ubind (compute (export_to_pdf page_break document_body entries)) (fun pdf_data =>
        show (DownloadButton (lit "Download") pdf_data (lit "entries.pdf")
                             (lit "application/pdf")))
      else pure tt)
  | [] => show (Info (lit "No entries found."))
  end))).

(** The style sheet [main] writes. *)
Definition style_sheet : str :=
  Json.newline :: lit "        <style>" ++ Json.newline
  :: lit "            .main {background-color: #f8f9fa; padding:20px; border-radius:10px;}"
  ++ Json.newline
  :: lit "            .title {text-align: center; color: green;}" ++ Json.newline
  :: lit "            .stButton>button {background-color: #4CAF50; color: white;}"
  ++ Json.newline
  :: lit "        </style>" ++ Json.newline :: lit "    ".

Definition anonymous_menu : list str :=
  [lit "Home"; lit "Register"; lit "Login"; lit "Logout"].

Definition user_menu : list str :=
  [lit "Home"; lit "New Entry"; lit "My Entries"; lit "Logout"].

(** [main()]: one run of the script. *)
Definition main (run : Run) : UI unit :=
  ubind (show (PageConfig (lit "Swachh Bharat App") [Char 0x1F33F eq_refl]
                          (lit "wide"))) (fun _ =>
  ubind (store init_data) (fun _ =>
  ubind (show (Markdown style_sheet)) (fun _ =>
  ubind (fun w => match session w with
                  | None => set_user None w
                  | Some _ => pure tt w
                  end) (fun _ =>
  ubind get_user (fun user =>
  let menu := match user with
              | None => anonymous_menu
              | Some _ => user_menu
              end in
  let choice := selectbox menu (nav run) in
  if str_eqb choice (lit "Register") then page_register (register_form run)
  else if str_eqb choice (lit "Login") then page_login (login_form run)
  else if str_eqb choice (lit "Home") then page_home
  else if str_eqb choice (lit "New Entry") then page_new_entry (entry_form run) (now run)
  else if str_eqb choice (lit "My Entries") then page_entries (download_clicked run)
  else if str_eqb choice (lit "Logout") then
    ubind (set_user None) (fun _ => show (Success (lit "Logged out successfully!")))
  else pure tt))))).

End Pages.

(* ================================================================== *)
(** * Further notions used in the statements *)

(** A printable ASCII character or a line feed. *)
Definition printable (c : char) : bool :=
  ((code c =? 10) || ((32 <=? code c) && (code c <=? 126)))%N.

(** A lower-case hexadecimal digit. *)
Definition hex_char (c : char) : bool :=
  (((48 <=? code c) && (code c <=? 57)) || ((97 <=? code c) && (code c <=? 102)))%N.

(** The ids are 1, 2, ... in storage order. *)
Definition sequential (ids : list Z) : Prop :=
  ids = map (fun k => Z.of_nat k + 1)%Z (seq 0 (List.length ids)).

(** The users have distinct usernames and the ids 1, 2, ... *)
Definition users_ok (data : Document) : Prop :=
  NoDup (map u_username (users data)) /\ sequential (map u_id (users data)).

(** The five fields of an entry the report prints. *)
Definition printed_fields (e : Entry) : str * str * str * str * Z :=
  (e_household_name e, e_father_name e, e_mobile_no e, e_address e,
   e_dustbin_number e).

(** The entry has the id. *)
Definition has_id (entry_id : Z) (e : Entry) : bool := Z.eqb (e_id e) entry_id.

(** The world after the first lines of [main], on an existing file: the
    session has the key [user], and the page settings and the style sheet
    are displayed. *)
Definition started (w : World) : World :=
  mkWorld (Some match session w with
                | Some u => u
                | None => None
                end)
          (disk w)
          (screen w
           ++ [PageConfig (lit "Swachh Bharat App") [Char 0x1F33F eq_refl] (lit "wide");
               Markdown style_sheet]).

(** The user of the session, if it has one. *)
Definition session_user (w : World) : option User :=
  match session w with
  | Some (Some u) => Some u
  | _ => None
  end.

(** The branch of [main] for the choice [Logout]. *)
Definition logout_world (w : World) : (unit + failure) * World :=
  (inl tt, mkWorld (Some None) (disk w)
             (screen w ++ [Success (lit "Logged out successfully!")])).

(** What [main] displays before the page. *)
Definition preamble : list element :=
  [PageConfig (lit "Swachh Bharat App") [Char 0x1F33F eq_refl] (lit "wide");
   Markdown style_sheet].

(** A run that asks for the login page, with the form filled for alice. *)
Definition sample_run : Run :=
  mkRun 2 (mkRegisterForm (lit "bob") (lit "Bob B") (lit "secret") true)
        (mkLoginForm (lit "alice") (lit "pw123") true)
        (mkEntryForm (lit "Shah House") (lit "R Shah") (lit "9999999999")
                     (lit "12 MG Road") 3 None true)
        true (lit "2024-01-01T10:00:00").

(** A fresh session on the sample file. *)
Definition sample_world : World := mkWorld None sample_file [].

(* ================================================================== *)
(** * The library models on known values *)

Module Checks.
Import Py.

Example sha256_empty :
  Hashlib.hexdigest []
  = lit "e3b0c44298fc1c149afbf4c8996fb92427ae41e4649b934ca495991b7852b855".
Proof. vm_compute. reflexivity. Qed.

Example sha256_abc :
  Hashlib.hexdigest (encode_utf8 (lit "abc"))
  = lit "ba7816bf8f01cfea414140de5dae2223b00361a396177a9cb410ff61f20015ad".
Proof. vm_compute. reflexivity. Qed.

Example sha256_two_blocks :
  Hashlib.hexdigest
    (encode_utf8 (lit "abcdbcdecdefdefgefghfghighijhijkijkljklmklmnlmnomnopnopq"))
  = lit "248d6a61d20638b8e5c026930c3e6039a33ce45964ff2167f6ecedd419db06c1".
Proof. vm_compute. reflexivity. Qed.

Example hash_password_pw123 :
  hash_password (lit "pw123")
  = lit "23d47445adfb8991789b459b6ba1b974d727d310aa9d80b7c2875b9430c0ba25".
Proof. vm_compute. reflexivity. Qed.

Example utf8_devanagari :
  encode_utf8 [Char 0x939 eq_refl] = [xe0; xa4; xb9].
Proof. reflexivity. Qed.

Example b64encode_Man :
  Base64.b64encode (map byte_of_ascii (list_ascii_of_string "Man"))
  = list_ascii_of_string "TWFu".
Proof. reflexivity. Qed.

Example b64encode_Ma :
  Base64.b64encode (map byte_of_ascii (list_ascii_of_string "Ma"))
  = list_ascii_of_string "TWE=".
Proof. reflexivity. Qed.

Example b64encode_M :
  Base64.b64encode (map byte_of_ascii (list_ascii_of_string "M"))
  = list_ascii_of_string "TQ==".
Proof. reflexivity. Qed.

Example str_of_int_negative : str_of_int (-120) = lit "-120".
Proof. reflexivity. Qed.

Example dumps_escapes :
  Json.dumps (Json.JStr [Char 0x1F600 eq_refl; Char 0x939 eq_refl; Char 10 eq_refl])
  = Json.quote :: lit "\ud83d\ude00\u0939\n" ++ [Json.quote].
Proof. vm_compute. reflexivity. Qed.

Example loads_whitespace_and_duplicate_key :
  Json.loads (lit " [1, -0, true , null, {" ++ [Json.quote] ++ lit "a" ++ [Json.quote]
              ++ lit " : [] , " ++ [Json.quote] ++ lit "a" ++ [Json.quote]
              ++ lit ":2}] ")
  = Some (Json.JList [Json.JInt 1; Json.JInt 0; Json.JBool true; Json.JNull;
                      Json.JDict [(lit "a", Json.JInt 2)]]).
Proof. vm_compute. reflexivity. Qed.

Example loads_float_outside : Json.loads (lit "[1.5]") = None.
Proof. vm_compute. reflexivity. Qed.

Example init_data_missing_file :
  init_data None = Ok (tt, Some empty_document_text)
  /\ load_data (Some empty_document_text)
     = Ok (mkDocument [] [], Some empty_document_text).
Proof. split; vm_compute; reflexivity. Qed.

Example init_data_existing_file (text : str) :
  init_data (Some text) = Ok (tt, Some text).
Proof. reflexivity. Qed.

Example load_data_missing_file : load_data None = Raise FileNotFoundError.
Proof. reflexivity. Qed.

(** The scenario of the specification: after registering alice, the right
    password logs her in and a wrong one does not. *)
Example scenario_login :
  (init_data ;;; register_user (lit "alice") (lit "pw123") (lit "Alice A") ;;;
   login_user (lit "alice") (lit "pw123")) None
  = Ok (Some sample_user, saved (mkDocument [sample_user] [])).
Proof. vm_compute. reflexivity. Qed.

Example scenario_wrong_password :
  (init_data ;;; register_user (lit "alice") (lit "pw123") (lit "Alice A") ;;;
   login_user (lit "alice") (lit "wrong")) None
  = Ok (None, saved (mkDocument [sample_user] [])).
Proof. vm_compute. reflexivity. Qed.

(** Usernames are compared exactly: [Alice] is not [alice]. *)
Example register_user_case_sensitive :
  register_user (lit "Alice") (lit "pw") (lit "Alice B") sample_file
  = Ok (true,
        saved (mkDocument
                 [sample_user;
                  mkUser 2 (lit "Alice") (hash_password (lit "pw")) (lit "Alice B")]
                 [created_entry 0 sample_call])).
Proof. vm_compute. reflexivity. Qed.

(** The scenario of the specification: an entry created without an image
    is listed with [image = None] and its creation time. *)
Example scenario_create_without_image :
  (call_create sample_call ;;; get_entries 1) (saved (mkDocument [sample_user] []))
  = Ok ([mkEntry 1 1 (lit "Shah House") (lit "R Shah") (lit "9999999999")
                 (lit "12 MG Road") 3 None (lit "2024-01-01T10:00:00")],
        sample_file).
Proof. vm_compute. reflexivity. Qed.

End Checks.

(* ================================================================== *)
(** * Characters and strings *)

Module PyFacts.
Import Py.

Lemma char_ext (a b : char) : code a = code b -> a = b.
Proof.
  destruct a as [n Hn], b as [m Hm]; simpl; intros E; subst m.
  f_equal. apply UIP_dec, bool_dec.
Qed.

Lemma char_eqb_eq (a b : char) : char_eqb a b = true <-> a = b.
Proof.
  unfold char_eqb; rewrite N.eqb_eq; split; [apply char_ext | now intros ->].
Qed.

Lemma str_eqb_eq (a b : str) : str_eqb a b = true <-> a = b.
Proof.
  revert b; induction a as [|x a IH]; intros [|y b]; simpl;
    try (split; [discriminate | discriminate]); [tauto|].
  rewrite andb_true_iff, char_eqb_eq, IH.
  split; [intros [-> ->]; reflexivity | intros E; injection E; auto].
Qed.

Lemma str_eqb_refl (a : str) : str_eqb a a = true.
Proof. now apply str_eqb_eq. Qed.

Lemma chr_scalar (n : N) (H : is_scalar n = true) : chr n = Some (Char n H).
Proof.
  unfold chr.
  assert (G : forall b (e : is_scalar n = b), b = true ->
            exists H', (match b as b0 return is_scalar n = b0 -> option char with
                        | true => fun H0 => Some (Char n H0)
                        | false => fun _ => None
                        end e) = Some (Char n H')).
  { intros [] e Hb; [eexists; reflexivity | discriminate]. }
  destruct (G _ eq_refl H) as [H' ->].
  f_equal. now apply char_ext.
Qed.

Lemma chr_code (c : char) : chr (code c) = Some c.
Proof. destruct c as [n H]; apply chr_scalar. Qed.

Lemma encode_latin1_ok (s : str) :
  forallb (fun c => (code c <? 256)%N) s = true ->
  exists bs, encode_latin1 s = Ok bs /\ List.length bs = List.length s.
Proof.
  induction s as [|c s IH]; simpl; [now exists []|].
  rewrite andb_true_iff; intros [Hc Hs]. rewrite Hc.
  destruct (IH Hs) as (bs & -> & L). simpl. eexists; split; [reflexivity|simpl; now rewrite L].
Qed.

Lemma encode_latin1_raise (s : str) :
  forallb (fun c => (code c <? 256)%N) s = false ->
  encode_latin1 s = Raise UnicodeEncodeError.
Proof.
  induction s as [|c s IH]; simpl; [discriminate|].
  destruct (code c <? 256)%N; simpl; [|reflexivity].
  intros H; rewrite (IH H); reflexivity.
Qed.

End PyFacts.

(* ================================================================== *)
(** * json: what is written is read back *)

Module JsonFacts.
Import Py PyFacts Json JsonNotions.
Local Open Scope N_scope.

Ltac Zify.zify_post_hook ::= Z.to_euclidean_division_equations.

(** ** Hexadecimal escapes *)

Lemma hex_val_digit (d : N) :
  d < 16 -> hex_val (chr_ascii (hex_digit d)) = Some d.
Proof.
  intros H.
  assert (E : d = 0 \/ d = 1 \/ d = 2 \/ d = 3 \/ d = 4 \/ d = 5 \/ d = 6 \/ d = 7
              \/ d = 8 \/ d = 9 \/ d = 10 \/ d = 11 \/ d = 12 \/ d = 13 \/ d = 14
              \/ d = 15) by lia.
  repeat (destruct E as [-> | E]; [reflexivity|]). subst; reflexivity.
Qed.

Lemma nibbles (n : N) :
  n < 65536 ->
  (N.shiftr n 12 mod 16) * 4096 + (N.shiftr n 8 mod 16) * 256
  + (N.shiftr n 4 mod 16) * 16 + N.shiftr n 0 mod 16 = n.
Proof.
  intros H. rewrite !N.shiftr_div_pow2.
  change (2 ^ 12) with (16 * 16 * 16); change (2 ^ 8) with (16 * 16);
    change (2 ^ 4) with 16; change (2 ^ 0) with 1.
  rewrite <- !N.Div0.div_div, N.div_1_r. lia.
Qed.

Lemma decode_hex4 (n : N) (rest : str) :
  n < 65536 -> decode_uXXXX (hex4 n ++ rest) = Some (n, rest).
Proof.
  intros H. unfold hex4; cbn [map app]. unfold decode_uXXXX.
  rewrite !hex_val_digit by (apply N.mod_lt; discriminate).
  change (4 * N.of_nat 3) with 12; change (4 * N.of_nat 2) with 8;
    change (4 * N.of_nat 1) with 4; change (4 * N.of_nat 0) with 0.
  now rewrite nibbles.
Qed.

Lemma lor_disjoint (a b k : N) :
  a mod 2 ^ k = 0 -> b < 2 ^ k -> N.lor a b = a + b.
Proof.
  intros Ha Hb.
  assert (Z : N.land a b = 0).
  { rewrite <- (N.mod_small b (2 ^ k)) by assumption.
    rewrite <- N.land_ones, N.land_assoc, (N.land_comm a b), <- N.land_assoc.
    rewrite (N.land_ones a), Ha. apply N.land_0_r. }
  rewrite <- N.lxor_lor by assumption. symmetry. now apply N.add_nocarry_lxor.
Qed.

Lemma scalar_range (n : N) :
  is_scalar n = true -> (n < 0xD800 \/ 0xE000 <= n) /\ n <= 0x10FFFF.
Proof.
  unfold is_scalar. rewrite orb_true_iff, andb_true_iff, N.ltb_lt, !N.leb_le. lia.
Qed.

Lemma high_surrogate (v : N) :
  v < 0x100000 ->
  N.lor 0xD800 (N.land (N.shiftr v 10) 0x3FF) = 0xD800 + v / 1024.
Proof.
  intros H. change 0x3FF with (N.ones 10).
  rewrite N.land_ones, N.shiftr_div_pow2. change (2 ^ 10) with 1024.
  rewrite (lor_disjoint _ _ 10); [lia | reflexivity | change (2 ^ 10) with 1024; lia].
Qed.

Lemma low_surrogate (v : N) :
  N.lor 0xDC00 (N.land v 0x3FF) = 0xDC00 + v mod 1024.
Proof.
  change 0x3FF with (N.ones 10). rewrite N.land_ones. change (2 ^ 10) with 1024.
  rewrite (lor_disjoint _ _ 10); [lia | reflexivity | change (2 ^ 10) with 1024; lia].
Qed.

Lemma join_surrogates (v : N) :
  v < 0x100000 ->
  0x10000 + N.lor (N.shiftl (0xD800 + v / 1024 - 0xD800) 10)
                  (0xDC00 + v mod 1024 - 0xDC00) = 0x10000 + v.
Proof.
  intros H. replace (0xD800 + v / 1024 - 0xD800) with (v / 1024) by lia.
  replace (0xDC00 + v mod 1024 - 0xDC00) with (v mod 1024) by lia.
  rewrite N.shiftl_mul_pow2. change (2 ^ 10) with 1024.
  rewrite (lor_disjoint _ _ 10).
  - lia.
  - change (2 ^ 10) with 1024. apply N.Div0.mod_mul.
  - change (2 ^ 10) with 1024. lia.
Qed.

Lemma unicode_escape_bmp (n : N) (tl : str) :
  is_scalar n = true -> n < 0x10000 ->
  unicode_escape (hex4 n ++ tl) = Some (n, tl).
Proof.
  intros Hs Hn. unfold unicode_escape. rewrite decode_hex4 by assumption.
  apply scalar_range in Hs.
  destruct ((0xD800 <=? n) && (n <=? 0xDBFF)) eqn:E; [|reflexivity].
  apply andb_true_iff in E. rewrite !N.leb_le in E. lia.
Qed.

Lemma unicode_escape_pair (n : N) (tl : str) :
  0x10000 <= n -> n <= 0x10FFFF ->
  unicode_escape
    (hex4 (N.lor 0xD800 (N.land (N.shiftr (n - 0x10000) 10) 0x3FF))
     ++ lit "\u" ++ hex4 (N.lor 0xDC00 (N.land (n - 0x10000) 0x3FF)) ++ tl)
  = Some (n, tl).
Proof.
  intros Hlo Hhi.
  assert (Hv : n - 0x10000 < 0x100000) by lia.
  rewrite high_surrogate by assumption. rewrite low_surrogate.
  set (v := n - 0x10000) in *.
  unfold unicode_escape. rewrite decode_hex4 by lia.
  replace ((0xD800 <=? 0xD800 + v / 1024) && (0xD800 + v / 1024 <=? 0xDBFF)) with true
    by (symmetry; apply andb_true_iff; rewrite !N.leb_le; lia).
  cbn [lit list_ascii_of_string map app].
  change (code (chr_ascii "\") =? 92) with true.
  change (code (chr_ascii "u") =? 117) with true.
  cbn [andb]. rewrite decode_hex4 by lia.
  replace ((0xDC00 <=? 0xDC00 + v mod 1024) && (0xDC00 + v mod 1024 <=? 0xDFFF)) with true
    by (symmetry; apply andb_true_iff; rewrite !N.leb_le; lia).
  rewrite join_surrogates by assumption. do 2 f_equal. subst v. lia.
Qed.

Lemma scanstring_step_raw (c : char) (tl : str) (fuel : nat) :
  code c <> 34 -> code c <> 92 -> 32 <= code c ->
  scanstring (S fuel) (c :: tl) = scan_cons c (scanstring fuel tl).
Proof.
  intros H1 H2 H3. cbn [scanstring].
  apply N.eqb_neq in H1, H2. rewrite H1, H2.
  replace (code c <? 32) with false by (symmetry; apply N.ltb_ge; exact H3).
  reflexivity.
Qed.

Lemma scanstring_step_backslash (e c : char) (tl : str) (fuel : nat) :
  code e <> 117 -> backslash e = Some c ->
  scanstring (S fuel) (chr_ascii "\" :: e :: tl) = scan_cons c (scanstring fuel tl).
Proof.
  intros H1 H2. cbn [scanstring].
  change (code (chr_ascii "\") =? 34) with false.
  change (code (chr_ascii "\") =? 92) with true. cbn iota.
  apply N.eqb_neq in H1. rewrite H1, H2. reflexivity.
Qed.

Lemma scanstring_step_unicode (c : char) (s tl : str) (fuel : nat) :
  unicode_escape s = Some (code c, tl) ->
  scanstring (S fuel) (chr_ascii "\" :: chr_ascii "u" :: s) = scan_cons c (scanstring fuel tl).
Proof.
  intros H. cbn [scanstring].
  change (code (chr_ascii "\") =? 34) with false.
  change (code (chr_ascii "\") =? 92) with true.
  change (code (chr_ascii "u") =? 117) with true. cbn iota.
  rewrite H, chr_code. reflexivity.
Qed.

(** One escaped character is read back as that character. *)
Lemma scanstring_escape_char (c : char) (tl : str) (fuel : nat) :
  scanstring (S fuel) (escape_char c ++ tl) = scan_cons c (scanstring fuel tl).
Proof.
  pose proof (scalar_range _ (code_scalar c)) as Hs.
  unfold escape_char.
  destruct (code c =? 34) eqn:E1.
  { apply N.eqb_eq in E1. apply scanstring_step_backslash; [rewrite E1; discriminate|].
    unfold backslash; now rewrite E1. }
  destruct (code c =? 92) eqn:E2.
  { apply N.eqb_eq in E2.
    replace c with (chr_ascii "\") by (apply char_ext; now rewrite E2).
    apply scanstring_step_backslash; [discriminate | reflexivity]. }
  destruct (code c =? 10) eqn:E3.
  { apply N.eqb_eq in E3.
    apply (scanstring_step_backslash (chr_ascii "n")); [discriminate|].
    change (chr 10 = Some c). rewrite <- E3. apply chr_code. }
  destruct (code c =? 13) eqn:E4.
  { apply N.eqb_eq in E4.
    apply (scanstring_step_backslash (chr_ascii "r")); [discriminate|].
    change (chr 13 = Some c). rewrite <- E4. apply chr_code. }
  destruct (code c =? 9) eqn:E5.
  { apply N.eqb_eq in E5.
    apply (scanstring_step_backslash (chr_ascii "t")); [discriminate|].
    change (chr 9 = Some c). rewrite <- E5. apply chr_code. }
  destruct (code c =? 8) eqn:E6.
  { apply N.eqb_eq in E6.
    apply (scanstring_step_backslash (chr_ascii "b")); [discriminate|].
    change (chr 8 = Some c). rewrite <- E6. apply chr_code. }
  destruct (code c =? 12) eqn:E7.
  { apply N.eqb_eq in E7.
    apply (scanstring_step_backslash (chr_ascii "f")); [discriminate|].
    change (chr 12 = Some c). rewrite <- E7. apply chr_code. }
  apply N.eqb_neq in E1, E2.
  destruct ((32 <=? code c) && (code c <=? 126)) eqn:E8.
  { apply andb_true_iff in E8. rewrite !N.leb_le in E8.
    apply scanstring_step_raw; tauto. }
  destruct (code c <? 65536) eqn:E9.
  { apply N.ltb_lt in E9. apply scanstring_step_unicode.
    apply unicode_escape_bmp; [apply code_scalar | assumption]. }
  apply N.ltb_ge in E9.
  rewrite <- !app_assoc. apply scanstring_step_unicode.
  apply unicode_escape_pair; lia.
Qed.

Lemma escape_char_length (c : char) : (1 <= List.length (escape_char c))%nat.
Proof.
  unfold escape_char.
  repeat match goal with
         | |- context [if ?b then _ else _] => destruct b
         end; cbn; rewrite ?length_app; cbn; lia.
Qed.

Lemma escape_length (s : str) :
  (List.length s <= List.length (flat_map escape_char s))%nat.
Proof.
  induction s as [|c s IH]; simpl; [lia|].
  rewrite length_app. pose proof (escape_char_length c). lia.
Qed.

(** [scanstring] reads back what [py_encode_basestring_ascii] writes
    between the quotes. *)
Lemma scanstring_escape (s tl : str) (fuel : nat) :
  (List.length s < fuel)%nat ->
  scanstring fuel (flat_map escape_char s ++ quote :: tl) = Some (s, tl).
Proof.
  revert fuel; induction s as [|c s IH]; intros fuel H.
  - destruct fuel as [|fuel]; [simpl in H; lia|]. reflexivity.
  - destruct fuel as [|fuel]; [simpl in H; lia|].
    cbn [flat_map]. rewrite <- app_assoc, scanstring_escape_char.
    rewrite IH by (simpl in H; lia). reflexivity.
Qed.

(** ** Integers *)

Lemma scan_digits_stop (rest : str) :
  head_not_digit rest -> scan_digits rest = (Decimal.Nil, rest).
Proof.
  destruct rest as [|c rest]; simpl; [reflexivity|]. now intros ->.
Qed.

Lemma scan_digits_uint (d : Decimal.uint) (rest : str) :
  head_not_digit rest ->
  scan_digits (map chr_ascii (digits_of_uint d) ++ rest) = (d, rest).
Proof.
  intros H. induction d; cbn [digits_of_uint map app];
    [now apply scan_digits_stop | ..];
    cbn [scan_digits]; rewrite IHd; reflexivity.
Qed.

Lemma to_int_norm (z : Z) : Decimal.norm (Z.to_int z) = Z.to_int z.
Proof. rewrite <- DecimalZ.to_of. now rewrite DecimalZ.of_to. Qed.

Lemma scan_uint_nzhead (d : Decimal.uint) (rest : str) :
  d <> Decimal.Nil -> Decimal.nzhead d = d -> head_not_digit rest ->
  scan_uint (map chr_ascii (digits_of_uint d) ++ rest) = Some (d, rest).
Proof.
  intros Hn Hz Hr.
  destruct d; [congruence | exfalso; eapply DecimalFacts.nzhead_nonzero; exact Hz | ..];
    unfold scan_uint; cbn; rewrite scan_digits_uint by assumption; reflexivity.
Qed.

Lemma scan_uint_unorm (d : Decimal.uint) (rest : str) :
  Decimal.unorm d = d -> head_not_digit rest ->
  scan_uint (map chr_ascii (digits_of_uint d) ++ rest) = Some (d, rest).
Proof.
  intros Hu Hr. unfold Decimal.unorm in Hu.
  destruct (Decimal.nzhead d) eqn:E.
  - rewrite <- Hu. reflexivity.
  - exfalso; eapply DecimalFacts.nzhead_nonzero; exact E.
  - apply scan_uint_nzhead; congruence.
  - apply scan_uint_nzhead; congruence.
  - apply scan_uint_nzhead; congruence.
  - apply scan_uint_nzhead; congruence.
  - apply scan_uint_nzhead; congruence.
  - apply scan_uint_nzhead; congruence.
  - apply scan_uint_nzhead; congruence.
  - apply scan_uint_nzhead; congruence.
  - apply scan_uint_nzhead; congruence.
Qed.

Lemma digits_head (d : Decimal.uint) (rest : str) :
  d <> Decimal.Nil ->
  exists c tl, map chr_ascii (digits_of_uint d) ++ rest = c :: tl
               /\ 48 <= code c <= 57.
Proof.
  intros Hn. destruct d; [congruence | ..]; cbn [digits_of_uint map app];
    eexists; eexists; (split; [reflexivity | cbn; lia]).
Qed.

(** An integer is read back from its decimal text. *)
Lemma scan_int_repr (z : Z) (rest : str) :
  head_not_digit rest -> scan_int (str_of_int z ++ rest) = Some (z, rest).
Proof.
  intros Hr. unfold str_of_int, int_repr.
  pose proof (to_int_norm z) as Hn. pose proof (DecimalZ.of_to z) as Hz.
  destruct (Z.to_int z) as [d|d]; cbn [Decimal.norm] in Hn.
  - injection Hn as Hu.
    assert (Hd : d <> Decimal.Nil) by (rewrite <- Hu; apply DecimalFacts.unorm_nonnil).
    destruct (digits_head d rest Hd) as (c & tl & E & Hc).
    unfold scan_int. rewrite E.
    replace (code c =? 45) with false by (symmetry; apply N.eqb_neq; lia).
    rewrite <- E, scan_uint_unorm by assumption. now rewrite Hz.
  - destruct (Decimal.nzhead d) eqn:E; try discriminate;
      injection Hn as Hu; subst d;
      cbn [map app]; unfold scan_int;
      change (code (chr_ascii "-") =? 45) with true; cbn iota;
      (rewrite scan_uint_nzhead;
       [now rewrite Hz | discriminate | exact E | assumption]).
Qed.

(** ** Values *)

(** Induction on a value with the hypothesis for every element of a
    container. *)
Lemma json_induction (P : json -> Prop) :
  P JNull -> (forall b, P (JBool b)) -> (forall z, P (JInt z)) ->
  (forall s, P (JStr s)) ->
  (forall l, Forall P l -> P (JList l)) ->
  (forall kvs, Forall (fun kv => P (snd kv)) kvs -> P (JDict kvs)) ->
  forall v, P v.
Proof.
  intros Hn Hb Hi Hs Hl Hd.
  fix IH 1. intros [ | b | z | s | l | kvs ].
  - exact Hn.
  - apply Hb.
  - apply Hi.
  - apply Hs.
  - apply Hl. induction l as [|x l IHl]; constructor; [apply IH | exact IHl].
  - apply Hd. induction kvs as [|[k x] kvs IHk]; constructor; [apply IH | exact IHk].
Qed.

Lemma join_items_cons (sep c : str) (cs : list str) :
  cs <> [] -> join_items sep (c :: cs) = c ++ lit "," ++ sep ++ join_items sep cs.
Proof. destruct cs; [congruence | reflexivity]. Qed.

Lemma join_items_text (level : nat) (l : list json) (close : str) :
  l <> [] ->
  join_items (newline_indent (S level)) (map (dump (S level)) l) ++ close
  = items_text level l close.
Proof.
  induction l as [|x l IH]; [congruence|]. intros _.
  destruct l as [|y l]; [reflexivity|].
  rewrite map_cons, join_items_cons by discriminate.
  rewrite <- !app_assoc, IH by discriminate. reflexivity.
Qed.

Lemma join_members_text (level : nat) (kvs : list (str * json)) (close : str) :
  kvs <> [] ->
  join_items (newline_indent (S level))
    (map (fun kv => match kv with
                    | (k, x) => encode_basestring_ascii k ++ lit ": " ++ dump (S level) x
                    end) kvs) ++ close
  = quote :: members_text level kvs close.
Proof.
  induction kvs as [|[k x] kvs IH]; [congruence|]. intros _.
  destruct kvs as [|[k' y] kvs].
  - cbn [map join_items members_text]. unfold encode_basestring_ascii.
    cbn [app]. now rewrite <- !app_assoc.
  - rewrite map_cons, join_items_cons by discriminate.
    rewrite <- !app_assoc, IH by discriminate.
    unfold encode_basestring_ascii. cbn [app members_text]. now rewrite <- !app_assoc.
Qed.

(** ** Whitespace *)

Lemma skip_ws_spaces (k : nat) (s : str) :
  skip_ws (repeat (chr_ascii " ") k ++ s) = skip_ws s.
Proof. induction k as [|k IH]; [reflexivity | exact IH]. Qed.

Lemma skip_ws_indent (level : nat) (s : str) :
  skip_ws (newline_indent level ++ s) = skip_ws s.
Proof. unfold newline_indent. cbn [app skip_ws]. apply skip_ws_spaces. Qed.

Lemma skip_ws_head (c : char) (s : str) :
  is_ws c = false -> skip_ws (c :: s) = c :: s.
Proof. intros H; simpl; now rewrite H. Qed.

Lemma starts_literal (a : ascii) (s : str) :
  is_ws (chr_ascii a) = false -> N_of_ascii a <> 93 -> starts_value (chr_ascii a :: s).
Proof. intros H1 H2. exists (chr_ascii a), s. auto. Qed.

Lemma dump_starts_value (level : nat) (v : json) (rest : str) :
  starts_value (dump level v ++ rest).
Proof.
  destruct v as [ | [] | z | s | [|x l] | [|[k x] kvs] ];
    try (apply starts_literal; [reflexivity | discriminate]).
  cbn [dump]. unfold str_of_int, int_repr.
  destruct (Z.to_int z) as [d|d] eqn:E.
  - assert (Hd : d <> Decimal.Nil).
    { pose proof (to_int_norm z) as Hn. rewrite E in Hn. cbn in Hn.
      injection Hn as Hu. rewrite <- Hu. apply DecimalFacts.unorm_nonnil. }
    destruct (digits_head d rest Hd) as (c & tl & -> & Hc).
    exists c, tl. split; [reflexivity|]. split; [|lia].
    unfold is_ws. cbn zeta.
    repeat (apply orb_false_iff; split); apply N.eqb_neq; lia.
  - apply starts_literal; [reflexivity | discriminate].
Qed.

Lemma skip_ws_value (s : str) : starts_value s -> skip_ws s = s.
Proof. intros (c & tl & -> & H & _). now apply skip_ws_head. Qed.

(** ** Dicts *)

Lemma dict_set_fresh (d : list (str * json)) (k : str) (v : json) :
  ~ In k (map fst d) -> dict_set d k v = d ++ [(k, v)].
Proof.
  induction d as [|[k' v'] d IH]; simpl; [reflexivity|]. intros H.
  destruct (str_eqb k' k) eqn:E.
  - apply str_eqb_eq in E. tauto.
  - rewrite IH by tauto. reflexivity.
Qed.

Lemma dict_of_pairs_acc (ps acc : list (str * json)) :
  NoDup (map fst (acc ++ ps)) ->
  fold_left (fun d kv => dict_set d (fst kv) (snd kv)) ps acc = acc ++ ps.
Proof.
  revert acc; induction ps as [|[k v] ps IH]; intros acc H; simpl.
  - now rewrite app_nil_r.
  - rewrite dict_set_fresh.
    + rewrite IH; rewrite <- app_assoc; [reflexivity | exact H].
    + rewrite map_app in H. simpl in H. apply NoDup_remove_2 in H.
      intros Hin; apply H, in_or_app; now left.
Qed.

(** [dict(pairs)] keeps pairs with distinct keys as they are. *)
Lemma dict_of_pairs_nodup (ps : list (str * json)) :
  NoDup (map fst ps) -> dict_of_pairs ps = ps.
Proof. intros H. unfold dict_of_pairs. now rewrite dict_of_pairs_acc. Qed.

(** ** The scanner, unfolded once *)

Lemma JSONArray_eq (fuel : nat) (s : str) :
  JSONArray (S fuel) s =
  match scan_once fuel s with
  | None => None
  | Some (value, s1) =>
      match skip_ws s1 with
      | c :: s2 =>
          if code c =? 93 then Some ([value], s2)
          else if code c =? 44 then
            match JSONArray fuel (skip_ws s2) with
            | Some (values, rest) => Some (value :: values, rest)
            | None => None
            end
          else None
      | [] => None
      end
  end.
Proof. reflexivity. Qed.

Lemma JSONObject_eq (fuel : nat) (s : str) :
  JSONObject (S fuel) s =
  match scanstring (List.length s) s with
  | None => None
  | Some (key, s1) =>
      match skip_ws s1 with
      | c :: s2 =>
          if code c =? 58 then
            match scan_once fuel (skip_ws s2) with
            | None => None
            | Some (value, s3) =>
                match skip_ws s3 with
                | c3 :: s4 =>
                    if code c3 =? 125 then Some ([(key, value)], s4)
                    else if code c3 =? 44 then
                      match skip_ws s4 with
                      | c5 :: s5 =>
                          if code c5 =? 34 then
                            match JSONObject fuel s5 with
                            | Some (pairs, rest) => Some ((key, value) :: pairs, rest)
                            | None => None
                            end
                          else None
                      | [] => None
                      end
                    else None
                | [] => None
                end
            end
          else None
      | [] => None
      end
  end.
Proof. reflexivity. Qed.

Lemma scan_once_string (fuel : nat) (s tl : str) :
  scan_once (S fuel) (encode_basestring_ascii s ++ tl) = Some (JStr s, tl).
Proof.
  unfold encode_basestring_ascii. cbn [app scan_once].
  change (code quote =? 34) with true. cbn iota.
  rewrite <- app_assoc. cbn [app]. rewrite scanstring_escape; [reflexivity|].
  rewrite length_app. cbn [List.length]. pose proof (escape_length s). lia.
Qed.

Lemma scan_once_int (fuel : nat) (z : Z) (tl : str) :
  head_not_digit tl -> scan_once (S fuel) (str_of_int z ++ tl) = Some (JInt z, tl).
Proof.
  intros H. pose proof (scan_int_repr z tl H) as R.
  assert (Hh : exists c s, str_of_int z ++ tl = c :: s
                           /\ (code c = 45 \/ 48 <= code c <= 57)).
  { unfold str_of_int, int_repr. destruct (Z.to_int z) as [d|d] eqn:E.
    - assert (Hd : d <> Decimal.Nil).
      { pose proof (to_int_norm z) as Hn. rewrite E in Hn. cbn in Hn.
        injection Hn as Hu. rewrite <- Hu. apply DecimalFacts.unorm_nonnil. }
      destruct (digits_head d tl Hd) as (c & s & -> & Hc). exists c, s. auto.
    - eexists; eexists; split; [reflexivity | left; reflexivity]. }
  destruct Hh as (c & s & E & Hc). rewrite E in *. cbn [scan_once].
  replace (code c =? 34) with false by (symmetry; apply N.eqb_neq; lia).
  replace (code c =? 123) with false by (symmetry; apply N.eqb_neq; lia).
  replace (code c =? 91) with false by (symmetry; apply N.eqb_neq; lia).
  replace (code c =? 110) with false by (symmetry; apply N.eqb_neq; lia).
  replace (code c =? 116) with false by (symmetry; apply N.eqb_neq; lia).
  replace (code c =? 102) with false by (symmetry; apply N.eqb_neq; lia).
  now rewrite R.
Qed.

Lemma scan_once_array (fuel level : nat) (l : list json) (tl : str) :
  l <> [] ->
  scan_once (S fuel) (dump level (JList l) ++ tl) =
  match JSONArray fuel (items_text level l (newline_indent level ++ lit "]" ++ tl)) with
  | Some (values, rest) => Some (JList values, rest)
  | None => None
  end.
Proof.
  intros Hl.
  assert (E : dump level (JList l) ++ tl =
              chr_ascii "[" :: newline_indent (S level)
              ++ items_text level l (newline_indent level ++ lit "]" ++ tl)).
  { destruct l as [|x l]; [congruence|].
    rewrite <- join_items_text by discriminate.
    cbn [dump]. now rewrite <- !app_assoc. }
  rewrite E. cbn [scan_once].
  change (code (chr_ascii "[") =? 34) with false.
  change (code (chr_ascii "[") =? 123) with false.
  change (code (chr_ascii "[") =? 91) with true. cbn iota.
  rewrite skip_ws_indent.
  assert (Hs : starts_value (items_text level l (newline_indent level ++ lit "]" ++ tl))).
  { destruct l as [|x l]; [congruence|]. cbn [items_text]. apply dump_starts_value. }
  rewrite (skip_ws_value _ Hs).
  destruct Hs as (c & s & -> & _ & Hc).
  apply N.eqb_neq in Hc. now rewrite Hc.
Qed.

Lemma scan_once_object (fuel level : nat) (kvs : list (str * json)) (tl : str) :
  kvs <> [] ->
  scan_once (S fuel) (dump level (JDict kvs) ++ tl) =
  match JSONObject fuel (members_text level kvs (newline_indent level ++ lit "}" ++ tl)) with
  | Some (pairs, rest) => Some (JDict (dict_of_pairs pairs), rest)
  | None => None
  end.
Proof.
  intros Hl.
  assert (E : dump level (JDict kvs) ++ tl =
              chr_ascii "{" :: newline_indent (S level)
              ++ quote :: members_text level kvs (newline_indent level ++ lit "}" ++ tl)).
  { destruct kvs as [|kv kvs]; [congruence|].
    rewrite <- join_members_text by discriminate.
    cbn [dump]. now rewrite <- !app_assoc. }
  rewrite E. cbn [scan_once].
  change (code (chr_ascii "{") =? 34) with false.
  change (code (chr_ascii "{") =? 123) with true. cbn iota.
  rewrite skip_ws_indent. rewrite skip_ws_head by reflexivity.
  change (code quote =? 125) with false.
  change (code quote =? 34) with true. reflexivity.
Qed.

(** ** Reading back a value *)

Lemma wf_list (l : list json) : wf (JList l) <-> Forall wf l.
Proof.
  cbn [wf]. induction l as [|x l IH]; cbn [fold_right].
  - split; [constructor | trivial].
  - rewrite IH. split; [intros []; now constructor | intros H; inversion H; auto].
Qed.

Lemma wf_dict (kvs : list (str * json)) :
  wf (JDict kvs) <-> NoDup (map fst kvs) /\ Forall (fun kv => wf (snd kv)) kvs.
Proof.
  cbn [wf]. apply and_iff_compat_l.
  induction kvs as [|kv kvs IH]; cbn [fold_right].
  - split; [constructor | trivial].
  - rewrite IH. split; [intros []; now constructor | intros H; inversion H; auto].
Qed.

Lemma array_reads_back (l : list json) :
  Forall reads_back l ->
  forall (level : nat) (tl : str) (fuel : nat),
    l <> [] -> Forall wf l ->
    (fold_right (fun x n => S (size x + n)) O l <= fuel)%nat ->
    JSONArray fuel (items_text level l (newline_indent level ++ lit "]" ++ tl))
    = Some (l, tl).
Proof.
  induction 1 as [|x l Hx Hl IH]; intros level tl fuel Hne Hwf Hfuel; [congruence|].
  inversion Hwf as [|? ? Hwx Hwl]; subst.
  cbn [fold_right] in Hfuel.
  destruct fuel as [|fuel]; [lia|].
  rewrite JSONArray_eq. cbn [items_text].
  destruct l as [|y l].
  - rewrite Hx; [|assumption|reflexivity|lia].
    rewrite skip_ws_indent. reflexivity.
  - rewrite Hx; [|assumption|reflexivity|lia].
    change (lit "," ++ ?t) with (chr_ascii "," :: t).
    rewrite skip_ws_head by reflexivity.
    change (code (chr_ascii ",") =? 93) with false.
    change (code (chr_ascii ",") =? 44) with true. cbn iota.
    rewrite skip_ws_indent.
    rewrite skip_ws_value by (cbn [items_text]; apply dump_starts_value).
    rewrite IH; [reflexivity | discriminate | assumption | lia].
Qed.

Lemma object_reads_back (kvs : list (str * json)) :
  Forall (fun kv => reads_back (snd kv)) kvs ->
  forall (level : nat) (tl : str) (fuel : nat),
    kvs <> [] -> Forall (fun kv => wf (snd kv)) kvs ->
    (fold_right (fun kv n => S (size (snd kv) + n)) O kvs <= fuel)%nat ->
    JSONObject fuel (members_text level kvs (newline_indent level ++ lit "}" ++ tl))
    = Some (kvs, tl).
Proof.
  induction 1 as [|[k x] kvs Hx Hl IH]; intros level tl fuel Hne Hwf Hfuel; [congruence|].
  inversion Hwf as [|? ? Hwx Hwl]; subst. cbn [snd] in *.
  cbn [fold_right snd] in Hfuel.
  destruct fuel as [|fuel]; [lia|].
  rewrite JSONObject_eq. cbn [members_text].
  rewrite scanstring_escape
    by (rewrite length_app; cbn [List.length]; pose proof (escape_length k); lia).
  change (lit ": " ++ ?t) with (chr_ascii ":" :: chr_ascii " " :: t).
  rewrite skip_ws_head by reflexivity.
  change (code (chr_ascii ":") =? 58) with true. cbn iota.
  change (skip_ws (chr_ascii " " :: ?s)) with (skip_ws s).
  rewrite skip_ws_value by apply dump_starts_value.
  destruct kvs as [|[k' y] kvs].
  - rewrite Hx; [|assumption|reflexivity|lia].
    rewrite skip_ws_indent. reflexivity.
  - rewrite Hx; [|assumption|reflexivity|lia].
    change (lit "," ++ ?t) with (chr_ascii "," :: t).
    rewrite skip_ws_head by reflexivity.
    change (code (chr_ascii ",") =? 125) with false.
    change (code (chr_ascii ",") =? 44) with true. cbn iota.
    rewrite skip_ws_indent. rewrite skip_ws_head by reflexivity.
    change (code quote =? 34) with true. cbn iota.
    rewrite IH; [reflexivity | discriminate | assumption | lia].
Qed.

(** [scan_once] reads back what [dump] writes, whatever follows it but a
    digit. *)
Lemma scan_once_dump (v : json) : reads_back v.
Proof.
  induction v as [ | b | z | s | l IH | kvs IH ] using json_induction;
    intros level tl fuel Hwf Htl Hfuel;
    (destruct fuel as [|fuel]; [cbn in Hfuel; lia|]).
  - reflexivity.
  - destruct b; reflexivity.
  - now apply scan_once_int.
  - apply scan_once_string.
  - destruct l as [|x l]; [reflexivity|].
    rewrite scan_once_array by discriminate.
    rewrite array_reads_back;
      [reflexivity | assumption | discriminate | now apply wf_list | cbn [size] in Hfuel; lia].
  - destruct kvs as [|kv kvs]; [reflexivity|].
    apply wf_dict in Hwf. destruct Hwf as [Hnd Hwf].
    rewrite scan_once_object by discriminate.
    rewrite object_reads_back;
      [ | assumption | discriminate | assumption | cbn [size] in Hfuel; lia].
    now rewrite dict_of_pairs_nodup.
Qed.

Local Close Scope N_scope.

(** ** The fuel [loads] gives is enough *)

Lemma join_items_size (sep : str) (level : nat) (l : list json) :
  Forall (fun x => forall level, size x <= List.length (dump level x)) l ->
  fold_right (fun x n => S (size x + n)) O l
  <= S (List.length (join_items sep (map (dump level) l))).
Proof.
  induction 1 as [|x l Hx Hl IH]; [cbn; lia|].
  destruct l as [|y l].
  - cbn [fold_right map join_items]. specialize (Hx level). lia.
  - rewrite map_cons, join_items_cons by discriminate.
    cbn [fold_right] in *. rewrite !length_app. specialize (Hx level).
    change (List.length (lit ",")) with 1. lia.
Qed.

Lemma join_members_size (sep : str) (level : nat) (kvs : list (str * json)) :
  Forall (fun kv => forall level, size (snd kv) <= List.length (dump level (snd kv))) kvs ->
  fold_right (fun kv n => S (size (snd kv) + n)) O kvs
  <= S (List.length
          (join_items sep
             (map (fun kv => match kv with
                             | (k, x) => encode_basestring_ascii k ++ lit ": " ++ dump level x
                             end) kvs))).
Proof.
  induction 1 as [|[k x] kvs Hx Hl IH]; [cbn; lia|].
  destruct kvs as [|kv kvs].
  - cbn [fold_right map join_items snd] in *. specialize (Hx level).
    rewrite !length_app. lia.
  - rewrite map_cons, join_items_cons by discriminate.
    cbn [fold_right snd] in *. rewrite !length_app. specialize (Hx level).
    change (List.length (lit ",")) with 1. lia.
Qed.

Lemma size_le_dump (v : json) (level : nat) : size v <= List.length (dump level v).
Proof.
  revert level.
  induction v as [ | b | z | s | l IH | kvs IH ] using json_induction; intros level.
  - cbn; lia.
  - destruct b; cbn; lia.
  - destruct (dump_starts_value level (JInt z) []) as (c & tl & E & _).
    rewrite List.app_nil_r in E. rewrite E. cbn; lia.
  - cbn; lia.
  - destruct l as [|x l]; [cbn; lia|].
    pose proof (join_items_size (newline_indent (S level)) (S level) (x :: l) IH) as B.
    cbn [size dump]. rewrite !length_app. cbn [newline_indent List.length].
    change (List.length (lit "[")) with 1. change (List.length (lit "]")) with 1.
    change (List.length (lit "{")) with 1. change (List.length (lit "}")) with 1. lia.
  - destruct kvs as [|kv kvs]; [cbn; lia|].
    pose proof (join_members_size (newline_indent (S level)) (S level) (kv :: kvs) IH) as B.
    cbn [size dump]. rewrite !length_app. cbn [newline_indent List.length].
    change (List.length (lit "[")) with 1. change (List.length (lit "]")) with 1.
    change (List.length (lit "{")) with 1. change (List.length (lit "}")) with 1. lia.
Qed.

(** [json.loads(json.dumps(v, indent=4)) == v] for every value whose dicts
    have distinct keys. *)
Theorem loads_dumps (v : json) : wf v -> loads (dumps v) = Some v.
Proof.
  intros Hwf. unfold loads, dumps.
  pose proof (dump_starts_value 0 v []) as Hs. rewrite List.app_nil_r in Hs.
  rewrite (skip_ws_value _ Hs).
  pose proof (scan_once_dump v 0%nat [] (List.length (dump 0 v)) Hwf I
                (size_le_dump v 0)) as R.
  rewrite List.app_nil_r in R. rewrite R. reflexivity.
Qed.








End JsonFacts.

(* ================================================================== *)
(** * The document is read back from what is saved *)

Module StoreFacts.
Import Py PyFacts Json JsonNotions JsonFacts Shape.

Lemma distinct_NoDup (l : list str) : distinct l = true -> NoDup l.
Proof.
  induction l as [|x l IH]; simpl; [constructor|].
  rewrite andb_true_iff, negb_true_iff. intros [Hx Hl].
  constructor; [|now apply IH].
  intros Hin. assert (E : existsb (str_eqb x) l = true).
  { apply existsb_exists. exists x. split; [assumption | apply str_eqb_refl]. }
  congruence.
Qed.

Lemma traverse_map {A B : Type} (f : A -> option B) (g : B -> A) (l : list B) :
  (forall x, f (g x) = Some x) -> traverse f (map g l) = Some l.
Proof.
  intros H. induction l as [|x l IH]; simpl; [reflexivity|].
  now rewrite H, IH.
Qed.

Lemma user_of_to_json (u : User) : user_of_json (user_to_json u) = Some u.
Proof. destruct u; reflexivity. Qed.

Lemma entry_of_to_json (e : Entry) : entry_of_json (entry_to_json e) = Some e.
Proof. destruct e as [i u h f m a n [g|] c]; reflexivity. Qed.

Lemma document_of_to_json (d : Document) :
  document_of_json (document_to_json d) = Some d.
Proof.
  destruct d as [us es]. unfold document_to_json, document_of_json.
  cbn [users entries].
  change (get_list _ "users") with (Some (map user_to_json us)).
  change (get_list _ "entries") with (Some (map entry_to_json es)).
  cbn iota beta.
  rewrite (traverse_map _ _ _ user_of_to_json), (traverse_map _ _ _ entry_of_to_json).
  reflexivity.
Qed.

Lemma wf_user (u : User) : wf (user_to_json u).
Proof.
  apply wf_dict. split; [apply distinct_NoDup; reflexivity|].
  repeat constructor.
Qed.

Lemma wf_entry (e : Entry) : wf (entry_to_json e).
Proof.
  apply wf_dict. split; [apply distinct_NoDup; reflexivity|].
  repeat constructor. destruct (e_image e); exact I.
Qed.

Lemma wf_document (d : Document) : wf (document_to_json d).
Proof.
  apply wf_dict. split; [apply distinct_NoDup; reflexivity|].
  repeat constructor; cbn [snd]; apply wf_list, Forall_forall;
    intros x Hx; apply in_map_iff in Hx; destruct Hx as (y & <- & _);
    [apply wf_user | apply wf_entry].
Qed.

(** What [save_data] writes, [load_data] reads. *)
Lemma load_after_save (d : Document) :
  load_data (Some (dumps (document_to_json d)))
  = Ok (d, Some (dumps (document_to_json d))).
Proof.
  unfold load_data. rewrite loads_dumps by apply wf_document.
  now rewrite document_of_to_json.
Qed.

Lemma holds_saved (data : Document) : holds (saved data) data.
Proof. apply load_after_save. Qed.

End StoreFacts.

(* ================================================================== *)
(** * Credential service *)

Module AuthFacts.
Import Py PyFacts StoreFacts.

Lemma find_first {A : Type} (p : A -> bool) (l : list A) (x : A) :
  find p l = Some x ->
  exists before after,
    l = before ++ x :: after /\ p x = true /\ forall y, In y before -> p y = false.
Proof.
  induction l as [|a l IH]; simpl; [discriminate|].
  destruct (p a) eqn:E.
  - intros H; injection H as <-. exists [], l. repeat split; [assumption | intros y []].
  - intros H. destruct (IH H) as (before & after & -> & Hx & Hb).
    exists (a :: before), after. repeat split; [assumption|].
    intros y [<- | Hy]; auto.
Qed.

Lemma login_test (username password : str) (u : User) :
  str_eqb (u_username u) username
  && str_eqb (u_password u) (hash_password password) = true
  <-> credentials_match username password u.
Proof.
  unfold credentials_match, hash_password.
  now rewrite andb_true_iff, !str_eqb_eq.
Qed.

(** C1.  On a backing file that holds [data], [login_user] raises nothing
    and leaves the file as it is; it returns a user exactly when a stored
    user has the given username and, as password, the SHA-256 hex digest of
    the given password, and the user it returns is the first such user in
    storage order; otherwise it returns [None]. *)
Theorem login_user_first_match (f : file) (data : Document) (username password : str) :
  holds f data ->
  exists r : option User,
    login_user username password f = Ok (r, f)
    /\ ((exists u, r = Some u)
        <-> exists u, In u (users data) /\ credentials_match username password u)
    /\ (r = None
        <-> forall u, In u (users data) -> ~ credentials_match username password u)
    /\ (forall u, r = Some u ->
        exists before after,
          users data = before ++ u :: after
          /\ credentials_match username password u
          /\ forall u', In u' before -> ~ credentials_match username password u').
Proof.
  intros H. unfold login_user, mbind. rewrite H. unfold ret.
  set (p := fun user => str_eqb (u_username user) username
                        && str_eqb (u_password user) (hash_password password)).
  exists (find p (users data)). split; [reflexivity|].
  assert (P : forall u, p u = true <-> credentials_match username password u)
    by (intros u; apply login_test).
  assert (N : forall u, p u = false <-> ~ credentials_match username password u).
  { intros u. rewrite <- P. destruct (p u); split; congruence. }
  split; [|split].
  - split.
    + intros [u Hu]. exists u. apply find_some in Hu. now rewrite <- P.
    + intros (u & Hin & Hu). destruct (find p (users data)) as [u'|] eqn:E; [now exists u'|].
      apply P in Hu. rewrite (find_none _ _ E u Hin) in Hu. discriminate.
  - split.
    + intros E u Hin. apply N. exact (find_none _ _ E u Hin).
    + intros Hall. destruct (find p (users data)) as [u|] eqn:E; [|reflexivity].
      apply find_some in E. destruct E as [Hin Hu]. apply P in Hu.
      now destruct (Hall u Hin).
  - intros u E. destruct (find_first _ _ _ E) as (before & after & Hl & Hu & Hb).
    exists before, after. split; [assumption|]. split; [now apply P|].
    intros u' Hin. apply N. now apply Hb.
Qed.

(** C2.  On a backing file that holds [data], [register_user] returns
    [False] exactly when a stored user has that very username, and then
    the file is not written; otherwise it returns [True] and the file
    holds the former users followed by one new user, whose id is the
    former number of users plus one and whose password is the SHA-256 hex
    digest of the plaintext, with the entries as they were. *)
Theorem register_user_already_exists (f : file) (data : Document)
    (username password full_name : str) :
  holds f data ->
  exists (r : bool) (f' : file),
    register_user username password full_name f = Ok (r, f')
    /\ (r = false <-> exists u, In u (users data) /\ u_username u = username)
    /\ (r = false -> f' = f)
    /\ (r = true ->
        let new_user :=
          mkUser (Z.of_nat (List.length (users data)) + 1) username
                 (Hashlib.hexdigest (encode_utf8 password)) full_name in
        f' = saved (mkDocument (users data ++ [new_user]) (entries data))
        /\ holds f' (mkDocument (users data ++ [new_user]) (entries data))).
Proof.
  intros H. unfold register_user, mbind. rewrite H.
  destruct (existsb (fun u => str_eqb (u_username u) username) (users data)) eqn:E.
  - exists false, f. split; [reflexivity|]. split; [|split; [reflexivity | discriminate]].
    split; [intros _ | reflexivity].
    apply existsb_exists in E. destruct E as (u & Hin & Hu).
    exists u. split; [assumption | now apply str_eqb_eq].
  - eexists true, _. split; [reflexivity|]. split; [|split; [discriminate|]].
    + split; [discriminate|]. intros (u & Hin & Hu).
      assert (T : existsb (fun u => str_eqb (u_username u) username) (users data) = true).
      { apply existsb_exists. exists u. split; [assumption | now apply str_eqb_eq]. }
      congruence.
    + intros _. split; [reflexivity | apply holds_saved].
Qed.

Lemma login_user_first_match_witness :
  holds sample_file sample_document
  /\ exists r : option User,
      login_user (lit "alice") (lit "pw123") sample_file = Ok (r, sample_file)
      /\ exists u, r = Some u.
Proof.
  split; [vm_compute; reflexivity|].
  destruct (login_user_first_match sample_file sample_document
              (lit "alice") (lit "pw123")) as (r & R & Hsome & _);
    [vm_compute; reflexivity|].
  exists r. split; [exact R|]. apply Hsome.
  exists sample_user. split; [now left | split; reflexivity].
Defined.

Lemma register_user_already_exists_witness :
  holds sample_file sample_document
  /\ exists (r : bool) (f' : file),
      register_user (lit "alice") (lit "other") (lit "Alice B") sample_file = Ok (r, f')
      /\ (r = false <-> exists u, In u [sample_user] /\ u_username u = lit "alice")
      /\ (r = false -> f' = sample_file).
Proof.
  split; [vm_compute; reflexivity|].
  destruct (register_user_already_exists sample_file sample_document
              (lit "alice") (lit "other") (lit "Alice B"))
    as (r & f' & R & Hiff & Hsame & _);
    [vm_compute; reflexivity|].
  exists r, f'. auto.
Defined.

End AuthFacts.

(* ================================================================== *)
(** * Entry repository *)

Module EntryFacts.
Import Py PyFacts StoreFacts.

Lemma create_entry_holds (f : file) (data : Document) (c : CreateCall) :
  holds f data ->
  call_create c f
  = Ok (tt, saved (mkDocument (users data)
                     (entries data ++ [created_entry (List.length (entries data)) c]))).
Proof.
  intros H. unfold call_create, create_entry, mbind. rewrite H. reflexivity.
Qed.

Lemma call_creates_holds (cs : list CreateCall) (f : file) (data : Document) :
  holds f data ->
  exists f',
    call_creates cs f = Ok (tt, f')
    /\ holds f' (mkDocument (users data)
                   (entries data ++ created_entries (List.length (entries data)) cs)).
Proof.
  revert f data; induction cs as [|c cs IH]; intros f data H.
  - exists f. split; [reflexivity|]. cbn [created_entries].
    rewrite List.app_nil_r. now destruct data.
  - cbn [call_creates]. unfold mbind at 1. rewrite (create_entry_holds f data c H).
    destruct (IH _ _ (holds_saved (mkDocument (users data)
               (entries data ++ [created_entry (List.length (entries data)) c]))))
      as (f' & R & Hf').
    exists f'. split; [exact R|].
    cbn [users entries] in Hf'. rewrite length_app, <- app_assoc in Hf'.
    cbn [List.length app] in Hf'. rewrite Nat.add_1_r in Hf'. exact Hf'.
Qed.

(** C3.  After any sequence of [create_entry] calls on a backing file that
    holds [data], [get_entries] of a user returns the stored entries of
    that user followed by the entries the calls made for that user, in
    call order: every returned entry belongs to the user, every stored
    entry of the user is returned, and the result is empty exactly when no
    stored entry belongs to the user. *)
Theorem get_entries_after_creates (f : file) (data : Document)
    (cs : list CreateCall) (user_id : Z) :
  holds f data ->
  exists (f' : file) (stored : list Entry),
    call_creates cs f = Ok (tt, f')
    /\ stored = entries data ++ created_entries (List.length (entries data)) cs
    /\ holds f' (mkDocument (users data) stored)
    /\ exists es : list Entry,
        get_entries user_id f' = Ok (es, f')
        /\ es = filter (owned_by user_id) (entries data)
                ++ filter (owned_by user_id)
                     (created_entries (List.length (entries data)) cs)
        /\ (forall e, In e es <-> In e stored /\ e_user_id e = user_id)
        /\ (es = [] <-> forall e, In e stored -> e_user_id e <> user_id).
Proof.
  intros H. destruct (call_creates_holds cs f data H) as (f' & R & Hf').
  exists f', (entries data ++ created_entries (List.length (entries data)) cs).
  split; [exact R|]. split; [reflexivity|]. split; [exact Hf'|].
  eexists. split.
  { unfold get_entries, mbind. rewrite Hf'. reflexivity. }
  cbn [entries]. fold (owned_by user_id).
  split; [apply filter_app|]. split.
  - intros e. rewrite filter_In. unfold owned_by. now rewrite Z.eqb_eq.
  - split.
    + intros E e Hin He.
      assert (Hf : In e (filter (owned_by user_id)
                           (entries data ++ created_entries (List.length (entries data)) cs))).
      { apply filter_In. split; [assumption|]. unfold owned_by. now apply Z.eqb_eq. }
      rewrite E in Hf. exact Hf.
    + intros Hall.
      destruct (filter (owned_by user_id)
                  (entries data ++ created_entries (List.length (entries data)) cs))
        as [|e es] eqn:E; [reflexivity|].
      assert (Hin : In e (e :: es)) by now left.
      rewrite <- E in Hin. apply filter_In in Hin. destruct Hin as [Hin He].
      unfold owned_by in He. apply Z.eqb_eq in He. now destruct (Hall e Hin).
Qed.

Lemma find_id_map (entry_id : Z) (g : Entry -> Entry) (l : list Entry) :
  (forall e, e_id (g e) = e_id e) ->
  find (fun e => Z.eqb (e_id e) entry_id) (map g l)
  = option_map g (find (fun e => Z.eqb (e_id e) entry_id) l).
Proof.
  intros Hg. induction l as [|e l IH]; simpl; [reflexivity|].
  rewrite Hg. destruct (e_id e =? entry_id)%Z; [reflexivity | exact IH].
Qed.

Lemma find_id_some (entry_id : Z) (l : list Entry) :
  (exists e, In e l /\ e_id e = entry_id) ->
  exists e0, find (fun e => Z.eqb (e_id e) entry_id) l = Some e0.
Proof.
  intros (e & Hin & He).
  destruct (find (fun e => Z.eqb (e_id e) entry_id) l) as [e0|] eqn:E; [now exists e0|].
  pose proof (find_none _ _ E e Hin) as N. cbn beta in N.
  apply Z.eqb_neq in N. contradiction.
Qed.

Lemma map_id_absent (entry_id : Z) (g : Entry -> Entry) (l : list Entry) :
  (forall e, In e l -> e_id e <> entry_id) ->
  map (fun e => if Z.eqb (e_id e) entry_id then g e else e) l = l.
Proof.
  induction l as [|e l IH]; intros H; simpl; [reflexivity|].
  rewrite IH by (intros x Hx; apply H; now right).
  replace (e_id e =? entry_id)%Z with false; [reflexivity|].
  symmetry; apply Z.eqb_neq, H; now left.
Qed.

Lemma filter_id_absent (entry_id : Z) (l : list Entry) :
  (forall e, In e l -> e_id e <> entry_id) ->
  filter (fun e => negb (Z.eqb (e_id e) entry_id)) l = l.
Proof.
  induction l as [|e l IH]; intros H; simpl; [reflexivity|].
  rewrite IH by (intros x Hx; apply H; now right).
  replace (e_id e =? entry_id)%Z with false; [reflexivity|].
  symmetry; apply Z.eqb_neq, H; now left.
Qed.

Lemma update_entry_holds (f : file) (data : Document) (entry_id : Z)
    (household_name father_name mobile_no address : str) (dustbin_number : Z) :
  holds f data ->
  update_entry entry_id household_name father_name mobile_no address dustbin_number f
  = Ok (tt, saved (mkDocument (users data)
                     (map (fun e => if Z.eqb (e_id e) entry_id
                                    then set_fields household_name father_name mobile_no
                                                    address dustbin_number e
                                    else e)
                          (entries data)))).
Proof. intros H. unfold update_entry, mbind. rewrite H. reflexivity. Qed.

Lemma delete_entry_holds (f : file) (data : Document) (entry_id : Z) :
  holds f data ->
  delete_entry entry_id f
  = Ok (tt, saved (mkDocument (users data)
                     (filter (fun e => negb (Z.eqb (e_id e) entry_id)) (entries data)))).
Proof. intros H. unfold delete_entry, mbind. rewrite H. reflexivity. Qed.

Lemma register_user_holds (f : file) (data : Document)
    (username password full_name : str) :
  holds f data ->
  register_user username password full_name f
  = if existsb (fun u => str_eqb (u_username u) username) (users data)
    then Ok (false, f)
    else Ok (true,
             saved (mkDocument
                      (users data
                       ++ [mkUser (Z.of_nat (List.length (users data)) + 1) username
                                  (hash_password password) full_name])
                      (entries data))).
Proof.
  intros H. unfold register_user, mbind. rewrite H.
  now destruct (existsb _ (users data)).
Qed.

Lemma get_entry_holds (f : file) (data : Document) (entry_id : Z) :
  holds f data ->
  get_entry entry_id f
  = Ok (find (fun e => Z.eqb (e_id e) entry_id) (entries data), f).
Proof. intros H. unfold get_entry, mbind. now rewrite H. Qed.

(** C4.  On a backing file that holds [data], [update_entry] raises
    nothing and writes the file.  The users are as before, and so is every
    entry with another id, at its place.  When an entry has the id,
    [get_entry] afterwards returns an entry with the five new field values
    and with the id, user id, creation time and image [get_entry] returned
    before.  When no entry has the id, the document written is [data]. *)
Theorem update_entry_then_get_entry (f : file) (data : Document) (entry_id : Z)
    (household_name father_name mobile_no address : str) (dustbin_number : Z) :
  holds f data ->
  exists (f' : file) (data' : Document),
    update_entry entry_id household_name father_name mobile_no address
                 dustbin_number f = Ok (tt, f')
    /\ f' = saved data' /\ holds f' data'
    /\ users data' = users data
    /\ List.length (entries data') = List.length (entries data)
    /\ (forall i e, nth_error (entries data) i = Some e -> e_id e <> entry_id ->
                    nth_error (entries data') i = Some e)
    /\ ((exists e, In e (entries data) /\ e_id e = entry_id) ->
        exists e0 e1,
          get_entry entry_id f = Ok (Some e0, f)
          /\ get_entry entry_id f' = Ok (Some e1, f')
          /\ e_household_name e1 = household_name
          /\ e_father_name e1 = father_name
          /\ e_mobile_no e1 = mobile_no
          /\ e_address e1 = address
          /\ e_dustbin_number e1 = dustbin_number
          /\ e_id e1 = e_id e0 /\ e_user_id e1 = e_user_id e0
          /\ e_created_at e1 = e_created_at e0 /\ e_image e1 = e_image e0)
    /\ ((forall e, In e (entries data) -> e_id e <> entry_id) -> data' = data).
Proof.
  intros H.
  set (g := set_fields household_name father_name mobile_no address dustbin_number).
  set (u := fun e => if Z.eqb (e_id e) entry_id then g e else e).
  exists (saved (mkDocument (users data) (map u (entries data)))),
         (mkDocument (users data) (map u (entries data))).
  split; [now apply update_entry_holds|].
  split; [reflexivity|]. split; [apply holds_saved|]. split; [reflexivity|].
  cbn [entries]. split; [apply length_map|]. split; [|split].
  - intros i e Hi He. rewrite nth_error_map, Hi. cbn [option_map]. unfold u.
    apply Z.eqb_neq in He. now rewrite He.
  - intros Hex. destruct (find_id_some entry_id (entries data) Hex) as [e0 E0].
    exists e0, (g e0).
    assert (G1 : get_entry entry_id f = Ok (Some e0, f)).
    { rewrite (get_entry_holds f data) by assumption. now rewrite E0. }
    assert (G2 : find (fun e => Z.eqb (e_id e) entry_id) (map u (entries data))
                 = Some (g e0)).
    { rewrite find_id_map by (intros e; unfold u; destruct (e_id e =? entry_id)%Z; reflexivity).
      rewrite E0. cbn [option_map]. unfold u.
      apply find_some in E0. destruct E0 as [_ E0]. cbn beta in E0.
      now rewrite E0. }
    split; [exact G1|]. split.
    { rewrite (get_entry_holds _ _ _ (holds_saved _)). cbn [entries].
      now rewrite G2. }
    repeat split.
  - intros Habs. unfold u. rewrite map_id_absent by assumption. now destruct data.
Qed.

(** C5.  On a backing file that holds [data], [delete_entry] raises
    nothing and writes the file; [get_entry] of the same id afterwards
    returns [None]; the users are as before and the entries left are those
    with another id, in their order; when no entry has the id, the
    document written is [data]. *)
Theorem delete_entry_then_get_entry (f : file) (data : Document) (entry_id : Z) :
  holds f data ->
  exists (f' : file) (data' : Document),
    delete_entry entry_id f = Ok (tt, f')
    /\ f' = saved data' /\ holds f' data'
    /\ get_entry entry_id f' = Ok (None, f')
    /\ users data' = users data
    /\ entries data' = filter (fun e => negb (Z.eqb (e_id e) entry_id)) (entries data)
    /\ (forall e, In e (entries data') <-> In e (entries data) /\ e_id e <> entry_id)
    /\ ((forall e, In e (entries data) -> e_id e <> entry_id) -> data' = data).
Proof.
  intros H.
  set (keep := fun e => negb (Z.eqb (e_id e) entry_id)).
  exists (saved (mkDocument (users data) (filter keep (entries data)))),
         (mkDocument (users data) (filter keep (entries data))).
  split; [now apply delete_entry_holds|].
  split; [reflexivity|]. split; [apply holds_saved|].
  assert (K : forall e, keep e = true <-> e_id e <> entry_id).
  { intros e. unfold keep. now rewrite negb_true_iff, Z.eqb_neq. }
  split; [|split; [reflexivity|split; [reflexivity|split]]].
  - rewrite (get_entry_holds _ _ _ (holds_saved _)). cbn [entries].
    destruct (find (fun e => Z.eqb (e_id e) entry_id) (filter keep (entries data)))
      as [e|] eqn:E; [|reflexivity].
    apply find_some in E. destruct E as [Hin He]. cbn beta in He.
    apply filter_In in Hin. destruct Hin as [_ Hk]. apply K in Hk.
    apply Z.eqb_eq in He. contradiction.
  - intros e. cbn [entries]. now rewrite filter_In, K.
  - intros Habs. unfold keep. rewrite filter_id_absent by assumption. now destruct data.
Qed.

(** C9.  On a backing file that holds [data], [create_entry],
    [update_entry] and [delete_entry] write a document with the users of
    [data], and [register_user] leaves or writes a document with the
    entries of [data]. *)
Theorem operations_frame (f : file) (data : Document) :
  holds f data ->
  (forall c : CreateCall,
      exists f' data', call_create c f = Ok (tt, f')
                       /\ holds f' data' /\ users data' = users data)
  /\ (forall entry_id household_name father_name mobile_no address dustbin_number,
      exists f' data',
        update_entry entry_id household_name father_name mobile_no address
                     dustbin_number f = Ok (tt, f')
        /\ holds f' data' /\ users data' = users data)
  /\ (forall entry_id,
      exists f' data', delete_entry entry_id f = Ok (tt, f')
                       /\ holds f' data' /\ users data' = users data)
  /\ (forall username password full_name,
      exists r f' data',
        register_user username password full_name f = Ok (r, f')
        /\ holds f' data' /\ entries data' = entries data).
Proof.
  intros H. split; [|split; [|split]].
  - intros c. rewrite (create_entry_holds f data c H).
    eexists _, _. split; [reflexivity|]. split; [apply holds_saved | reflexivity].
  - intros entry_id h fa m a n.
    rewrite (update_entry_holds f data entry_id h fa m a n H).
    eexists _, _. split; [reflexivity|]. split; [apply holds_saved | reflexivity].
  - intros entry_id. rewrite (delete_entry_holds f data entry_id H).
    eexists _, _. split; [reflexivity|]. split; [apply holds_saved | reflexivity].
  - intros username password full_name.
    rewrite (register_user_holds f data username password full_name H).
    destruct (existsb _ (users data)).
    + exists false, f, data. auto.
    + eexists true, _, _. split; [reflexivity|].
      split; [apply holds_saved | reflexivity].
Qed.

(** C10.  On a backing file that holds [data], [create_entry] appends one
    entry.  Its image is [None] when no image bytes are given and when the
    byte string given is empty; it is the base64 text of the bytes exactly
    when the byte string is not empty. *)
Theorem create_entry_image (f : file) (data : Document) (user_id : Z)
    (household_name father_name mobile_no address : str) (dustbin_number : Z)
    (image_bytes : option bytes) (now : str) :
  holds f data ->
  exists (f' : file) (e : Entry),
    create_entry user_id household_name father_name mobile_no address
                 dustbin_number image_bytes now f = Ok (tt, f')
    /\ holds f' (mkDocument (users data) (entries data ++ [e]))
    /\ (image_bytes = None -> e_image e = None)
    /\ (image_bytes = Some [] -> e_image e = None)
    /\ (forall bs, image_bytes = Some bs ->
          (e_image e = Some (decode_ascii (Base64.b64encode bs)) <-> bs <> [])).
Proof.
  intros H.
  pose (c := mkCreateCall user_id household_name father_name mobile_no address
                          dustbin_number image_bytes now).
  exists (saved (mkDocument (users data)
                   (entries data ++ [created_entry (List.length (entries data)) c]))),
         (created_entry (List.length (entries data)) c).
  split; [exact (create_entry_holds f data c H)|].
  split; [apply holds_saved|]. cbn [created_entry e_image c_image_bytes c].
  split; [now intros ->|]. split; [now intros ->|].
  intros bs ->. destruct bs as [|b bs]; cbn [encode_image].
  - split; [discriminate | congruence].
  - split; [discriminate | reflexivity].
Qed.

(** ** Ids after a deletion *)

(** C6.  From a missing backing file, [init_data], two [create_entry]
    calls, [delete_entry] of id 1 and a third [create_entry] leave a
    document whose two entries both have id 2: the id of the deleted entry's
    successor is given again. *)
Theorem entry_ids_collide_after_delete :
  exists (f' : file) (data : Document),
    (init_data ;;; call_create sample_call ;;; call_create sample_call ;;;
     delete_entry 1 ;;; call_create sample_call) None = Ok (tt, f')
    /\ holds f' data
    /\ map e_id (entries data) = [2; 2]%Z
    /\ ~ NoDup (map e_id (entries data)).
Proof.
  assert (H0 : holds (Some empty_document_text) (mkDocument [] []))
    by (vm_compute; reflexivity).
  set (e1 := created_entry 0 sample_call).
  set (e2 := created_entry 1 sample_call).
  assert (R1 : call_create sample_call (Some empty_document_text)
               = Ok (tt, saved (mkDocument [] [e1])))
    by exact (create_entry_holds _ _ sample_call H0).
  assert (R2 : call_create sample_call (saved (mkDocument [] [e1]))
               = Ok (tt, saved (mkDocument [] [e1; e2])))
    by exact (create_entry_holds _ _ sample_call (holds_saved (mkDocument [] [e1]))).
  assert (R3 : delete_entry 1 (saved (mkDocument [] [e1; e2]))
               = Ok (tt, saved (mkDocument [] [e2])))
    by exact (delete_entry_holds _ _ 1%Z (holds_saved (mkDocument [] [e1; e2]))).
  assert (R4 : call_create sample_call (saved (mkDocument [] [e2]))
               = Ok (tt, saved (mkDocument [] [e2; e2])))
    by exact (create_entry_holds _ _ sample_call (holds_saved (mkDocument [] [e2]))).
  exists (saved (mkDocument [] [e2; e2])), (mkDocument [] [e2; e2]). split.
  { unfold mbind at 1. cbn [init_data].
    unfold mbind at 1. rewrite R1.
    unfold mbind at 1. rewrite R2.
    unfold mbind at 1. rewrite R3. exact R4. }
  split; [apply holds_saved|]. split; [reflexivity|].
  cbn. intros N. inversion N as [|? ? Hn _]. apply Hn. now left.
Qed.

(** Without a deletion the ids are the positions: the entries a sequence
    of [create_entry] calls makes have distinct ids. *)
Lemma created_entries_ids (n : nat) (cs : list CreateCall) :
  map e_id (created_entries n cs)
  = map (fun k => Z.of_nat k + 1)%Z (seq n (List.length cs)).
Proof.
  revert n; induction cs as [|c cs IH]; intros n; [reflexivity|].
  cbn [created_entries map List.length seq]. now rewrite IH.
Qed.

Lemma created_entries_ids_distinct (n : nat) (cs : list CreateCall) :
  NoDup (map e_id (created_entries n cs)).
Proof.
  rewrite created_entries_ids. apply Finite.Injective_map_NoDup; [|apply seq_NoDup].
  intros a b H. lia.
Qed.

Lemma get_entries_after_creates_witness :
  holds sample_file sample_document
  /\ exists (f' : file) (es : list Entry),
      call_creates [sample_call] sample_file = Ok (tt, f')
      /\ get_entries 1 f' = Ok (es, f')
      /\ forall e, In e es -> e_user_id e = 1%Z.
Proof.
  split; [vm_compute; reflexivity|].
  destruct (get_entries_after_creates sample_file sample_document [sample_call] 1%Z)
    as (f' & stored & R & _ & _ & es & G & _ & Hin & _);
    [vm_compute; reflexivity|].
  exists f', es. split; [exact R|]. split; [exact G|].
  intros e He. now apply Hin.
Defined.

Lemma update_entry_then_get_entry_witness :
  holds sample_file sample_document
  /\ exists (f' : file) (data' : Document),
      update_entry 1 (lit "Patel House") (lit "K Patel") (lit "8888888888")
                   (lit "4 Station Road") 2 sample_file = Ok (tt, f')
      /\ holds f' data' /\ users data' = [sample_user].
Proof.
  split; [vm_compute; reflexivity|].
  destruct (update_entry_then_get_entry sample_file sample_document 1%Z
              (lit "Patel House") (lit "K Patel") (lit "8888888888")
              (lit "4 Station Road") 2%Z)
    as (f' & data' & R & _ & Hf' & Hu & _);
    [vm_compute; reflexivity|].
  exists f', data'. auto.
Defined.

Lemma delete_entry_then_get_entry_witness :
  holds sample_file sample_document
  /\ exists f' : file,
      delete_entry 1 sample_file = Ok (tt, f')
      /\ get_entry 1 f' = Ok (None, f').
Proof.
  split; [vm_compute; reflexivity|].
  destruct (delete_entry_then_get_entry sample_file sample_document 1%Z)
    as (f' & data' & R & _ & _ & G & _);
    [vm_compute; reflexivity|].
  exists f'. auto.
Defined.

Lemma operations_frame_witness :
  holds sample_file sample_document
  /\ forall entry_id,
      exists f' data', delete_entry entry_id sample_file = Ok (tt, f')
                       /\ holds f' data' /\ users data' = [sample_user].
Proof.
  split; [vm_compute; reflexivity|].
  destruct (operations_frame sample_file sample_document) as (_ & _ & D & _);
    [vm_compute; reflexivity|].
  exact D.
Defined.

Lemma create_entry_image_witness :
  holds sample_file sample_document
  /\ exists (f' : file) (e : Entry),
      create_entry 1 (lit "Shah House") (lit "R Shah") (lit "9999999999")
                   (lit "12 MG Road") 3 (Some []) (lit "2024-01-01T10:00:00")
                   sample_file = Ok (tt, f')
      /\ e_image e = None.
Proof.
  split; [vm_compute; reflexivity|].
  destruct (create_entry_image sample_file sample_document 1%Z (lit "Shah House")
              (lit "R Shah") (lit "9999999999") (lit "12 MG Road") 3%Z (Some [])
              (lit "2024-01-01T10:00:00"))
    as (f' & e & R & _ & _ & Hempty & _);
    [vm_compute; reflexivity|].
  exists f', e. auto.
Defined.

End EntryFacts.

(* ================================================================== *)
(** * Round trip of the backing file *)

Module RoundTrip.
Import Py Json JsonFacts StoreFacts.

(** C7.  On a backing file that holds [data], [save_data(load_data())]
    raises nothing and writes a file that holds [data] again: the text
    written is the one [json.dump] with [indent=4] gives for [data], and
    [load_data] reads [data] from it. *)
Theorem save_load_round_trip (f : file) (data : Document) :
  holds f data ->
  exists f' : file,
    (data0 <- load_data ;; save_data data0) f = Ok (tt, f')
    /\ f' = saved data
    /\ holds f' data.
Proof.
  intros H. exists (saved data). split; [|split; [reflexivity | apply holds_saved]].
  unfold mbind. rewrite H. reflexivity.
Qed.

Lemma save_load_round_trip_witness :
  holds (Some empty_document_text) (mkDocument [] [])
  /\ exists f' : file,
      (data0 <- load_data ;; save_data data0) (Some empty_document_text) = Ok (tt, f')
      /\ holds f' (mkDocument [] []).
Proof.
  split; [vm_compute; reflexivity|].
  destruct (save_load_round_trip (Some empty_document_text) (mkDocument [] []))
    as (f' & R & _ & Hf');
    [vm_compute; reflexivity|].
  exists f'. auto.
Defined.

End RoundTrip.

(* ================================================================== *)
(** * Report exporter *)

Module ExportFacts.
Import Py PyFacts Fpdf.

Lemma draw_concat (o : op) (ps : list (list op)) :
  ps <> [] -> concat (draw o ps) = concat ps ++ [o].
Proof.
  induction ps as [|p ps IH]; [congruence|]. intros _.
  destruct ps as [|q ps].
  - cbn. now rewrite !List.app_nil_r.
  - change (draw o (p :: q :: ps)) with (p :: draw o (q :: ps)).
    cbn [concat]. rewrite IH by discriminate. cbn [concat]. now rewrite app_assoc.
Qed.

Lemma draw_length (o : op) (ps : list (list op)) :
  List.length (draw o ps) = List.length ps.
Proof.
  induction ps as [|p ps IH]; [reflexivity|].
  destruct ps as [|q ps]; [reflexivity|].
  change (draw o (p :: q :: ps)) with (p :: draw o (q :: ps)).
  cbn [List.length]. now rewrite IH.
Qed.

Lemma pages_nonempty (ps : list (list op)) : 1 <= List.length ps -> ps <> [].
Proof. destruct ps; cbn; [lia | discriminate]. Qed.

Section Library.

Variable page_break : list op -> Z -> bool.

Lemma cell_pages (w h : Z) (txt : str) (ln : bool) (align : str) (pdf : FPDF) :
  1 <= List.length (pages pdf) ->
  concat (pages (cell page_break w h txt ln align pdf))
  = concat (pages pdf) ++ [Cell w h txt ln align]
  /\ 1 <= List.length (pages (cell page_break w h txt ln align pdf)).
Proof.
  intros H. unfold cell. cbn [pages]. rewrite draw_length.
  destruct (page_break (current_page pdf) h); cbn [add_page pages].
  - rewrite draw_concat by (destruct (pages pdf); discriminate).
    rewrite concat_app, length_app. cbn. rewrite List.app_nil_r. split; [reflexivity | lia].
  - rewrite draw_concat by now apply pages_nonempty. now split.
Qed.

Lemma ln_pages (h : Z) (pdf : FPDF) :
  1 <= List.length (pages pdf) ->
  concat (pages (Fpdf.ln h pdf)) = concat (pages pdf) ++ [Ln h]
  /\ 1 <= List.length (pages (Fpdf.ln h pdf)).
Proof.
  intros H. unfold Fpdf.ln. cbn [pages]. rewrite draw_length.
  rewrite draw_concat by now apply pages_nonempty. now split.
Qed.

Lemma export_entry_pages (pdf : FPDF) (idx : Z) (e : Entry) :
  1 <= List.length (pages pdf) ->
  concat (pages (export_entry page_break pdf (idx, e)))
  = concat (pages pdf) ++ entry_ops idx e
  /\ 1 <= List.length (pages (export_entry page_break pdf (idx, e))).
Proof.
  intros H. unfold export_entry.
  destruct (cell_pages 0 10 (entry_line1 idx e) true (lit "") pdf H) as [C1 L1].
  destruct (cell_pages 0 10 (entry_line2 e) true (lit "") _ L1) as [C2 L2].
  destruct (ln_pages 5 _ L2) as [C3 L3].
  split; [|exact L3]. rewrite C3, C2, C1. rewrite <- !app_assoc. reflexivity.
Qed.

Lemma export_loop_pages (ies : list (Z * Entry)) (pdf : FPDF) :
  1 <= List.length (pages pdf) ->
  concat (pages (fold_left (export_entry page_break) ies pdf))
  = concat (pages pdf) ++ flat_map (fun ie => entry_ops (fst ie) (snd ie)) ies
  /\ 1 <= List.length (pages (fold_left (export_entry page_break) ies pdf)).
Proof.
  revert pdf; induction ies as [|[idx e] ies IH]; intros pdf H.
  - cbn. now rewrite List.app_nil_r.
  - cbn [fold_left flat_map fst snd].
    destruct (export_entry_pages pdf idx e H) as [C L].
    destruct (IH _ L) as [C' L']. split; [|exact L'].
    rewrite C', C. now rewrite <- app_assoc.
Qed.

End Library.

Lemma enumerate_seq {A : Type} (start : nat) (l : list A) :
  enumerate (Z.of_nat start) l
  = combine (map Z.of_nat (seq start (List.length l))) l.
Proof.
  revert start; induction l as [|x l IH]; intros start; [reflexivity|].
  cbn [enumerate List.length seq map combine]. f_equal.
  rewrite <- IH. f_equal. lia.
Qed.

(** ** Latin-1 *)

Lemma latin1_app (a b : str) : latin1 (a ++ b) = latin1 a && latin1 b.
Proof. apply forallb_app. Qed.

Lemma latin1_ascii (l : list ascii) : latin1 (map chr_ascii l) = true.
Proof.
  induction l as [|a l IH]; [reflexivity|]. cbn [map latin1 forallb].
  rewrite andb_true_iff. split; [|exact IH].
  apply N.ltb_lt. cbn [code chr_ascii]. apply N_ascii_bounded.
Qed.

Lemma latin1_lit (s : string) : latin1 (lit s) = true.
Proof. apply latin1_ascii. Qed.

Lemma latin1_int (z : Z) : latin1 (str_of_int z) = true.
Proof. apply latin1_ascii. Qed.

Lemma byte_of_N_ascii (a : ascii) : byte_of_N (N_of_ascii a) = byte_of_ascii a.
Proof.
  unfold byte_of_N. rewrite N.mod_small by apply N_ascii_bounded.
  now rewrite <- byte_of_ascii_via_N.
Qed.

Lemma encode_latin1_ascii (l : list ascii) :
  encode_latin1 (map chr_ascii l) = Ok (map byte_of_ascii l).
Proof.
  induction l as [|a l IH]; [reflexivity|]. cbn [map encode_latin1].
  replace (code (chr_ascii a) <? 256)%N with true
    by (symmetry; apply N.ltb_lt, N_ascii_bounded).
  rewrite IH. cbn [bind code chr_ascii]. now rewrite byte_of_N_ascii.
Qed.

Lemma encode_decode_latin1 (bs : bytes) : encode_latin1 (decode_latin1 bs) = Ok bs.
Proof.
  unfold decode_latin1. rewrite <- (map_map ascii_of_byte chr_ascii).
  rewrite encode_latin1_ascii, map_map.
  rewrite (map_ext _ (fun b => b)) by apply byte_of_ascii_of_byte.
  now rewrite map_id.
Qed.

Lemma entry_ops_latin1 (idx : Z) (e : Entry) :
  latin1 (flat_map op_text (entry_ops idx e)) = entry_latin1 e.
Proof.
  unfold entry_ops, entry_latin1. cbn [flat_map op_text].
  rewrite !latin1_app, !latin1_lit, !latin1_int. cbn [latin1 forallb].
  rewrite !andb_true_r. cbn [andb]. now rewrite !andb_assoc.
Qed.

Lemma loop_latin1 (ies : list (Z * Entry)) :
  latin1 (flat_map op_text (flat_map (fun ie => entry_ops (fst ie) (snd ie)) ies))
  = forallb entry_latin1 (map snd ies).
Proof.
  induction ies as [|[idx e] ies IH]; [reflexivity|].
  cbn [flat_map map forallb fst snd]. rewrite flat_map_app, latin1_app.
  now rewrite entry_ops_latin1, IH.
Qed.

Lemma export_document_pages (page_break : list op -> Z -> bool) (entries : list Entry) :
  concat (pages (export_document page_break entries))
  = Cell 200 10 (lit "Entries Report") true (lit "C") :: Ln 10
    :: flat_map (fun ie => entry_ops (fst ie) (snd ie)) (enumerate 1 entries)
  /\ 1 <= List.length (pages (export_document page_break entries)).
Proof.
  unfold export_document.
  set (pdf0 := add_page (set_font (lit "Arial") 10 new)).
  assert (L0 : 1 <= List.length (pages pdf0)) by (cbn; lia).
  destruct (cell_pages page_break 200 10 (lit "Entries Report") true (lit "C") pdf0 L0)
    as [C1 L1].
  destruct (ln_pages 10 _ L1) as [C2 L2].
  destruct (export_loop_pages page_break (enumerate 1 entries) _ L2) as [C3 L3].
  split; [|exact L3]. rewrite C3, C2, C1. reflexivity.
Qed.

Lemma map_snd_enumerate {A : Type} (start : Z) (l : list A) :
  map snd (enumerate start l) = l.
Proof.
  revert start; induction l as [|x l IH]; intros start; [reflexivity|].
  cbn [enumerate map snd]. now rewrite IH.
Qed.

Lemma export_text_latin1 (page_break : list op -> Z -> bool) (entries : list Entry) :
  latin1 (page_text (export_document page_break entries))
  = forallb entry_latin1 entries.
Proof.
  unfold page_text. rewrite (proj1 (export_document_pages page_break entries)).
  cbn [flat_map op_text]. rewrite List.app_nil_l, latin1_app, latin1_lit.
  cbn [andb]. now rewrite loop_latin1, map_snd_enumerate.
Qed.

Lemma numbered_ops (ks : list nat) (entries : list Entry) :
  flat_map (fun ie => entry_ops (fst ie) (snd ie)) (combine (map Z.of_nat ks) entries)
  = flat_map (fun ie => entry_ops (Z.of_nat (fst ie)) (snd ie)) (combine ks entries).
Proof.
  revert ks; induction entries as [|e es IH]; intros [|k ks]; try reflexivity.
  cbn [map combine flat_map fst snd]. now rewrite IH.
Qed.

Lemma close_pages (pdf : FPDF) : 1 <= List.length (pages pdf) -> close pdf = pdf.
Proof. unfold close. destruct (pages pdf); cbn; [lia | reflexivity]. Qed.

(** C8, amended.  For every sequence of entries, whatever the layout of
    the library: the operations drawn on the pages are, in order, the title
    cell, a line break, and for each entry in the order received a cell
    with its number (from 1), household name, father's name and mobile
    number, a cell with its address and dustbin count, and a line break of
    5; there is at least one page.  When the four text fields of every
    entry are Latin-1, [export_to_pdf] returns the header of the document
    followed by the bytes of its body, a non-empty byte string; when a
    field has a character above U+00FF, it raises [UnicodeEncodeError]. *)
Theorem export_to_pdf_latin1 (page_break : list op -> Z -> bool)
    (document_body : FPDF -> bytes) (entries : list Entry) :
  let pdf := export_document page_break entries in
  concat (pages pdf)
  = Cell 200 10 (lit "Entries Report") true (lit "C") :: Ln 10
    :: flat_map (fun ie => entry_ops (Z.of_nat (fst ie)) (snd ie))
         (combine (seq 1 (List.length entries)) entries)
  /\ 1 <= List.length (pages pdf)
  /\ (forallb entry_latin1 entries = true ->
      export_to_pdf page_break document_body entries
      = Ok (pdf_header ++ document_body pdf)
      /\ 0 < List.length (pdf_header ++ document_body pdf))
  /\ (forallb entry_latin1 entries = false ->
      export_to_pdf page_break document_body entries = Raise UnicodeEncodeError).
Proof.
  intros pdf. destruct (export_document_pages page_break entries) as [C L].
  fold pdf in C, L. split; [|split; [exact L|split]].
  - rewrite C. do 2 f_equal. change 1%Z with (Z.of_nat 1).
    rewrite enumerate_seq. apply numbered_ops.
  - intros H. unfold export_to_pdf, output. fold pdf.
    rewrite (close_pages pdf L).
    pose proof (export_text_latin1 page_break entries) as T. fold pdf in T.
    rewrite H in T. destruct (encode_latin1_ok _ T) as (bs & -> & _).
    cbn [bind]. split.
    + change (lit "%PDF-1.3" ++ Json.newline :: decode_latin1 (document_body pdf))
        with (map chr_ascii (list_ascii_of_string "%PDF-1.3" ++ [ascii_of_N 10])
              ++ decode_latin1 (document_body pdf)).
      assert (A : forall (a b : str) x y,
                 encode_latin1 a = Ok x -> encode_latin1 b = Ok y ->
                 encode_latin1 (a ++ b) = Ok (x ++ y)).
      { induction a as [|c a IHa]; intros b x y Ha Hb.
        - injection Ha as <-. exact Hb.
        - cbn [encode_latin1 app] in *. destruct (code c <? 256)%N; [|discriminate].
          destruct (encode_latin1 a) as [x'|] eqn:Ea; [|discriminate].
          cbn [bind] in Ha. injection Ha as <-.
          rewrite (IHa b x' y eq_refl Hb). reflexivity. }
      apply A; [apply encode_latin1_ascii | apply encode_decode_latin1].
    + rewrite length_app. cbn. lia.
  - intros H. unfold export_to_pdf, output. fold pdf.
    rewrite (close_pages pdf L).
    pose proof (export_text_latin1 page_break entries) as T. fold pdf in T.
    rewrite H in T. now rewrite (encode_latin1_raise _ T).
Qed.

(** C8 as stated fails: an entry with a character above U+00FF makes
    [export_to_pdf] raise instead of returning bytes. *)
Lemma export_to_pdf_raises_outside_latin1 :
  ~ (forall (page_break : list op -> Z -> bool) (document_body : FPDF -> bytes)
            (entries : list Entry),
        exists bs, export_to_pdf page_break document_body entries = Ok bs
                   /\ 0 < List.length bs).
Proof.
  intros H.
  destruct (H (fun _ _ => false) (fun _ => []) [devanagari_entry]) as (bs & E & _).
  vm_compute in E. discriminate.
Qed.

End ExportFacts.

(* ================================================================== *)
(** * Further properties of the store *)

Module StoreExtras.
Import Py PyFacts Json JsonNotions JsonFacts StoreFacts.
Local Open Scope N_scope.

(** X1.  [init_data] never raises.  A missing backing file becomes one that
    holds the empty document; an existing one is left as it is, whatever
    its text; so a second [init_data] changes nothing. *)
Theorem init_data_creates_once (f : file) :
  exists f' : file,
    init_data f = Ok (tt, f')
    /\ (f = None -> holds f' (mkDocument [] []))
    /\ (forall text, f = Some text -> f' = Some text)
    /\ init_data f' = Ok (tt, f').
Proof.
  destruct f as [text|].
  - exists (Some text). split; [reflexivity|]. split; [discriminate|].
    split; [now intros t [= <-] | reflexivity].
  - exists (Some empty_document_text). split; [reflexivity|].
    split; [intros _; vm_compute; reflexivity|]. split; [discriminate | reflexivity].
Qed.

Lemma printable_app (a b : str) :
  forallb printable (a ++ b) = forallb printable a && forallb printable b.
Proof. apply forallb_app. Qed.

Lemma printable_hex4 (n : N) : forallb printable (hex4 n) = true.
Proof.
  assert (D : forall d, d < 16 -> printable (chr_ascii (hex_digit d)) = true).
  { intros d H.
    assert (E : d = 0 \/ d = 1 \/ d = 2 \/ d = 3 \/ d = 4 \/ d = 5 \/ d = 6 \/ d = 7
                \/ d = 8 \/ d = 9 \/ d = 10 \/ d = 11 \/ d = 12 \/ d = 13 \/ d = 14
                \/ d = 15) by lia.
    repeat (destruct E as [-> | E]; [reflexivity|]). subst; reflexivity. }
  unfold hex4. cbn [map forallb].
  rewrite !D by (apply N.mod_lt; discriminate). reflexivity.
Qed.

Lemma printable_escape_char (c : char) : forallb printable (escape_char c) = true.
Proof.
  unfold escape_char.
  destruct (code c =? 34)%N eqn:E1.
  { cbn [lit list_ascii_of_string map app forallb]. unfold printable at 2.
    apply N.eqb_eq in E1. rewrite E1. reflexivity. }
  destruct (code c =? 92)%N; [reflexivity|].
  destruct (code c =? 10)%N; [reflexivity|].
  destruct (code c =? 13)%N; [reflexivity|].
  destruct (code c =? 9)%N; [reflexivity|].
  destruct (code c =? 8)%N; [reflexivity|].
  destruct (code c =? 12)%N; [reflexivity|].
  destruct ((32 <=? code c) && (code c <=? 126))%N eqn:E2.
  { cbn [forallb]. unfold printable. rewrite E2. now rewrite orb_true_r. }
  destruct (code c <? 65536)%N.
  - rewrite printable_app, printable_hex4. reflexivity.
  - rewrite !printable_app, !printable_hex4. reflexivity.
Qed.

Lemma printable_string (s : str) :
  forallb printable (encode_basestring_ascii s) = true.
Proof.
  unfold encode_basestring_ascii. cbn [forallb]. rewrite printable_app.
  cbn [forallb]. change (printable quote) with true. cbn [andb].
  rewrite andb_true_r.
  induction s as [|c s IH]; [reflexivity|].
  cbn [flat_map]. now rewrite printable_app, printable_escape_char, IH.
Qed.

Lemma printable_int (z : Z) : forallb printable (str_of_int z) = true.
Proof.
  assert (D : forall d, forallb printable (map chr_ascii (digits_of_uint d)) = true).
  { induction d; cbn [digits_of_uint map forallb]; rewrite ?IHd; reflexivity. }
  unfold str_of_int, int_repr. destruct (Z.to_int z); cbn [map forallb]; now rewrite D.
Qed.

Lemma printable_indent (level : nat) : forallb printable (newline_indent level) = true.
Proof.
  unfold newline_indent. cbn [forallb]. change (printable newline) with true.
  cbn [andb]. induction (4 * level)%nat as [|k IH]; [reflexivity | exact IH].
Qed.

Lemma printable_join (sep : str) (chunks : list str) :
  forallb printable sep = true ->
  Forall (fun c => forallb printable c = true) chunks ->
  forallb printable (join_items sep chunks) = true.
Proof.
  intros Hs. induction 1 as [|c cs Hc Hcs IH]; [reflexivity|].
  destruct cs as [|c' cs]; [exact Hc|].
  rewrite join_items_cons by discriminate.
  rewrite !printable_app, Hc, Hs, IH. reflexivity.
Qed.

Lemma printable_dump (v : json) : forall level, forallb printable (dump level v) = true.
Proof.
  induction v as [ | b | z | s | l IH | kvs IH ] using json_induction; intros level.
  - reflexivity.
  - destruct b; reflexivity.
  - apply printable_int.
  - apply printable_string.
  - destruct l as [|x l]; [reflexivity|].
    cbn [dump]. rewrite !printable_app, !printable_indent.
    rewrite printable_join; [reflexivity | apply printable_indent|].
    apply Forall_map. revert IH. apply Forall_impl. auto.
  - destruct kvs as [|kv kvs]; [reflexivity|].
    cbn [dump]. rewrite !printable_app, !printable_indent.
    rewrite printable_join; [reflexivity | apply printable_indent|].
    apply Forall_map. revert IH. apply Forall_impl.
    intros [k x] Hx. cbn [snd] in Hx.
    now rewrite !printable_app, printable_string, Hx.
Qed.

(** X2.  The text [save_data] writes is plain ASCII whatever the document
    contains: every character is a line feed or between the space and the
    tilde. *)
Theorem save_data_writes_ascii (data : Document) (f : file) :
  exists text : str,
    save_data data f = Ok (tt, Some text)
    /\ Forall (fun c => code c = 10 \/ 32 <= code c <= 126)%N text.
Proof.
  eexists. split; [reflexivity|].
  apply Forall_forall. intros c Hc.
  pose proof (printable_dump (Shape.document_to_json data) 0) as P.
  rewrite forallb_forall in P. specialize (P c Hc). unfold printable in P.
  rewrite orb_true_iff, andb_true_iff, N.eqb_eq, !N.leb_le in P. exact P.
Qed.

(** X3.  Two documents that [save_data] writes as the same text are the
    same document. *)
Theorem saved_injective (d1 d2 : Document) : saved d1 = saved d2 -> d1 = d2.
Proof.
  intros E. pose proof (holds_saved d1) as H1. pose proof (holds_saved d2) as H2.
  unfold holds in *. rewrite E in H1. rewrite H1 in H2. now injection H2.
Qed.

Lemma saved_injective_witness :
  saved sample_document = saved sample_document /\ sample_document = sample_document.
Proof.
  split; [reflexivity | apply (saved_injective sample_document sample_document); reflexivity].
Defined.


End StoreExtras.

(* ================================================================== *)
(** * Further properties of the credential functions *)

Module AuthExtras.
Import Py PyFacts StoreFacts EntryFacts.

Lemma hex_char_digit (d : N) :
  (d < 16)%N -> hex_char (chr_ascii (hex_digit d)) = true.
Proof.
  intros H.
  assert (E : (d = 0 \/ d = 1 \/ d = 2 \/ d = 3 \/ d = 4 \/ d = 5 \/ d = 6 \/ d = 7
               \/ d = 8 \/ d = 9 \/ d = 10 \/ d = 11 \/ d = 12 \/ d = 13 \/ d = 14
               \/ d = 15)%N) by lia.
  repeat (destruct E as [-> | E]; [reflexivity|]). subst; reflexivity.
Qed.

Lemma hex_word_chars (x : N) :
  List.length (Hashlib.hex_word x) = 8
  /\ forallb hex_char (map chr_ascii (Hashlib.hex_word x)) = true.
Proof.
  unfold Hashlib.hex_word. split; [now rewrite length_map|].
  cbn [map forallb]. rewrite !hex_char_digit by (apply N.mod_lt; discriminate).
  reflexivity.
Qed.

(** X4.  Whatever the password, [hash_password] gives 64 characters, each
    a digit or a letter from a to f: the stored password has the layout of
    a SHA-256 hex digest and never the length of the plaintext. *)
Theorem hash_password_is_hex_digest (password : str) :
  List.length (hash_password password) = 64
  /\ Forall (fun c => hex_char c = true) (hash_password password).
Proof.
  unfold hash_password, Hashlib.hexdigest, decode_ascii.
  assert (G : forall ws, List.length (flat_map Hashlib.hex_word ws) = 8 * List.length ws
                         /\ forallb hex_char (map chr_ascii (flat_map Hashlib.hex_word ws))
                            = true).
  { induction ws as [|x ws [IH1 IH2]]; [split; reflexivity|].
    destruct (hex_word_chars x) as [L C]. cbn [flat_map].
    rewrite length_app, map_app, forallb_app, L, C, IH1, IH2. split; [cbn; lia | reflexivity]. }
  destruct (G (Hashlib.sha256 (encode_utf8 password))) as [L C]. split.
  - rewrite length_map, L. reflexivity.
  - apply Forall_forall. now apply forallb_forall.
Qed.

Lemma find_app_none {A : Type} (p : A -> bool) (l1 l2 : list A) :
  (forall x, In x l1 -> p x = false) -> find p (l1 ++ l2) = find p l2.
Proof.
  induction l1 as [|a l1 IH]; intros H; [reflexivity|].
  cbn [app find]. rewrite (H a) by now left. apply IH. intros x Hx. apply H. now right.
Qed.

Lemma username_free (username : str) (us : list User) :
  existsb (fun u => str_eqb (u_username u) username) us = false
  <-> forall u, In u us -> u_username u <> username.
Proof.
  split.
  - intros E u Hin Hu.
    assert (T : existsb (fun u => str_eqb (u_username u) username) us = true).
    { apply existsb_exists. exists u. split; [assumption | now apply str_eqb_eq]. }
    congruence.
  - intros H. destruct (existsb _ us) eqn:E; [|reflexivity].
    apply existsb_exists in E. destruct E as (u & Hin & Hu).
    apply str_eqb_eq in Hu. now destruct (H u Hin).
Qed.

(** X5.  On a backing file that holds [data], when no stored user has the
    username, [register_user] returns [True] and [login_user] with the
    same username and password then returns the user just registered: the
    id is the former number of users plus one and the full name is the
    one given. *)
Theorem register_then_login (f : file) (data : Document)
    (username password full_name : str) :
  holds f data ->
  (forall u, In u (users data) -> u_username u <> username) ->
  exists f' : file,
    register_user username password full_name f = Ok (true, f')
    /\ login_user username password f'
       = Ok (Some (mkUser (Z.of_nat (List.length (users data)) + 1) username
                          (hash_password password) full_name), f').
Proof.
  intros H Hfree. rewrite (register_user_holds f data username password full_name H).
  rewrite (proj2 (username_free username (users data)) Hfree).
  eexists. split; [reflexivity|].
  unfold login_user, mbind. rewrite holds_saved. unfold ret. cbn [users].
  rewrite find_app_none.
  - cbn [find u_username u_password]. now rewrite !str_eqb_refl.
  - intros u Hin. cbn beta.
    replace (str_eqb (u_username u) username) with false; [reflexivity|].
    symmetry. apply not_true_is_false. rewrite str_eqb_eq. now apply Hfree.
Qed.

Lemma register_then_login_witness :
  holds sample_file sample_document
  /\ exists f' : file,
      register_user (lit "bob") (lit "secret") (lit "Bob B") sample_file = Ok (true, f')
      /\ login_user (lit "bob") (lit "secret") f'
         = Ok (Some (mkUser 2 (lit "bob") (hash_password (lit "secret")) (lit "Bob B")), f').
Proof.
  split; [vm_compute; reflexivity|].
  apply (register_then_login sample_file sample_document (lit "bob") (lit "secret")
           (lit "Bob B")).
  - vm_compute. reflexivity.
  - intros u [<- | []]. vm_compute. discriminate.
Defined.

Lemma sequential_snoc (ids : list Z) :
  sequential ids -> sequential (ids ++ [Z.of_nat (List.length ids) + 1]%Z).
Proof.
  unfold sequential. intros H. rewrite length_app. cbn [List.length].
  rewrite Nat.add_1_r, seq_S, map_app. cbn [map Nat.add]. now rewrite <- H.
Qed.

Lemma sequential_NoDup (ids : list Z) : sequential ids -> NoDup ids.
Proof.
  intros ->. apply Finite.Injective_map_NoDup; [|apply seq_NoDup].
  intros a b E. lia.
Qed.

(** X6.  When the stored users have distinct usernames and the ids
    1, 2, ... in storage order, they still have after [register_user],
    whatever it returns; so after any number of registrations from the
    empty document no two users share a username or an id. *)
Theorem register_user_keeps_users_ok (f : file) (data : Document)
    (username password full_name : str) :
  holds f data -> users_ok data ->
  exists (r : bool) (f' : file) (data' : Document),
    register_user username password full_name f = Ok (r, f')
    /\ holds f' data' /\ users_ok data'
    /\ NoDup (map u_id (users data')).
Proof.
  intros H [Hn Hs]. rewrite (register_user_holds f data username password full_name H).
  destruct (existsb _ (users data)) eqn:E.
  - exists false, f, data. split; [reflexivity|]. split; [exact H|].
    split; [now split | now apply sequential_NoDup].
  - eexists true, _, _. split; [reflexivity|]. split; [apply holds_saved|].
    assert (Hs' : sequential (map u_id (users data)
                              ++ [Z.of_nat (List.length (users data)) + 1]%Z)).
    { rewrite <- (length_map u_id). now apply sequential_snoc. }
    cbn [users]. unfold users_ok. cbn [users]. rewrite !map_app. cbn [map u_id u_username].
    split; [split; [|exact Hs'] | now apply sequential_NoDup].
    rewrite <- (rev_involutive (map u_username (users data) ++ [username])).
    apply NoDup_rev. rewrite rev_app_distr. cbn [rev app].
    constructor; [|now apply NoDup_rev].
    rewrite <- in_rev, in_map_iff. intros (u & Hu & Hin).
    exact (proj1 (username_free username (users data)) E u Hin Hu).
Qed.

Lemma register_user_keeps_users_ok_witness :
  holds sample_file sample_document /\ users_ok sample_document
  /\ exists (r : bool) (f' : file) (data' : Document),
      register_user (lit "bob") (lit "secret") (lit "Bob B") sample_file = Ok (r, f')
      /\ holds f' data' /\ users_ok data'.
Proof.
  assert (U : users_ok sample_document).
  { split; [repeat constructor; intros [] | reflexivity]. }
  split; [vm_compute; reflexivity|]. split; [exact U|].
  destruct (register_user_keeps_users_ok sample_file sample_document (lit "bob")
              (lit "secret") (lit "Bob B")) as (r & f' & data' & R & Hf' & U' & _);
    [vm_compute; reflexivity | exact U |].
  exists r, f', data'. auto.
Defined.

End AuthExtras.

(* ================================================================== *)
(** * Further properties of the entry functions *)

Module EntryExtras.
Import Py PyFacts StoreFacts EntryFacts AuthExtras.

Lemma get_entries_holds (f : file) (data : Document) (user_id : Z) :
  holds f data ->
  get_entries user_id f = Ok (filter (owned_by user_id) (entries data), f).
Proof. intros H. unfold get_entries, mbind. now rewrite H. Qed.

Lemma find_app_some {A : Type} (p : A -> bool) (l1 l2 : list A) (x : A) :
  find p l1 = Some x -> find p (l1 ++ l2) = Some x.
Proof.
  induction l1 as [|a l1 IH]; [discriminate|]. cbn [app find].
  destruct (p a); [auto | exact IH].
Qed.

Lemma filter_map_same {A : Type} (p : A -> bool) (g : A -> A) (l : list A) :
  (forall x, p (g x) = p x) -> filter p (map g l) = map g (filter p l).
Proof.
  intros H. induction l as [|x l IH]; [reflexivity|].
  cbn [map filter]. rewrite H. destruct (p x); cbn [map]; now rewrite IH.
Qed.

(** X7.  On a backing file that holds [data], after [create_entry] the id
    given to the new entry is found by [get_entry]: it returns the new
    entry when no stored entry had that id, and otherwise the first stored
    entry that had it, which hides the new one. *)
Theorem create_entry_then_get_entry (f : file) (data : Document) (c : CreateCall) :
  holds f data ->
  let new_id := (Z.of_nat (List.length (entries data)) + 1)%Z in
  exists f' : file,
    call_create c f = Ok (tt, f')
    /\ ((forall e, In e (entries data) -> e_id e <> new_id) ->
        get_entry new_id f'
        = Ok (Some (created_entry (List.length (entries data)) c), f'))
    /\ (forall e0, get_entry new_id f = Ok (Some e0, f) ->
        get_entry new_id f' = Ok (Some e0, f')
        /\ In e0 (entries data)).
Proof.
  intros H new_id. rewrite (create_entry_holds f data c H).
  eexists. split; [reflexivity|].
  rewrite (get_entry_holds _ _ _ (holds_saved _)). cbn [entries]. split.
  - intros Hfresh. rewrite find_app_none.
    + cbn [find created_entry e_id]. fold new_id. now rewrite Z.eqb_refl.
    + intros e Hin. apply Z.eqb_neq. now apply Hfresh.
  - intros e0. rewrite (get_entry_holds f data new_id H). intros [= E].
    rewrite (find_app_some _ _ _ _ E). split; [reflexivity|].
    now apply find_some in E.
Qed.

Lemma create_entry_then_get_entry_witness :
  holds sample_file sample_document
  /\ exists f' : file,
      call_create sample_call sample_file = Ok (tt, f')
      /\ get_entry 2 f' = Ok (Some (created_entry 1 sample_call), f').
Proof.
  split; [vm_compute; reflexivity|].
  destruct (create_entry_then_get_entry sample_file sample_document sample_call)
    as (f' & R & Hnew & _); [vm_compute; reflexivity|].
  exists f'. split; [exact R|]. apply Hnew.
  intros e [<- | []]. vm_compute. discriminate.
Defined.

(** X8.  When the stored entries have the ids 1, 2, ... in storage order,
    they still have after [create_entry] and after [update_entry]: without
    a deletion no two entries share an id. *)
Theorem create_and_update_keep_ids_sequential (f : file) (data : Document) :
  holds f data -> sequential (map e_id (entries data)) ->
  NoDup (map e_id (entries data))
  /\ (forall c : CreateCall,
        exists f' data',
          call_create c f = Ok (tt, f') /\ holds f' data'
          /\ sequential (map e_id (entries data')))
  /\ (forall entry_id household_name father_name mobile_no address dustbin_number,
        exists f' data',
          update_entry entry_id household_name father_name mobile_no address
                       dustbin_number f = Ok (tt, f')
          /\ holds f' data' /\ sequential (map e_id (entries data'))).
Proof.
  intros H Hs. split; [now apply sequential_NoDup|]. split.
  - intros c. rewrite (create_entry_holds f data c H).
    eexists _, _. split; [reflexivity|]. split; [apply holds_saved|].
    cbn [entries]. rewrite map_app. cbn [map created_entry e_id].
    rewrite <- (length_map e_id). now apply sequential_snoc.
  - intros entry_id h fa m a n.
    rewrite (update_entry_holds f data entry_id h fa m a n H).
    eexists _, _. split; [reflexivity|]. split; [apply holds_saved|].
    cbn [entries]. rewrite map_map.
    rewrite (map_ext _ e_id); [exact Hs|].
    intros e. now destruct (e_id e =? entry_id)%Z.
Qed.

Lemma create_and_update_keep_ids_sequential_witness :
  holds sample_file sample_document
  /\ sequential (map e_id (entries sample_document))
  /\ NoDup (map e_id (entries sample_document)).
Proof.
  split; [vm_compute; reflexivity|]. split; [reflexivity|].
  apply (create_and_update_keep_ids_sequential sample_file sample_document);
    [vm_compute; reflexivity | reflexivity].
Defined.

(** X9.  On a backing file that holds [data], [update_entry] gives the five
    new field values to every stored entry with the id, not only to the
    first one; the ids, user ids, images and creation times of all entries
    stay as they were, in order; and [get_entries] of any user returns the
    same entries as before with the replacement applied. *)
Theorem update_entry_every_match (f : file) (data : Document) (entry_id : Z)
    (household_name father_name mobile_no address : str) (dustbin_number : Z) :
  holds f data ->
  exists (f' : file) (data' : Document),
    update_entry entry_id household_name father_name mobile_no address
                 dustbin_number f = Ok (tt, f')
    /\ holds f' data'
    /\ (forall e, In e (entries data') -> e_id e = entry_id ->
          printed_fields e
          = (household_name, father_name, mobile_no, address, dustbin_number))
    /\ map e_id (entries data') = map e_id (entries data)
    /\ map e_user_id (entries data') = map e_user_id (entries data)
    /\ map e_image (entries data') = map e_image (entries data)
    /\ map e_created_at (entries data') = map e_created_at (entries data)
    /\ (forall user_id es,
          get_entries user_id f = Ok (es, f) ->
          get_entries user_id f'
          = Ok (map (fun e => if has_id entry_id e
                              then set_fields household_name father_name mobile_no
                                              address dustbin_number e
                              else e) es, f')).
Proof.
  intros H.
  rewrite (update_entry_holds f data entry_id household_name father_name mobile_no
             address dustbin_number H).
  set (u := fun e => if Z.eqb (e_id e) entry_id
                     then set_fields household_name father_name mobile_no address
                                     dustbin_number e
                     else e).
  exists (saved (mkDocument (users data) (map u (entries data)))),
         (mkDocument (users data) (map u (entries data))).
  split; [reflexivity|]. split; [apply holds_saved|]. cbn [entries].
  assert (K : forall (A : Type) (g : Entry -> A),
             (forall e, g (u e) = g e) ->
             map g (map u (entries data)) = map g (entries data)).
  { intros A g Hg. rewrite map_map. now apply map_ext. }
  split; [|repeat split].
  - intros e Hin He. apply in_map_iff in Hin. destruct Hin as (e0 & <- & _).
    unfold u in *. destruct (e_id e0 =? entry_id)%Z eqn:E; [reflexivity|].
    apply Z.eqb_neq in E. contradiction.
  - apply K. intros e. unfold u. now destruct (e_id e =? entry_id)%Z.
  - apply K. intros e. unfold u. now destruct (e_id e =? entry_id)%Z.
  - apply K. intros e. unfold u. now destruct (e_id e =? entry_id)%Z.
  - apply K. intros e. unfold u. now destruct (e_id e =? entry_id)%Z.
  - intros user_id es. rewrite (get_entries_holds f data user_id H). intros [= <-].
    rewrite (get_entries_holds _ _ user_id (holds_saved _)). cbn [entries].
    rewrite filter_map_same; [reflexivity|].
    intros e. unfold owned_by, u. now destruct (e_id e =? entry_id)%Z.
Qed.

Lemma update_entry_every_match_witness :
  holds sample_file sample_document
  /\ exists (f' : file) (data' : Document),
      update_entry 1 (lit "Patel House") (lit "K Patel") (lit "8888888888")
                   (lit "4 Station Road") 2 sample_file = Ok (tt, f')
      /\ holds f' data'
      /\ map e_id (entries data') = [1%Z].
Proof.
  split; [vm_compute; reflexivity|].
  destruct (update_entry_every_match sample_file sample_document 1%Z
              (lit "Patel House") (lit "K Patel") (lit "8888888888")
              (lit "4 Station Road") 2%Z)
    as (f' & data' & R & Hf' & _ & Hid & _); [vm_compute; reflexivity|].
  exists f', data'. auto.
Defined.

End EntryExtras.

Module EntryExtras2.
Import Py PyFacts StoreFacts EntryFacts EntryExtras.

Lemma then_saved {A : Type} (m : M unit) (k : M A) (f : file) (d : Document) :
  m f = Ok (tt, saved d) -> (m ;;; k) f = k (saved d).
Proof. intros E. unfold mbind. now rewrite E. Qed.

(** X10.  On a backing file that holds [data], two [update_entry] calls for
    the same id leave the file the second call alone would leave: the last
    write wins; and two calls for different ids leave the same file in
    either order. *)
Theorem update_entry_last_write_wins (f : file) (data : Document) (id1 id2 : Z)
    (h1 f1 m1 a1 h2 f2 m2 a2 : str) (n1 n2 : Z) :
  holds f data ->
  (update_entry id1 h1 f1 m1 a1 n1 ;;; update_entry id1 h2 f2 m2 a2 n2) f
  = update_entry id1 h2 f2 m2 a2 n2 f
  /\ (id1 <> id2 ->
      (update_entry id1 h1 f1 m1 a1 n1 ;;; update_entry id2 h2 f2 m2 a2 n2) f
      = (update_entry id2 h2 f2 m2 a2 n2 ;;; update_entry id1 h1 f1 m1 a1 n1) f).
Proof.
  intros H. split.
  - rewrite (then_saved _ _ _ _ (update_entry_holds f data id1 h1 f1 m1 a1 n1 H)).
    rewrite (update_entry_holds _ _ id1 h2 f2 m2 a2 n2 (holds_saved _)).
    rewrite (update_entry_holds f data id1 h2 f2 m2 a2 n2 H).
    cbn [users entries]. do 4 f_equal. rewrite map_map. apply map_ext.
    intros e. destruct (e_id e =? id1)%Z eqn:E.
    + cbn [set_fields e_id]. now rewrite E.
    + now rewrite E.
  - intros Hne.
    rewrite (then_saved _ _ _ _ (update_entry_holds f data id1 h1 f1 m1 a1 n1 H)).
    rewrite (then_saved _ _ _ _ (update_entry_holds f data id2 h2 f2 m2 a2 n2 H)).
    rewrite !(update_entry_holds _ _ _ _ _ _ _ _ (holds_saved _)).
    cbn [users entries]. do 4 f_equal. rewrite !map_map. apply map_ext.
    intros e. destruct (e_id e =? id1)%Z eqn:E1; destruct (e_id e =? id2)%Z eqn:E2;
      cbn [set_fields e_id]; rewrite ?E1, ?E2; try reflexivity.
    apply Z.eqb_eq in E1, E2. congruence.
Qed.

Lemma update_entry_last_write_wins_witness :
  holds sample_file sample_document
  /\ (update_entry 1 (lit "A") (lit "B") (lit "C") (lit "D") 1 ;;;
      update_entry 1 (lit "E") (lit "F") (lit "G") (lit "H") 2) sample_file
     = update_entry 1 (lit "E") (lit "F") (lit "G") (lit "H") 2 sample_file.
Proof.
  assert (H : holds sample_file sample_document) by (vm_compute; reflexivity).
  split; [exact H|].
  exact (proj1 (update_entry_last_write_wins sample_file sample_document 1%Z 1%Z
                  (lit "A") (lit "B") (lit "C") (lit "D")
                  (lit "E") (lit "F") (lit "G") (lit "H") 1%Z 2%Z H)).
Defined.

(** X11.  On a backing file that holds [data], a second [delete_entry] of
    the same id changes nothing, and two deletions leave the same file in
    either order. *)
Theorem delete_entry_idempotent_commutes (f : file) (data : Document) (id1 id2 : Z) :
  holds f data ->
  (delete_entry id1 ;;; delete_entry id1) f = delete_entry id1 f
  /\ (delete_entry id1 ;;; delete_entry id2) f
     = (delete_entry id2 ;;; delete_entry id1) f.
Proof.
  intros H.
  rewrite !(then_saved _ _ _ _ (delete_entry_holds f data _ H)).
  rewrite !(delete_entry_holds _ _ _ (holds_saved _)).
  rewrite (delete_entry_holds f data id1 H). cbn [users entries]. split.
  - do 4 f_equal. induction (entries data) as [|e l IH]; [reflexivity|].
    cbn [filter]. destruct (negb (e_id e =? id1)%Z) eqn:E; [|exact IH].
    cbn [filter]. now rewrite E, IH.
  - do 4 f_equal. induction (entries data) as [|e l IH]; [reflexivity|].
    cbn [filter].
    destruct (negb (e_id e =? id1)%Z) eqn:E1; destruct (negb (e_id e =? id2)%Z) eqn:E2;
      cbn [filter]; rewrite ?E1, ?E2, IH; reflexivity.
Qed.

Lemma delete_entry_idempotent_commutes_witness :
  holds sample_file sample_document
  /\ (delete_entry 1 ;;; delete_entry 1) sample_file = delete_entry 1 sample_file.
Proof.
  assert (H : holds sample_file sample_document) by (vm_compute; reflexivity).
  split; [exact H|].
  exact (proj1 (delete_entry_idempotent_commutes sample_file sample_document
                  1%Z 1%Z H)).
Defined.

(** X12.  On a backing file that holds [data], an update of an entry that
    is deleted next leaves no trace, and an update after the deletion of
    the id changes nothing: both sequences leave the file [delete_entry]
    alone leaves. *)
Theorem update_and_delete_same_id (f : file) (data : Document) (entry_id : Z)
    (household_name father_name mobile_no address : str) (dustbin_number : Z) :
  holds f data ->
  (update_entry entry_id household_name father_name mobile_no address dustbin_number ;;;
   delete_entry entry_id) f = delete_entry entry_id f
  /\ (delete_entry entry_id ;;;
      update_entry entry_id household_name father_name mobile_no address dustbin_number) f
     = delete_entry entry_id f.
Proof.
  intros H.
  rewrite (then_saved _ _ _ _ (update_entry_holds f data entry_id household_name
                                 father_name mobile_no address dustbin_number H)).
  rewrite (then_saved _ _ _ _ (delete_entry_holds f data entry_id H)).
  rewrite (delete_entry_holds _ _ _ (holds_saved _)).
  rewrite (update_entry_holds _ _ _ _ _ _ _ _ (holds_saved _)).
  rewrite (delete_entry_holds f data entry_id H). cbn [users entries]. split.
  - do 4 f_equal. induction (entries data) as [|e l IH]; [reflexivity|].
    cbn [map filter]. destruct (e_id e =? entry_id)%Z eqn:E.
    + cbn [set_fields e_id]. rewrite E. exact IH.
    + rewrite E. cbn [negb]. now rewrite IH.
  - do 4 f_equal. apply map_id_absent. intros e Hin. apply filter_In in Hin.
    destruct Hin as [_ Hk]. apply negb_true_iff in Hk. now apply Z.eqb_neq.
Qed.

Lemma update_and_delete_same_id_witness :
  holds sample_file sample_document
  /\ (update_entry 1 (lit "A") (lit "B") (lit "C") (lit "D") 1 ;;; delete_entry 1)
       sample_file = delete_entry 1 sample_file.
Proof.
  assert (H : holds sample_file sample_document) by (vm_compute; reflexivity).
  split; [exact H|].
  exact (proj1 (update_and_delete_same_id sample_file sample_document 1%Z
                  (lit "A") (lit "B") (lit "C") (lit "D") 1%Z H)).
Defined.

(** X13.  On a backing file that holds [data], [delete_entry] removes the
    entries with the id whoever owns them: the number of entries goes down
    by the number of stored entries with the id, and [get_entries] of any
    user afterwards returns what it returned before without the entries
    with the id. *)
Theorem delete_entry_listing (f : file) (data : Document) (entry_id : Z) :
  holds f data ->
  exists (f' : file) (data' : Document),
    delete_entry entry_id f = Ok (tt, f')
    /\ holds f' data'
    /\ List.length (entries data')
       + List.length (filter (has_id entry_id) (entries data))
       = List.length (entries data)
    /\ (forall user_id es,
          get_entries user_id f = Ok (es, f) ->
          get_entries user_id f'
          = Ok (filter (fun e => negb (has_id entry_id e)) es, f')).
Proof.
  intros H. rewrite (delete_entry_holds f data entry_id H).
  eexists _, _. split; [reflexivity|]. split; [apply holds_saved|].
  cbn [entries]. split.
  - unfold has_id. induction (entries data) as [|e l IH]; [reflexivity|].
    cbn [filter]. destruct (e_id e =? entry_id)%Z; cbn [negb List.length]; lia.
  - intros user_id es. rewrite (get_entries_holds f data user_id H). intros [= <-].
    rewrite (get_entries_holds _ _ user_id (holds_saved _)). cbn [entries].
    do 2 f_equal. unfold has_id.
    induction (entries data) as [|e l IH]; [reflexivity|].
    cbn [filter].
    destruct (negb (e_id e =? entry_id)%Z) eqn:E1; destruct (owned_by user_id e) eqn:E2;
      cbn [filter]; rewrite ?E1, ?E2, IH; reflexivity.
Qed.

Lemma delete_entry_listing_witness :
  holds sample_file sample_document
  /\ exists f' : file,
      delete_entry 1 sample_file = Ok (tt, f')
      /\ get_entries 1 f' = Ok ([], f').
Proof.
  assert (H : holds sample_file sample_document) by (vm_compute; reflexivity).
  split; [exact H|].
  destruct (delete_entry_listing sample_file sample_document 1%Z H)
    as (f' & data' & R & _ & _ & L).
  exists f'. split; [exact R|].
  exact (L 1%Z [created_entry 0 sample_call]
           (EntryExtras.get_entries_holds sample_file sample_document 1%Z H)).
Defined.

(** X14.  On a backing file that holds [data], [create_entry] for a user
    puts the new entry at the end of what [get_entries] returns for that
    user and leaves what it returns for every other user as it was. *)
Theorem create_entry_listing (f : file) (data : Document) (c : CreateCall) :
  holds f data ->
  exists f' : file,
    call_create c f = Ok (tt, f')
    /\ (forall user_id es,
          get_entries user_id f = Ok (es, f) ->
          get_entries user_id f'
          = Ok (if Z.eqb user_id (c_user_id c)
                then es ++ [created_entry (List.length (entries data)) c]
                else es, f')).
Proof.
  intros H. rewrite (create_entry_holds f data c H).
  eexists. split; [reflexivity|].
  intros user_id es. rewrite (get_entries_holds f data user_id H). intros [= <-].
  rewrite (get_entries_holds _ _ user_id (holds_saved _)). cbn [entries].
  do 2 f_equal. rewrite filter_app. cbn [filter].
  unfold owned_by at 2. cbn [created_entry e_user_id].
  rewrite (Z.eqb_sym (c_user_id c) user_id).
  destruct (user_id =? c_user_id c)%Z; [reflexivity | apply List.app_nil_r].
Qed.

Lemma create_entry_listing_witness :
  holds sample_file sample_document
  /\ exists f' : file,
      call_create sample_call sample_file = Ok (tt, f')
      /\ get_entries 7 f' = Ok ([], f').
Proof.
  assert (H : holds sample_file sample_document) by (vm_compute; reflexivity).
  split; [exact H|].
  destruct (create_entry_listing sample_file sample_document sample_call H)
    as (f' & R & L).
  exists f'. split; [exact R|].
  exact (L 7%Z [] (EntryExtras.get_entries_holds sample_file sample_document 7%Z H)).
Defined.

End EntryExtras2.

(* ================================================================== *)
(** * Further properties of the report and of the image field *)

Module ExportExtras.
Import Py PyFacts Fpdf ExportFacts.

Lemma export_entry_fields (page_break : list op -> Z -> bool) (pdf : FPDF)
    (idx : Z) (e1 e2 : Entry) :
  printed_fields e1 = printed_fields e2 ->
  export_entry page_break pdf (idx, e1) = export_entry page_break pdf (idx, e2).
Proof.
  unfold printed_fields. intros [= H1 H2 H3 H4 H5].
  unfold export_entry, entry_line1, entry_line2. now rewrite H1, H2, H3, H4, H5.
Qed.

Lemma export_loop_fields (page_break : list op -> Z -> bool) (es1 es2 : list Entry) :
  map printed_fields es1 = map printed_fields es2 ->
  forall (start : Z) (pdf : FPDF),
    fold_left (export_entry page_break) (enumerate start es1) pdf
    = fold_left (export_entry page_break) (enumerate start es2) pdf.
Proof.
  revert es2; induction es1 as [|e1 es1 IH]; intros [|e2 es2] H start pdf;
    try discriminate; [reflexivity|].
  cbn [map] in H.
  assert (H1 : printed_fields e1 = printed_fields e2) by congruence.
  assert (H2 : map printed_fields es1 = map printed_fields es2) by congruence.
  cbn [enumerate fold_left].
  rewrite (export_entry_fields page_break pdf start e1 e2 H1). now apply IH.
Qed.

(** X15.  The report shows nothing but the five printed fields: two
    sequences of entries that agree on household name, father's name,
    mobile number, address and dustbin count, entry by entry, give the
    same document and the same result of [export_to_pdf], whatever their
    ids, owners, images and creation times. *)
Theorem export_to_pdf_printed_fields_only (page_break : list op -> Z -> bool)
    (document_body : FPDF -> bytes) (es1 es2 : list Entry) :
  map printed_fields es1 = map printed_fields es2 ->
  export_document page_break es1 = export_document page_break es2
  /\ export_to_pdf page_break document_body es1
     = export_to_pdf page_break document_body es2.
Proof.
  intros H.
  assert (E : export_document page_break es1 = export_document page_break es2).
  { unfold export_document. now apply export_loop_fields. }
  split; [exact E|]. unfold export_to_pdf. now rewrite E.
Qed.

Lemma export_to_pdf_printed_fields_only_witness :
  map printed_fields [created_entry 0 sample_call]
  = map printed_fields [created_entry 5 sample_call]
  /\ export_to_pdf (fun _ _ => false) (fun _ => []) [created_entry 0 sample_call]
     = export_to_pdf (fun _ _ => false) (fun _ => []) [created_entry 5 sample_call].
Proof.
  split; [reflexivity|].
  exact (proj2 (export_to_pdf_printed_fields_only (fun _ _ => false) (fun _ => [])
                  [created_entry 0 sample_call] [created_entry 5 sample_call]
                  eq_refl)).
Defined.

Lemma cell_page_count (page_break : list op -> Z -> bool) (w h : Z) (txt : str)
    (ln : bool) (align : str) (pdf : FPDF) :
  List.length (pages (cell page_break w h txt ln align pdf))
  = List.length (pages pdf) + (if page_break (current_page pdf) h then 1 else 0).
Proof.
  unfold cell. cbn [pages]. rewrite draw_length.
  destruct (page_break (current_page pdf) h); cbn [add_page pages].
  - rewrite length_app. reflexivity.
  - lia.
Qed.

Lemma ln_page_count (h : Z) (pdf : FPDF) :
  List.length (pages (Fpdf.ln h pdf)) = List.length (pages pdf).
Proof. unfold Fpdf.ln. cbn [pages]. apply draw_length. Qed.

Lemma export_entry_page_count (page_break : list op -> Z -> bool) (pdf : FPDF)
    (ie : Z * Entry) :
  List.length (pages pdf)
  <= List.length (pages (export_entry page_break pdf ie))
  <= List.length (pages pdf) + 2.
Proof.
  destruct ie as [idx e]. unfold export_entry.
  rewrite ln_page_count, !cell_page_count.
  repeat match goal with
         | |- context [if ?b then 1 else 0] => destruct b
         end; lia.
Qed.

Lemma export_loop_page_count (page_break : list op -> Z -> bool)
    (ies : list (Z * Entry)) (pdf : FPDF) :
  List.length (pages pdf)
  <= List.length (pages (fold_left (export_entry page_break) ies pdf))
  <= List.length (pages pdf) + 2 * List.length ies.
Proof.
  revert pdf; induction ies as [|ie ies IH]; intros pdf; [cbn; lia|].
  cbn [fold_left List.length]. specialize (IH (export_entry page_break pdf ie)).
  pose proof (export_entry_page_count page_break pdf ie). lia.
Qed.

Lemma enumerate_length {A : Type} (start : Z) (l : list A) :
  List.length (enumerate start l) = List.length l.
Proof.
  revert start; induction l as [|x l IH]; intros start; [reflexivity|].
  cbn [enumerate List.length]. now rewrite IH.
Qed.

(** X16.  The report of n entries has at least one page and at most 2n + 2:
    a page is added only before a cell that does not fit, and the report
    draws 2n + 1 cells after its first page. *)
Theorem export_document_page_count (page_break : list op -> Z -> bool)
    (entries : list Entry) :
  1 <= List.length (pages (export_document page_break entries))
    <= 2 * List.length entries + 2.
Proof.
  unfold export_document.
  match goal with
  | |- context [fold_left _ _ ?p] => set (pdf := p)
  end.
  pose proof (export_loop_page_count page_break (enumerate 1 entries) pdf) as B.
  rewrite enumerate_length in B.
  assert (L : 1 <= List.length (pages pdf) <= 2).
  { unfold pdf. rewrite ln_page_count, cell_page_count. cbn [add_page set_font new pages].
    cbn [List.length app]. destruct (page_break _ _); lia. }
  lia.
Qed.

(** ** base64 *)

Lemma sextet_in_alphabet (n : N) : In (Base64.sextet n) Base64.alphabet.
Proof.
  unfold Base64.sextet. apply nth_In.
  change (List.length Base64.alphabet) with 64.
  assert (n mod 64 < 64)%N by (apply N.mod_lt; discriminate). lia.
Qed.

Lemma b64_shape (bs : list N) :
  List.length (Base64.b64 bs) = 4 * ((List.length bs + 2) / 3)
  /\ Forall (fun a => In a Base64.alphabet \/ a = "="%char) (Base64.b64 bs).
Proof.
  assert (G : forall n bs, List.length bs <= n ->
              List.length (Base64.b64 bs) = 4 * ((List.length bs + 2) / 3)
              /\ Forall (fun a => In a Base64.alphabet \/ a = "="%char) (Base64.b64 bs)).
  { induction n as [|n IH]; intros l Hl.
    - destruct l; [split; [reflexivity | constructor] | cbn in Hl; lia].
    - destruct l as [|a [|b [|c l]]].
      + split; [reflexivity | constructor].
      + split; [reflexivity|]. cbn [Base64.b64].
        constructor; [left; apply sextet_in_alphabet|].
        constructor; [left; apply sextet_in_alphabet|].
        constructor; [now right|]. constructor; [now right | constructor].
      + split; [reflexivity|]. cbn [Base64.b64].
        constructor; [left; apply sextet_in_alphabet|].
        constructor; [left; apply sextet_in_alphabet|].
        constructor; [left; apply sextet_in_alphabet|].
        constructor; [now right | constructor].
      + destruct (IH l) as [L F]; [cbn in Hl; lia|].
        change (Base64.b64 (a :: b :: c :: l))
          with (Base64.sextet (N.shiftr a 2)
                :: Base64.sextet (N.lor (N.shiftl (N.land a 3) 4) (N.shiftr b 4))
                :: Base64.sextet (N.lor (N.shiftl (N.land b 15) 2) (N.shiftr c 6))
                :: Base64.sextet (N.land c 63) :: Base64.b64 l).
        split.
        * cbn [List.length]. rewrite L.
          replace (S (S (S (List.length l))) + 2) with (List.length l + 2 + 1 * 3) by lia.
          rewrite Nat.div_add by discriminate. lia.
        * repeat (constructor; [left; apply sextet_in_alphabet|]). exact F. }
  apply (G (List.length bs)). lia.
Qed.

(** X17.  For a photo of n > 0 bytes the image field [create_entry] stores
    has 4 * ceil(n / 3) characters, each a base64 digit or the padding
    sign. *)
Theorem encode_image_shape (b : byte) (bs : bytes) :
  exists s : str,
    encode_image (Some (b :: bs)) = Some s
    /\ List.length s = 4 * ((List.length (b :: bs) + 2) / 3)
    /\ Forall (fun c => exists a, c = chr_ascii a
                                  /\ (In a Base64.alphabet \/ a = "="%char)) s.
Proof.
  eexists. split; [reflexivity|].
  unfold decode_ascii, Base64.b64encode.
  destruct (b64_shape (map Byte.to_N (b :: bs))) as [L F].
  rewrite length_map in *. split; [exact L|].
  apply Forall_map. revert F. apply Forall_impl. intros a Ha. now exists a.
Qed.

End ExportExtras.

(* ================================================================== *)
(** * The pages *)

Module PageFacts.
Import Py PyFacts StoreFacts EntryFacts AuthExtras EntryExtras ExportFacts.

Lemma holds_exists (f : file) (data : Document) :
  holds f data -> exists text, f = Some text.
Proof. destruct f as [text|]; [now exists text | discriminate]. Qed.

Lemma init_data_holds (f : file) (data : Document) :
  holds f data -> init_data f = Ok (tt, f).
Proof. intros H. destruct (holds_exists f data H) as [text ->]. reflexivity. Qed.

Lemma login_user_holds (f : file) (data : Document) (username password : str) :
  holds f data ->
  login_user username password f
  = Ok (find (fun user => str_eqb (u_username user) username
                          && str_eqb (u_password user) (hash_password password))
             (users data), f).
Proof. intros H. unfold login_user, mbind. now rewrite H. Qed.

(** ** The pages in closed form, on a file that holds a document *)

Lemma page_register_holds (form : RegisterForm) (s : option (option User))
    (f : file) (sc : list element) (data : Document) :
  holds f data ->
  page_register form (mkWorld s f sc)
  = let title := Title (Char 0x1F4C5 eq_refl :: lit " Register") in
    if reg_clicked form then
      if existsb (fun u => str_eqb (u_username u) (reg_username form)) (users data)
      then (inl tt, mkWorld s f (sc ++ [title] ++ [Error (lit "Username already exists.")]))
      else (inl tt,
            mkWorld s
              (saved (mkDocument
                        (users data
                         ++ [mkUser (Z.of_nat (List.length (users data)) + 1)
                                    (reg_username form)
                                    (hash_password (reg_password form))
                                    (reg_full_name form)])
                        (entries data)))
              (sc ++ [title]
               ++ [Success (lit "Registration successful. Please login.")]))
    else (inl tt, mkWorld s f (sc ++ [title])).
Proof.
  intros H. unfold page_register, ubind, show, store, pure. cbn [session disk screen].
  destruct (reg_clicked form); [|reflexivity].
  rewrite (register_user_holds f data _ _ _ H).
  destruct (existsb _ (users data)); cbn [session disk screen];
    now rewrite <- app_assoc.
Qed.

Lemma page_login_holds (form : LoginForm) (s : option (option User))
    (f : file) (sc : list element) (data : Document) :
  holds f data ->
  page_login form (mkWorld s f sc)
  = let title := Title (Char 0x1F511 eq_refl :: lit " Login") in
    if log_clicked form then
      match find (fun user => str_eqb (u_username user) (log_username form)
                              && str_eqb (u_password user)
                                         (hash_password (log_password form)))
                 (users data) with
      | Some u =>
          (inl tt, mkWorld (Some (Some u)) f
                     (sc ++ [title]
                      ++ [Success (lit "Welcome " ++ u_full_name u ++ lit "!")]))
      | None =>
          (inl tt, mkWorld s f
                     (sc ++ [title] ++ [Error (lit "Invalid username or password.")]))
      end
    else (inl tt, mkWorld s f (sc ++ [title])).
Proof.
  intros H. unfold page_login, ubind, show, store, pure, set_user.
  cbn [session disk screen].
  destruct (log_clicked form); [|reflexivity].
  rewrite (login_user_holds f data _ _ H).
  destruct (find _ (users data)); cbn [session disk screen];
    now rewrite <- app_assoc.
Qed.

Lemma page_new_entry_user (form : EntryForm) (clock : str) (u : User)
    (f : file) (sc : list element) (data : Document) :
  holds f data ->
  page_new_entry form clock (mkWorld (Some (Some u)) f sc)
  = let title := Title (Char 0x1F4CC eq_refl :: lit " New Entry") in
    if ent_clicked form then
      (inl tt,
       mkWorld (Some (Some u))
         (saved (mkDocument (users data)
                   (entries data
                    ++ [mkEntry (Z.of_nat (List.length (entries data)) + 1) (u_id u)
                                (ent_household_name form) (ent_father_name form)
                                (ent_mobile_no form) (ent_address form)
                                (Z.of_N (ent_dustbin_number form))
                                (encode_image (ent_picture form)) clock])))
         (sc ++ [title] ++ [Success (lit "Entry saved successfully!")]))
    else (inl tt, mkWorld (Some (Some u)) f (sc ++ [title])).
Proof.
  intros H. unfold page_new_entry, ubind, show, store, pure, get_user_id, get_user.
  cbn [session disk screen].
  destruct (ent_clicked form); [|reflexivity].
  unfold ubind, pure. cbn [session disk screen].
  unfold create_entry, mbind. rewrite H. unfold save_data.
  cbn [session disk screen]. rewrite <- app_assoc.
  destruct (ent_picture form); reflexivity.
Qed.

Section Pages.

Variable page_break : list Fpdf.op -> Z -> bool.
Variable document_body : Fpdf.FPDF -> bytes.

Lemma page_entries_user (download : bool) (u : User)
    (f : file) (sc : list element) (data : Document) :
  holds f data ->
  page_entries page_break document_body download (mkWorld (Some (Some u)) f sc)
  = let title := Title (Char 0x1F4CA eq_refl :: lit " My Entries") in
    let es := filter (owned_by (u_id u)) (entries data) in
    match es with
    | [] => (inl tt, mkWorld (Some (Some u)) f
                       (sc ++ [title] ++ [Info (lit "No entries found.")]))
    | _ :: _ =>
        let table := Dataframe (map entry_row es) in
        if download then
          match export_to_pdf page_break document_body es with
          | Ok pdf_data =>
              (inl tt,
               mkWorld (Some (Some u)) f
                 (sc ++ [title] ++ [table]
                  ++ [DownloadButton (lit "Download") pdf_data (lit "entries.pdf")
                                     (lit "application/pdf")]))
          | Py.Raise e =>
              (inr (Raised e), mkWorld (Some (Some u)) f (sc ++ [title] ++ [table]))
          end
        else (inl tt, mkWorld (Some (Some u)) f (sc ++ [title] ++ [table]))
    end.
Proof.
  intros H. unfold page_entries, ubind, show, store, pure, get_user_id, get_user, compute.
  cbn [session disk screen]. unfold ubind, pure. cbn [session disk screen].
  rewrite (get_entries_holds f data (u_id u) H). cbn [session disk screen].
  destruct (filter (owned_by (u_id u)) (entries data)) as [|e es];
    cbn [session disk screen]; [now rewrite <- app_assoc|].
  destruct download; cbn [session disk screen]; [|now rewrite <- !app_assoc].
  destruct (export_to_pdf page_break document_body (e :: es));
    cbn [session disk screen]; now rewrite <- !app_assoc.
Qed.

End Pages.
End PageFacts.

Module MainFacts.
Import Py PyFacts StoreFacts EntryFacts AuthExtras EntryExtras ExportFacts PageFacts.

Section Pages.

Variable page_break : list Fpdf.op -> Z -> bool.
Variable document_body : Fpdf.FPDF -> bytes.

(** [main] without a user in the session: the page by position. *)
Lemma main_anonymous (run : Run) (w : World) (data : Document) :
  holds (disk w) data -> session_user w = None ->
  main page_break document_body run w
  = match nav run with
    | 1 => page_register (register_form run) (started w)
    | 2 => page_login (login_form run) (started w)
    | 3 => logout_world (started w)
    | _ => page_home (started w)
    end.
Proof.
  intros H Hs. unfold main, ubind, show, store, get_user, set_user, pure.
  cbn [session disk screen]. rewrite (init_data_holds _ _ H).
  cbn [session disk screen]. unfold started, session_user in *.
  rewrite <- !app_assoc. cbn [app].
  destruct (session w) as [[u|]|]; [discriminate | |];
    cbn [session disk screen];
    destruct (nav run) as [|[|[|[|[|n]]]]]; reflexivity.
Qed.

(** [main] with a user in the session. *)
Lemma main_user (run : Run) (w : World) (data : Document) (u : User) :
  holds (disk w) data -> session_user w = Some u ->
  main page_break document_body run w
  = match nav run with
    | 1 => page_new_entry (entry_form run) (now run) (started w)
    | 2 => page_entries page_break document_body (download_clicked run) (started w)
    | 3 => logout_world (started w)
    | _ => page_home (started w)
    end.
Proof.
  intros H Hs. unfold main, ubind, show, store, get_user, set_user, pure.
  cbn [session disk screen]. rewrite (init_data_holds _ _ H).
  cbn [session disk screen]. unfold started, session_user in *.
  rewrite <- !app_assoc. cbn [app].
  destruct (session w) as [[u'|]|]; try discriminate.
  cbn [session disk screen].
  destruct (nav run) as [|[|[|[|[|n]]]]]; reflexivity.
Qed.

Lemma started_anonymous (w : World) :
  session_user w = None ->
  started w = mkWorld (Some None) (disk w) (screen w ++ preamble).
Proof.
  unfold session_user, started. destruct (session w) as [[u|]|];
    [discriminate | reflexivity | reflexivity].
Qed.

Lemma started_user (w : World) (u : User) :
  session_user w = Some u ->
  started w = mkWorld (Some (Some u)) (disk w) (screen w ++ preamble).
Proof.
  unfold session_user, started. destruct (session w) as [[u'|]|]; try discriminate.
  now intros [= ->].
Qed.

Lemma encode_latin1_app (a b : str) (x y : bytes) :
  encode_latin1 a = Ok x -> encode_latin1 b = Ok y ->
  encode_latin1 (a ++ b) = Ok (x ++ y).
Proof.
  revert x; induction a as [|c a IH]; intros x Ha Hb.
  - injection Ha as <-. exact Hb.
  - cbn [encode_latin1 app] in *. destruct (code c <? 256)%N; [|discriminate].
    destruct (encode_latin1 a) as [x'|] eqn:Ea; [|discriminate].
    cbn [bind] in Ha. injection Ha as <-.
    rewrite (IH x' eq_refl Hb). reflexivity.
Qed.

Lemma export_to_pdf_cases (entries : list Entry) :
  export_to_pdf page_break document_body entries
  = if forallb entry_latin1 entries
    then Ok (pdf_header ++ document_body (export_document page_break entries))
    else Py.Raise UnicodeEncodeError.
Proof.
  destruct (export_document_pages page_break entries) as [_ L].
  pose proof (export_text_latin1 page_break entries) as T.
  unfold export_to_pdf, Fpdf.output. rewrite (close_pages _ L).
  destruct (forallb entry_latin1 entries).
  - destruct (encode_latin1_ok _ T) as (bs & -> & _). cbn [bind].
    change (lit "%PDF-1.3" ++ Json.newline
            :: Fpdf.decode_latin1 (document_body (export_document page_break entries)))
      with (map chr_ascii (list_ascii_of_string "%PDF-1.3" ++ [ascii_of_N 10])
            ++ Fpdf.decode_latin1 (document_body (export_document page_break entries))).
    apply encode_latin1_app; [apply encode_latin1_ascii | apply encode_decode_latin1].
  - now rewrite (encode_latin1_raise _ T).
Qed.

End Pages.
End MainFacts.

Module MainExtras.
Import Py PyFacts StoreFacts EntryFacts AuthExtras EntryExtras ExportFacts PageFacts
       MainFacts.

Lemma page_home_user (u : User) (f : file) (sc : list element) :
  page_home (mkWorld (Some (Some u)) f sc)
  = (inl tt, mkWorld (Some (Some u)) f
               (sc ++ [Title (Char 0x1F3E0 eq_refl :: lit " Home")]
                ++ [Success (lit "Logged in as " ++ u_full_name u)])).
Proof.
  unfold page_home, ubind, show, get_user. cbn [session disk screen].
  now rewrite <- app_assoc.
Qed.

Lemma page_home_anonymous (f : file) (sc : list element) :
  page_home (mkWorld (Some None) f sc)
  = (inl tt, mkWorld (Some None) f
               (sc ++ [Title (Char 0x1F3E0 eq_refl :: lit " Home")]
                ++ [Info (lit "Please login or register.")])).
Proof.
  unfold page_home, ubind, show, get_user. cbn [session disk screen].
  now rewrite <- app_assoc.
Qed.

Section Pages.

Variable page_break : list Fpdf.op -> Z -> bool.
Variable document_body : Fpdf.FPDF -> bytes.

(** The run in closed form, page by page. *)
Ltac open_run H :=
  match goal with
  | |- context [main _ _ ?run ?w] =>
      destruct (session_user w) as [u|] eqn:Hs;
      [ rewrite (main_user page_break document_body run w _ u H Hs),
                (started_user w u Hs);
        destruct (nav run) as [|[|[|[|n]]]] eqn:Hnav;
        [ rewrite page_home_user
        | rewrite (page_new_entry_user _ _ _ _ _ _ H)
        | rewrite (page_entries_user page_break document_body _ _ _ _ _ H);
          cbn zeta; rewrite export_to_pdf_cases
        | unfold logout_world
        | rewrite page_home_user ]
      | rewrite (main_anonymous page_break document_body run w _ H Hs),
                (started_anonymous w Hs);
        destruct (nav run) as [|[|[|[|n]]]] eqn:Hnav;
        [ rewrite page_home_anonymous
        | rewrite (page_register_holds _ _ _ _ _ H)
        | rewrite (page_login_holds _ _ _ _ _ H)
        | unfold logout_world
        | rewrite page_home_anonymous ] ];
      cbn zeta; cbn [session disk screen]
  end.

Ltac session_case :=
  split; [discriminate|];
  split; [intros N; (discriminate N || reflexivity)
         | intros u' E; cbn in E; try discriminate E; injection E as <-; now left].

(** X18.  On a backing file that holds [data], a run of [main] ends well
    or raises [UnicodeEncodeError]; it raises only on the page of the
    entries of a logged-in user, when the download is asked for and an
    entry of that user has a character above U+00FF in a printed field.
    Whatever the widgets return, no page reads the id of a user the
    session does not have. *)
Theorem main_fails_only_on_export (run : Run) (w : World) (data : Document) :
  holds (disk w) data ->
  fst (main page_break document_body run w) = inl tt
  \/ (fst (main page_break document_body run w) = inr (Raised UnicodeEncodeError)
      /\ exists u, session_user w = Some u
                   /\ nav run = 2 /\ download_clicked run = true
                   /\ forallb entry_latin1
                        (filter (owned_by (u_id u)) (entries data)) = false).
Proof.
  intros H. open_run H.
  - now left.
  - destruct (ent_clicked _); now left.
  - destruct (filter (owned_by (u_id u)) (entries data)) as [|e es] eqn:E; [now left|].
    destruct (download_clicked run) eqn:D; [|now left].
    destruct (forallb entry_latin1 (e :: es)) eqn:L; [now left|].
    right. split; [reflexivity|]. exists u. rewrite E. auto.
  - now left.
  - now left.
  - now left.
  - destruct (reg_clicked _); [destruct (existsb _ _)|]; now left.
  - destruct (log_clicked _); [destruct (find _ _)|]; now left.
  - now left.
  - now left.
Qed.

(** X19.  On a backing file that holds [data], a run of [main] leaves a
    file that holds a document, and it writes at most one thing: nothing;
    or, without a user in the session, one new user at the end of the
    users, under a username no stored user has; or, with a user in the
    session, one new entry at the end of the entries, owned by that user,
    with a dustbin count that is not negative and the time of the run.  No
    run changes or removes a stored user or entry. *)
Theorem main_appends_only (run : Run) (w : World) (data : Document) :
  holds (disk w) data ->
  exists data' : Document,
    holds (disk (snd (main page_break document_body run w))) data'
    /\ ((disk (snd (main page_break document_body run w)) = disk w /\ data' = data)
        \/ (session_user w = None /\ nav run = 1
            /\ reg_clicked (register_form run) = true
            /\ exists new_user,
                data' = mkDocument (users data ++ [new_user]) (entries data)
                /\ u_username new_user = reg_username (register_form run)
                /\ forall u, In u (users data) -> u_username u <> u_username new_user)
        \/ (exists u e,
              session_user w = Some u /\ nav run = 1
              /\ ent_clicked (entry_form run) = true
              /\ data' = mkDocument (users data) (entries data ++ [e])
              /\ e_user_id e = u_id u
              /\ (0 <= e_dustbin_number e)%Z
              /\ e_created_at e = now run
              /\ e_image e = encode_image (ent_picture (entry_form run)))).
Proof.
  intros H. open_run H.
  - exists data. split; [exact H | left; now split].
  - destruct (ent_clicked (entry_form run)) eqn:C; cbn [snd disk].
    + eexists. split; [apply holds_saved|]. right. right.
      eexists u, _. repeat split. cbn [e_dustbin_number]. lia.
    + exists data. split; [exact H | left; now split].
  - exists data.
    destruct (filter (owned_by (u_id u)) (entries data)) as [|e es];
      [|destruct (download_clicked run);
        [destruct (forallb entry_latin1 (e :: es))|]];
      (split; [exact H | left; now split]).
  - exists data. split; [exact H | left; now split].
  - exists data. split; [exact H | left; now split].
  - exists data. split; [exact H | left; now split].
  - destruct (reg_clicked (register_form run)) eqn:C.
    + destruct (existsb _ (users data)) eqn:E; cbn [snd disk].
      * exists data. split; [exact H | left; now split].
      * eexists. split; [apply holds_saved|]. right. left.
        repeat split. eexists. split; [reflexivity|]. split; [reflexivity|].
        cbn [u_username]. exact (proj1 (username_free _ _) E).
    + exists data. split; [exact H | left; now split].
  - exists data.
    destruct (log_clicked (login_form run)); [destruct (find _ (users data))|];
      (split; [exact H | left; now split]).
  - exists data. split; [exact H | left; now split].
  - exists data. split; [exact H | left; now split].
Qed.

(** X20.  On a backing file that holds [data], after a run of [main] the
    session has the key [user].  It holds a user only if it held that user
    before, or if it held none and the run was a clicked login whose
    username and password match that stored user; the choice [Logout]
    always leaves it without a user. *)
Theorem main_session (run : Run) (w : World) (data : Document) :
  holds (disk w) data ->
  session (snd (main page_break document_body run w)) <> None
  /\ (nav run = 3 -> session_user (snd (main page_break document_body run w)) = None)
  /\ (forall u',
        session_user (snd (main page_break document_body run w)) = Some u' ->
        session_user w = Some u'
        \/ (session_user w = None /\ nav run = 2
            /\ log_clicked (login_form run) = true
            /\ In u' (users data)
            /\ credentials_match (log_username (login_form run))
                                 (log_password (login_form run)) u')).
Proof.
  intros H. open_run H.
  - session_case.
  - destruct (ent_clicked _); cbn [snd session]; session_case.
  - destruct (filter (owned_by (u_id u)) (entries data)) as [|e es];
      [|destruct (download_clicked run);
        [destruct (forallb entry_latin1 (e :: es))|]];
      cbn [snd session]; session_case.
  - session_case.
  - session_case.
  - session_case.
  - destruct (reg_clicked _); [destruct (existsb _ _)|]; cbn [snd session];
      session_case.
  - destruct (log_clicked (login_form run)) eqn:C.
    + destruct (find _ (users data)) as [u0|] eqn:F; cbn [snd session].
      * split; [discriminate|]. split; [discriminate|].
        intros u' [= <-]. right. apply find_some in F. destruct F as [Hin Hm].
        apply AuthFacts.login_test in Hm. auto.
      * session_case.
    + session_case.
  - session_case.
  - session_case.
Qed.

(** X21.  On a backing file that holds [data], a run of [main] displays a
    table or a download only for a user in the session, and then the table
    has one row for each stored entry owned by that user, in storage order,
    and the download is the report of those entries: no run displays an
    entry of another user. *)
Theorem main_shows_own_entries (run : Run) (w : World) (data : Document) :
  holds (disk w) data ->
  exists shown : list element,
    screen (snd (main page_break document_body run w)) = screen w ++ preamble ++ shown
    /\ (forall rows, In (Dataframe rows) shown ->
          exists u, session_user w = Some u
                    /\ rows = map entry_row
                                (filter (owned_by (u_id u)) (entries data)))
    /\ (forall label pdf_data file_name mime,
          In (DownloadButton label pdf_data file_name mime) shown ->
          exists u, session_user w = Some u
                    /\ export_to_pdf page_break document_body
                         (filter (owned_by (u_id u)) (entries data)) = Ok pdf_data).
Proof.
  intros H.
  open_run H.
  - eexists. split; [rewrite <- app_assoc; reflexivity|].
    split; [intros rows [X | [X | []]] | intros a b c d [X | [X | []]]]; discriminate.
  - destruct (ent_clicked _); cbn [snd screen];
      (eexists; split; [rewrite <- app_assoc; reflexivity|]);
      (split; [intros rows Hin | intros a b c d Hin]; cbn in Hin;
       repeat (destruct Hin as [Hin | Hin]; try discriminate); contradiction).
  - rewrite <- export_to_pdf_cases.
    destruct (filter (owned_by (u_id u)) (entries data)) as [|e es] eqn:E.
    + cbn [snd screen]. eexists. split; [rewrite <- app_assoc; reflexivity|].
      split; [intros rows Hin | intros a b c d Hin]; cbn in Hin;
        repeat (destruct Hin as [Hin | Hin]; try discriminate); contradiction.
    + destruct (download_clicked run).
      * destruct (export_to_pdf page_break document_body (e :: es)) as [bs|x] eqn:X;
          cbn [snd screen];
          (eexists; split; [rewrite <- app_assoc; reflexivity|]);
          (split; [intros rows Hin | intros a b c d Hin]; cbn in Hin;
           repeat (destruct Hin as [Hin | Hin]; try discriminate); try contradiction;
           inversion Hin; subst; exists u; (split; [reflexivity | first [reflexivity | exact X | rewrite E; reflexivity | rewrite E; exact X]])).
      * cbn [snd screen]. eexists. split; [rewrite <- app_assoc; reflexivity|].
        split; [intros rows Hin | intros a b c d Hin]; cbn in Hin;
          repeat (destruct Hin as [Hin | Hin]; try discriminate); try contradiction.
        inversion Hin; subst. exists u. split; [reflexivity | first [reflexivity | rewrite E; reflexivity]].
  - cbn [snd screen]. eexists. split; [rewrite <- app_assoc; reflexivity|].
    split; [intros rows Hin | intros a b c d Hin]; cbn in Hin;
      repeat (destruct Hin as [Hin | Hin]; try discriminate); contradiction.
  - eexists. split; [rewrite <- app_assoc; reflexivity|].
    split; [intros rows Hin | intros a b c d Hin]; cbn in Hin;
      repeat (destruct Hin as [Hin | Hin]; try discriminate); contradiction.
  - eexists. split; [rewrite <- app_assoc; reflexivity|].
    split; [intros rows Hin | intros a b c d Hin]; cbn in Hin;
      repeat (destruct Hin as [Hin | Hin]; try discriminate); contradiction.
  - destruct (reg_clicked _); [destruct (existsb _ _)|]; cbn [snd screen];
      (eexists; split; [rewrite <- app_assoc; reflexivity|]);
      (split; [intros rows Hin | intros a b c d Hin]; cbn in Hin;
       repeat (destruct Hin as [Hin | Hin]; try discriminate); contradiction).
  - destruct (log_clicked _); [destruct (find _ _)|]; cbn [snd screen];
      (eexists; split; [rewrite <- app_assoc; reflexivity|]);
      (split; [intros rows Hin | intros a b c d Hin]; cbn in Hin;
       repeat (destruct Hin as [Hin | Hin]; try discriminate); contradiction).
  - cbn [snd screen]. eexists. split; [rewrite <- app_assoc; reflexivity|].
    split; [intros rows Hin | intros a b c d Hin]; cbn in Hin;
      repeat (destruct Hin as [Hin | Hin]; try discriminate); contradiction.
  - eexists. split; [rewrite <- app_assoc; reflexivity|].
    split; [intros rows Hin | intros a b c d Hin]; cbn in Hin;
      repeat (destruct Hin as [Hin | Hin]; try discriminate); contradiction.
Qed.

End Pages.

Lemma sample_world_holds : holds (disk sample_world) sample_document.
Proof. vm_compute. reflexivity. Qed.

Lemma main_fails_only_on_export_witness :
  holds (disk sample_world) sample_document
  /\ (fst (main (fun _ _ => false) (fun _ => []) sample_run sample_world) = inl tt
      \/ fst (main (fun _ _ => false) (fun _ => []) sample_run sample_world)
         = inr (Raised UnicodeEncodeError)).
Proof.
  split; [exact sample_world_holds|].
  destruct (main_fails_only_on_export (fun _ _ => false) (fun _ => []) sample_run
              sample_world sample_document sample_world_holds) as [A | [A _]];
    [left | right]; exact A.
Defined.

Lemma main_appends_only_witness :
  holds (disk sample_world) sample_document
  /\ exists data' : Document,
      holds (disk (snd (main (fun _ _ => false) (fun _ => []) sample_run sample_world)))
            data'.
Proof.
  split; [exact sample_world_holds|].
  destruct (main_appends_only (fun _ _ => false) (fun _ => []) sample_run
              sample_world sample_document sample_world_holds) as (data' & A & _).
  exists data'. exact A.
Defined.

Lemma main_session_witness :
  holds (disk sample_world) sample_document
  /\ session (snd (main (fun _ _ => false) (fun _ => []) sample_run sample_world))
     <> None.
Proof.
  split; [exact sample_world_holds|].
  exact (proj1 (main_session (fun _ _ => false) (fun _ => []) sample_run
                  sample_world sample_document sample_world_holds)).
Defined.

Lemma main_shows_own_entries_witness :
  holds (disk sample_world) sample_document
  /\ exists shown : list element,
      screen (snd (main (fun _ _ => false) (fun _ => []) sample_run sample_world))
      = screen sample_world ++ preamble ++ shown.
Proof.
  split; [exact sample_world_holds|].
  destruct (main_shows_own_entries (fun _ _ => false) (fun _ => []) sample_run
              sample_world sample_document sample_world_holds) as (shown & A & _).
  exists shown. exact A.
Defined.

End MainExtras.
